(** * Empatica wearable loader: a shallow embedding of
    [scripts/load_physiological_data.py] and the properties of its
    ingestion pipeline.

    Python values are modelled as follows.
    - [str] is [string]; a [dict] used as a map is a [gmap]; a [dict] that
      is iterated (insertion order matters) is an association list.
    - Python [float] is the kernel's binary64 [float]; [int] indices are
      [nat].
    - A pandas [Timestamp] is its nanosecond count since the epoch together
      with its [tzinfo]; [NaT] is the timestamp whose count is [iNaT], as
      pandas stores it.
    - A [DataFrame] is the list of its rows.
    - Exceptions are values of [exn]; fallible code returns [exn + A].
    - The BigQuery dataset is a record of its two append-only tables, threaded
      through the methods that write to it.
    [print] calls are not modelled. *)

From Stdlib Require Import Floats.PrimFloat Floats.FloatOps Floats.SpecFloat.
From Stdlib Require Import Numbers.Cyclic.Int63.Uint63.
From Stdlib Require Import QArith.QArith QArith.Qround.
From Stdlib Require Import Numbers.DecimalString Numbers.DecimalNat.
From stdpp Require Import gmap strings list sorting.

Local Open Scope string_scope.

(** ** The known-issues table *)

Module Quality.

(** [EmpaticaDataLoader.KNOWN_ISSUES]. *)
Definition KNOWN_ISSUES : gmap string (gmap string string) :=
  list_to_map
    [ ("STRESS", list_to_map
         [ ("S02", "duplicated_data");
           ("f07", "invalid_signals_no_cover_removed");
           ("f14", "split_data") ]);
      ("AEROBIC", list_to_map
         [ ("S03", "incomplete_procedure");
           ("S07", "incomplete_procedure");
           ("S11", "split_data");
           ("S12", "test_not_performed") ]);
      ("ANAEROBIC", list_to_map
         [ ("S06", "incomplete_procedure");
           ("S16", "split_data") ]) ].

(** The two literal lists of [should_skip_subject]. *)
Definition always_skip : list string :=
  [ "test_not_performed"; "invalid_signals_no_cover_removed" ].

Definition skip_unless_included : list string :=
  [ "incomplete_procedure"; "duplicated_data"; "split_data" ].

(** [issues = self.KNOWN_ISSUES.get(session_type, {})] followed by the
    membership test and the indexing [issues[subject_id]]. *)
Definition known_issue (subject_id session_type : string) : option string :=
  default ∅ (KNOWN_ISSUES !! session_type) !! subject_id.

(** [should_skip_subject]: the pair [(should_skip, reason)]; Python's [None]
    reason is [None]. *)
Definition should_skip_subject (subject_id session_type : string)
    (include_problematic : bool) : bool * option string :=
  match known_issue subject_id session_type with
  | None => (false, None)
  | Some issue =>
      if bool_decide (issue ∈ always_skip) then
        (true, Some ("Excluded: " +:+ issue))
      else if negb include_problematic then
        if bool_decide (issue ∈ skip_unless_included) then
          (true, Some ("Skipped (use --include-problematic to load): " +:+ issue))
        else (false, Some issue)
      else (false, Some issue)
  end.

End Quality.

(** ** Exceptions and fallible code *)

(** The exception classes that occur in the loader.  [OutOfBoundsDatetime]
    of pandas is a subclass of [ValueError] and is represented by it; any
    other subclass of [Exception] (a BigQuery API error, a pandas parser
    error, ...) is [OtherException] with its class name. *)
Inductive exn : Type :=
| ValueError
| TypeError
| IndexError
| KeyError
| ZeroDivisionError
| FileNotFoundError (msg : string)
| DataQualityError (msg : string)
| OtherException (name : string).

(** [type(e).__name__]. *)
Definition class_name (e : exn) : string :=
  match e with
  | ValueError => "ValueError"
  | TypeError => "TypeError"
  | IndexError => "IndexError"
  | KeyError => "KeyError"
  | ZeroDivisionError => "ZeroDivisionError"
  | FileNotFoundError _ => "FileNotFoundError"
  | DataQualityError _ => "DataQualityError"
  | OtherException name => name
  end.

Definition result (A : Type) : Type := exn + A.

Definition Ok {A} (a : A) : result A := inr a.
Definition raise {A} (e : exn) : result A := inl e.

Definition bind {A B} (m : result A) (k : A → result B) : result B :=
  match m with
  | inl e => inl e
  | inr a => k a
  end.

Notation "'let*' x ':=' m 'in' k" := (bind m (fun x => k))
  (at level 10, x pattern, m at level 100, k at level 200, only parsing).

Definition is_Ok {A} (m : result A) : Prop := ∃ a, m = Ok a.

(** [except (ValueError, TypeError)]. *)
Definition is_ValueError_or_TypeError (e : exn) : bool :=
  match e with
  | ValueError | TypeError => true
  | _ => false
  end.

(** A [for] loop whose body updates a local variable and may raise. *)
Fixpoint for_each {I S} (body : I → S → result S) (items : list I) (s : S)
    : result S :=
  match items with
  | [] => Ok s
  | i :: rest => let* s' := body i s in for_each body rest s'
  end.

(** ** Numbers, cells and timestamps *)

(** The conversion of a loop index in [i / sample_rate]: Python rounds an
    [int] to the nearest [float], as [of_uint63] does below [2^63]. *)
Definition float_of_int (i : nat) : float :=
  PrimFloat.of_uint63 (Uint63.of_Z (Z.of_nat i)).

(** [a / b] on floats. *)
Definition truediv (a b : float) : result float :=
  if (b =? 0)%float then raise ZeroDivisionError else Ok (a / b)%float.

(** [str(i)] for a non-negative [int], as the f-strings format it. *)
Definition str_of_int (i : nat) : string :=
  NilEmpty.string_of_uint (Nat.to_uint i).

(** A cell of a frame read by [pd.read_csv(..., header=None)]: a number of
    a numeric column, or the text of an [object] column. *)
Inductive cell : Type :=
| CNum (x : float)
| CStr (s : string).

Definition DataFrame : Type := list (list cell).

(** [df.iloc[i, j]]. *)
Definition iloc (df : DataFrame) (i j : nat) : result cell :=
  match df !! i with
  | Some row =>
      match row !! j with
      | Some c => Ok c
      | None => raise IndexError
      end
  | None => raise IndexError
  end.

(** A pandas [Timestamp]: nanoseconds since the epoch and [tzinfo].  The
    missing instant [NaT] is kept the way pandas keeps it: its count is
    [iNaT], the least 64-bit integer, which no instant has, and it has no
    zone. *)
Record Timestamp : Type := mkTimestamp {
  ts_ns : Z;
  tzinfo : option string
}.

Definition iNaT : Z := (- 2 ^ 63)%Z.

Definition NaT : Timestamp := {| ts_ns := iNaT; tzinfo := None |}.

(** [t is pd.NaT]. *)
Definition is_NaT (t : Timestamp) : bool := (ts_ns t =? iNaT)%Z.

(** The UTC timestamp of a count; the count of [NaT] gives [NaT]. *)
Definition Timestamp_utc (ns : Z) : Timestamp :=
  if (ns =? iNaT)%Z then NaT else {| ts_ns := ns; tzinfo := Some "UTC" |}.

(** [t.tz_localize('UTC')] on a naive timestamp; [NaT] stays [NaT]. *)
Definition tz_localize_UTC (t : Timestamp) : Timestamp :=
  Timestamp_utc (ts_ns t).

(** [t + timedelta], the [timedelta] given in microseconds: [NaT] stays
    [NaT]; outside the 64-bit nanosecond range pandas raises
    [OutOfBoundsDatetime]. *)
Definition Timestamp_add (t : Timestamp) (microseconds : Z) : result Timestamp :=
  if is_NaT t then Ok NaT
  else
    let v := (ts_ns t + 1000 * microseconds)%Z in
    if bool_decide (- 2 ^ 63 < v < 2 ^ 63)%Z
    then Ok {| ts_ns := v; tzinfo := tzinfo t |}
    else raise ValueError.

(** [a <= b] on timestamps: every comparison with [NaT] is [False]. *)
Definition Timestamp_le (a b : Timestamp) : bool :=
  negb (is_NaT a) && negb (is_NaT b) && (ts_ns a <=? ts_ns b)%Z.

(** The functions of Python and pandas that the loader calls and that are
    not defined in the repository. *)
Class Runtime : Type := {
  (** [float(s)] on a [str]; [None] stands for [ValueError]. *)
  float_of_str : string → option float;
  (** [str(x)] on a float, as an f-string formats it. *)
  str_of_float : float → string;
  (** [pd.to_datetime(x, unit='s', utc=True)]: nanoseconds since the epoch,
      [iNaT] when the result is [NaT]. *)
  to_datetime_unix : float → result Z;
  (** [pd.to_datetime(v)]. *)
  to_datetime : cell → result Timestamp;
  (** [timedelta(seconds=x)]: its length in microseconds. *)
  timedelta_seconds : float → result Z;
  (** [Timedelta.total_seconds()] of a difference given in nanoseconds. *)
  total_seconds : Z → float;
  (** [Timestamp.date()], printed. *)
  date : Timestamp → string
}.

Section Builtins.
Context {py : Runtime}.

(** [float(v)] on a cell. *)
Definition py_float (v : cell) : result float :=
  match v with
  | CNum x => Ok x
  | CStr s =>
      match float_of_str s with
      | Some x => Ok x
      | None => raise ValueError
      end
  end.

(** [f"{v}"] on a cell. *)
Definition py_str (v : cell) : string :=
  match v with
  | CNum x => str_of_float x
  | CStr s => s
  end.

(** [float(data.iloc[i, j])]. *)
Definition float_at (data : DataFrame) (i j : nat) : result float :=
  let* v := iloc data i j in
  py_float v.

(** [start_time + timedelta(seconds=seconds)]. *)
Definition timestamp_after (start_time : Timestamp) (seconds : float)
    : result Timestamp :=
  let* d := timedelta_seconds seconds in
  Timestamp_add start_time d.

End Builtins.

(** [try: body except <classes>: handler]. *)
Definition try_except {A} (body : result A) (catches : exn → bool)
    (handler : exn → result A) : result A :=
  match body with
  | inr a => Ok a
  | inl e => if catches e then handler e else raise e
  end.

(** ** Rows of the two tables *)

(** A row of [fact_physiological_measurements], the dict appended to
    [records] in [process_single_signal]. *)
Module Row.
Record t : Type := mk {
  measurement_id : string;
  subject_id : string;
  session_id : string;
  measurement_timestamp : Timestamp;
  signal_type : string;
  value : float;
  session_type : string;
  data_quality_flag : string
}.
End Row.

(** A row of [dim_sessions], the dict built in [create_session_metadata]. *)
Module SessionRow.
Record t : Type := mk {
  session_id : string;
  subject_id : string;
  session_type : string;
  protocol_version : string;
  session_date : string;
  session_start_time : Timestamp;
  session_end_time : Timestamp;
  duration_minutes : float;
  data_quality_notes : option string
}.
End SessionRow.

(** ** The file system *)

(** What the loader reads from the disk: [Path.exists()] and
    [pd.read_csv(path, header=None)]. *)
Record FileSystem : Type := {
  path_exists : string → bool;
  read_csv : string → result DataFrame
}.

(** [base / name] on [pathlib.Path]. *)
Definition joinpath (base name : string) : string := base +:+ "/" +:+ name.

(** ** Decoding one sensor file and building its records *)

Section Decoder.
Context {py : Runtime} (disk : FileSystem).

(** The first attempt of [parse_empatica_csv]: the two statements of the
    outer [try]. *)
Definition parse_unix (first_value : cell) : result Timestamp :=
  let* start_time_unix := py_float first_value in
  let* ns := to_datetime_unix start_time_unix in
  Ok (Timestamp_utc ns).

(** The second attempt: the statements of the inner [try]. *)
Definition parse_datetime_string (first_value : cell) : result Timestamp :=
  let* start_time := to_datetime first_value in
  Ok (match tzinfo start_time with
      | None => tz_localize_UTC start_time
      | Some _ => start_time
      end).

(** The nested [try ... except] of [parse_empatica_csv] that computes
    [start_time] from [first_value]. *)
Definition parse_start_time (first_value : cell) : result Timestamp :=
  try_except (parse_unix first_value) is_ValueError_or_TypeError (λ _,
    try_except (parse_datetime_string first_value) (λ _, true) (λ _,
      raise (DataQualityError
               ("Cannot parse start time: " +:+ py_str first_value)))).

Definition parse_empatica_csv (file_path : string)
    : result (Timestamp * float * DataFrame) :=
  let* df := read_csv disk file_path in
  let* first_value := iloc df 0 0 in
  let* start_time := parse_start_time first_value in
  let* sample_rate := float_at df 1 0 in
  let data := drop 2 df in
  Ok (start_time, sample_rate, data).

(** The three branches of [process_single_signal], after the file has been
    parsed: the value of [records] at the end. *)
Definition build_records (start_time : Timestamp) (sample_rate : float)
    (data : DataFrame) (subject_id session_id signal_type session_type : string)
    : result (list Row.t) :=
  if String.eqb signal_type "ACC" then
    let num_samples := length data in
    for_each (λ i records,
        let* seconds := truediv (float_of_int i) sample_rate in
        let* timestamp := timestamp_after start_time seconds in
        for_each (λ '(axis, col_idx) records,
            let* raw := float_at data i col_idx in
            let* value := truediv raw 64 in
            Ok (records ++ [
              {| Row.measurement_id :=
                   session_id +:+ "_" +:+ axis +:+ "_" +:+ str_of_int i;
                 Row.subject_id := subject_id;
                 Row.session_id := session_id;
                 Row.measurement_timestamp := timestamp;
                 Row.signal_type := axis;
                 Row.value := value;
                 Row.session_type := session_type;
                 Row.data_quality_flag := "VALID" |} ])%list)
          [("ACC_X", 0); ("ACC_Y", 1); ("ACC_Z", 2)] records)
      (seq 0 num_samples) []
  else if String.eqb signal_type "IBI" then
    for_each (λ i records,
        let* time_offset := float_at data i 0 in
        let* interval_duration := float_at data i 1 in
        let* timestamp := timestamp_after start_time time_offset in
        Ok (records ++ [
          {| Row.measurement_id :=
               session_id +:+ "_IBI_" +:+ str_of_int i;
             Row.subject_id := subject_id;
             Row.session_id := session_id;
             Row.measurement_timestamp := timestamp;
             Row.signal_type := "IBI";
             Row.value := interval_duration;
             Row.session_type := session_type;
             Row.data_quality_flag := "VALID" |} ])%list)
      (seq 0 (length data)) []
  else
    let num_samples := length data in
    for_each (λ i records,
        let* seconds := truediv (float_of_int i) sample_rate in
        let* timestamp := timestamp_after start_time seconds in
        let* value := float_at data i 0 in
        Ok (records ++ [
          {| Row.measurement_id :=
               session_id +:+ "_" +:+ signal_type +:+ "_" +:+ str_of_int i;
             Row.subject_id := subject_id;
             Row.session_id := session_id;
             Row.measurement_timestamp := timestamp;
             Row.signal_type := signal_type;
             Row.value := value;
             Row.session_type := session_type;
             Row.data_quality_flag := "VALID" |} ])%list)
      (seq 0 num_samples) [].

(** [process_single_signal]: the frame of records of one sensor file. *)
Definition process_single_signal
    (file_path subject_id session_id signal_type session_type : string)
    : result (list Row.t) :=
  let* parsed := parse_empatica_csv file_path in
  let '(start_time, sample_rate, data) := parsed in
  build_records start_time sample_rate data
    subject_id session_id signal_type session_type.

End Decoder.

(** ** The world the loader acts on *)

(** The BigQuery dataset [wearable_analytics]: its two tables, each the list
    of the rows appended so far. *)
Record Store : Type := {
  fact_physiological_measurements : list Row.t;
  dim_sessions : list SessionRow.t
}.

Record World : Type := {
  fs : FileSystem;
  dataset : Store
}.

(** The BigQuery service: [job_error table_id n store] is the exception that
    [job.result()] raises for a load job of [n] rows issued on [table_id]
    while the dataset is [store], if it raises one. *)
Class Service : Type := {
  job_error : string → nat → Store → option exn
}.

(** Methods that act on the world: they return a value or raise, and leave
    a world behind in both cases. *)
Definition M (A : Type) : Type := World → result A * World.

Definition ret {A} (a : A) : M A := λ w, (Ok a, w).
Definition throw {A} (e : exn) : M A := λ w, (raise e, w).
Definition lift {A} (r : result A) : M A := λ w, (r, w).

Definition bindM {A B} (m : M A) (k : A → M B) : M B :=
  λ w, match m w with
       | (inl e, w') => (inl e, w')
       | (inr a, w') => k a w'
       end.

Notation "'let!' x ':=' m 'in' k" := (bindM m (fun x => k))
  (at level 10, x pattern, m at level 100, k at level 200, only parsing).

(** [try: body except Exception as e: print(...)], the value of the body
    when it returns one. *)
Definition try_M {A} (body : M A) : M (option A) :=
  λ w, match body w with
       | (inl _, w') => (Ok None, w')
       | (inr a, w') => (Ok (Some a), w')
       end.

(** A [for] loop over [items] that updates a local variable. *)
Fixpoint for_M {I S} (body : I → S → M S) (items : list I) (s : S) : M S :=
  match items with
  | [] => ret s
  | i :: rest => let! s' := body i s in for_M body rest s'
  end.

(** [path.exists()]. *)
Definition Path_exists (path : string) : M bool :=
  λ w, (Ok (path_exists (fs w) path), w).

(** [df.iloc[start:stop]] on the rows of a frame. *)
Definition iloc_slice {A} (df : list A) (start stop : nat) : list A :=
  take (stop - start) (drop start df).

(** [int(np.ceil(n / batch_size))], the quotient taken exactly. *)
Definition ceil_div (n batch_size : nat) : nat :=
  Z.to_nat (Qceiling (inject_Z (Z.of_nat n) / inject_Z (Z.of_nat batch_size))).

Definition dataset_id : string := "wearable_analytics".

(** The effect of a [WRITE_APPEND] load job that completes. *)
Definition append_measurements (w : World) (rows : list Row.t) : World :=
  {| fs := fs w;
     dataset :=
       {| fact_physiological_measurements :=
            fact_physiological_measurements (dataset w) ++ rows;
          dim_sessions := dim_sessions (dataset w) |} |}.

Definition append_sessions (w : World) (rows : list SessionRow.t) : World :=
  {| fs := fs w;
     dataset :=
       {| fact_physiological_measurements :=
            fact_physiological_measurements (dataset w);
          dim_sessions := dim_sessions (dataset w) ++ rows |} |}.

(** The list [possible_paths] of [_find_dataset_root], in order. *)
Definition possible_paths (base : string) : list string :=
  [ joinpath base "wearable-exam-stress-1.0.1";
    joinpath base "physionet.org/files/wearable-exam-stress/1.0.1";
    base ].

Section Loader.
Context {py : Runtime} {bq : Service}.

(** [self.dataset_root]. *)
Variable dataset_root : string.

(** [_find_dataset_root]: the loop over [possible_paths]. *)
Fixpoint probe (possible_paths : list string) : M (option string) :=
  match possible_paths with
  | [] => ret None
  | path :: rest =>
      let! here := Path_exists path in
      if here then
        let! marker := Path_exists (joinpath path "STRESS") in
        if marker then ret (Some path) else probe rest
      else probe rest
  end.

Definition _find_dataset_root (base_path : string) : M string :=
  let base := base_path in
  let! found := probe (possible_paths base) in
  match found with
  | Some path => ret path
  | None =>
      throw (FileNotFoundError
        ("Could not find dataset in " +:+ base +:+ ". "
         +:+ "Expected to find STRESS/, AEROBIC/, ANAEROBIC/ directories."))
  end.

(** [job = self.client.load_table_from_dataframe(batch, table_id,
    job_config=LoadJobConfig(write_disposition="WRITE_APPEND"))] followed by
    [job.result()], on the measurement table. *)
Definition load_measurements (batch : list Row.t) (table_id : string) : M unit :=
  λ w, match job_error table_id (length batch) (dataset w) with
       | Some e => (raise e, w)
       | None => (Ok tt, append_measurements w batch)
       end.

(** The same two calls on the session table. *)
Definition load_sessions (session_df : list SessionRow.t) (table_id : string)
    : M unit :=
  λ w, match job_error table_id (length session_df) (dataset w) with
       | Some e => (raise e, w)
       | None => (Ok tt, append_sessions w session_df)
       end.

Definition upload_to_bigquery (df : list Row.t) (batch_size : nat) : M unit :=
  let table_id := dataset_id +:+ ".fact_physiological_measurements" in
  if Nat.eqb batch_size 0 then throw ZeroDivisionError
  else
    let num_batches := ceil_div (length df) batch_size in
    for_M (λ i _,
        let start_idx := i * batch_size in
        let end_idx := Nat.min ((i + 1) * batch_size) (length df) in
        let batch := iloc_slice df start_idx end_idx in
        load_measurements batch table_id)
      (seq 0 num_batches) tt.

(** [Series.min()] and [Series.max()] on a column with at least one entry:
    [NaT] entries are skipped, and the result is [NaT] when every entry is
    [NaT]. *)
Definition Series_min (first : Timestamp) (rest : list Timestamp) : Timestamp :=
  foldl (λ m t,
      if is_NaT t then m
      else if is_NaT m then t
      else if (ts_ns t <? ts_ns m)%Z then t else m)
    first rest.

Definition Series_max (first : Timestamp) (rest : list Timestamp) : Timestamp :=
  foldl (λ m t,
      if is_NaT t then m
      else if is_NaT m then t
      else if (ts_ns m <? ts_ns t)%Z then t else m)
    first rest.

(** [(max_time - min_time).total_seconds()]: a difference with [NaT] is
    [NaT], and [NaT.total_seconds()] is [nan]. *)
Definition elapsed_seconds (max_time min_time : Timestamp) : float :=
  if is_NaT max_time || is_NaT min_time then nan
  else total_seconds (ts_ns max_time - ts_ns min_time).

(** [create_session_metadata].  A frame without rows was built from an empty
    list of dicts and has no column, so that [df['measurement_timestamp']]
    raises [KeyError]. *)
Definition create_session_metadata (session_id subject_id session_type : string)
    (df : list Row.t) (quality_note : option string) : M unit :=
  match Row.measurement_timestamp <$> df with
  | [] => throw KeyError
  | first :: rest =>
      let min_time := Series_min first rest in
      let max_time := Series_max first rest in
      let! duration_minutes :=
        lift (truediv (elapsed_seconds max_time min_time) 60) in
      let session_data :=
        [ {| SessionRow.session_id := session_id;
             SessionRow.subject_id := subject_id;
             SessionRow.session_type := session_type;
             SessionRow.protocol_version :=
               if String.prefix "S" subject_id then "V1" else "V2";
             SessionRow.session_date := date min_time;
             SessionRow.session_start_time := min_time;
             SessionRow.session_end_time := max_time;
             SessionRow.duration_minutes := duration_minutes;
             SessionRow.data_quality_notes := quality_note |} ] in
      let table_id := dataset_id +:+ ".dim_sessions" in
      load_sessions session_data table_id
  end.

(** The dict [signal_files], in insertion order. *)
Definition signal_files : list (string * string) :=
  [ ("BVP", "BVP.csv"); ("EDA", "EDA.csv"); ("TEMP", "TEMP.csv");
    ("ACC", "ACC.csv"); ("HR", "HR.csv"); ("IBI", "IBI.csv") ].

(** The loop of [load_subject_session] over the signal files: the value of
    [all_data] at its end. *)
Definition collect_signals (base_path subject_id session_id session_type : string)
    (files : list (string * string)) : M (list (list Row.t)) :=
  for_M (λ '(signal_type, filename) all_data,
      let file_path := joinpath base_path filename in
      let! present := Path_exists file_path in
      if negb present then ret all_data
      else
        let! processed :=
          try_M (λ w, (process_single_signal (fs w) file_path subject_id
                         session_id signal_type session_type, w)) in
        match processed with
        | Some df => ret (all_data ++ [df])%list
        | None => ret all_data
        end)
    files [].

(** The [batch_size=50000] that [load_subject_session] passes. *)
Definition BATCH_SIZE : nat := Z.to_nat 50000.

Definition load_subject_session (subject_id session_type : string)
    (include_problematic : bool) : M (option (list Row.t)) :=
  let '(should_skip, reason) :=
    Quality.should_skip_subject subject_id session_type include_problematic in
  if should_skip then ret None
  else
    let base_path := joinpath (joinpath dataset_root session_type) subject_id in
    let! present := Path_exists base_path in
    if negb present then ret None
    else
      let session_id := subject_id +:+ "_" +:+ session_type in
      let! all_data :=
        collect_signals base_path subject_id session_id session_type
          signal_files in
      match all_data with
      | [] => ret None
      | _ :: _ =>
          let combined_df := concat all_data in
          let! _ := upload_to_bigquery combined_df BATCH_SIZE in
          let! _ := create_session_metadata session_id subject_id session_type
                      combined_df reason in
          ret (Some combined_df)
      end.

End Loader.

(** ** Vocabulary of the statements *)

(** The definitions below name expressions and loop bodies of the loader, so
    that the theorems can speak about one iteration at a time. *)

(** The rows that each iteration contributes, collected in order. *)
Fixpoint mapM {I A} (f : I → result A) (items : list I) : result (list A) :=
  match items with
  | [] => Ok []
  | i :: rest =>
      let* a := f i in
      let* others := mapM f rest in
      Ok (a :: others)
  end.

Section Iterations.
Context {py : Runtime}.

(** [start_time + timedelta(seconds=i/sample_rate)]. *)
Definition uniform_timestamp (start_time : Timestamp) (sample_rate : float)
    (i : nat) : result Timestamp :=
  let* seconds := truediv (float_of_int i) sample_rate in
  timestamp_after start_time seconds.

(** One iteration of the single-column loop: the dict it appends. *)
Definition uniform_row (T : Timestamp) (R : float) (data : DataFrame)
    (subject_id session_id signal_type session_type : string) (i : nat)
    : result Row.t :=
  let* timestamp := uniform_timestamp T R i in
  let* value := float_at data i 0 in
  Ok {| Row.measurement_id :=
          session_id +:+ "_" +:+ signal_type +:+ "_" +:+ str_of_int i;
        Row.subject_id := subject_id;
        Row.session_id := session_id;
        Row.measurement_timestamp := timestamp;
        Row.signal_type := signal_type;
        Row.value := value;
        Row.session_type := session_type;
        Row.data_quality_flag := "VALID" |}.

(** One iteration of the inner loop over the three axes. *)
Definition acc_row (data : DataFrame)
    (subject_id session_id session_type : string) (timestamp : Timestamp)
    (i : nat) (axis_col : string * nat) : result Row.t :=
  let* raw := float_at data i axis_col.2 in
  let* value := truediv raw 64 in
  Ok {| Row.measurement_id :=
          session_id +:+ "_" +:+ axis_col.1 +:+ "_" +:+ str_of_int i;
        Row.subject_id := subject_id;
        Row.session_id := session_id;
        Row.measurement_timestamp := timestamp;
        Row.signal_type := axis_col.1;
        Row.value := value;
        Row.session_type := session_type;
        Row.data_quality_flag := "VALID" |}.

(** One iteration of the outer accelerometer loop: its three dicts. *)
Definition acc_rows (T : Timestamp) (R : float) (data : DataFrame)
    (subject_id session_id session_type : string) (i : nat)
    : result (list Row.t) :=
  let* timestamp := uniform_timestamp T R i in
  mapM (acc_row data subject_id session_id session_type timestamp i)
    [("ACC_X", 0); ("ACC_Y", 1); ("ACC_Z", 2)].

(** One iteration of the inter-beat-interval loop. *)
Definition ibi_row (T : Timestamp) (data : DataFrame)
    (subject_id session_id session_type : string) (i : nat) : result Row.t :=
  let* time_offset := float_at data i 0 in
  let* interval_duration := float_at data i 1 in
  let* timestamp := timestamp_after T time_offset in
  Ok {| Row.measurement_id := session_id +:+ "_IBI_" +:+ str_of_int i;
        Row.subject_id := subject_id;
        Row.session_id := session_id;
        Row.measurement_timestamp := timestamp;
        Row.signal_type := "IBI";
        Row.value := interval_duration;
        Row.session_type := session_type;
        Row.data_quality_flag := "VALID" |}.

(** The frames that the signal loop keeps: one per file that is present and
    whose processing returns. *)
Definition processed_frames (disk : FileSystem)
    (base_path subject_id session_id session_type : string)
    (files : list (string * string)) : list (list Row.t) :=
  omap (λ '(signal_type, filename),
      let file_path := joinpath base_path filename in
      if path_exists disk file_path then
        match process_single_signal disk file_path subject_id session_id
                signal_type session_type with
        | inr df => Some df
        | inl _ => None
        end
      else None)
    files.

End Iterations.

(** The test of the [if] in [_find_dataset_root]. *)
Definition qualifies (disk : FileSystem) (path : string) : bool :=
  path_exists disk path && path_exists disk (joinpath path "STRESS").

(** Chunk [i] of [upload_to_bigquery]. *)
Definition chunk {A} (df : list A) (batch_size i : nat) : list A :=
  iloc_slice df (i * batch_size) (Nat.min ((i + 1) * batch_size) (length df)).


(** ** A sample world *)

(** A small installation on which the loader can be run: a model of the
    library functions that is exact on the values used here, a disk with one
    subject directory, and three behaviours of the BigQuery service. *)
Module Demo.

(** The integer part of a finite float. *)
Definition Z_of_float (x : float) : option Z :=
  match Prim2SF x with
  | S754_zero _ => Some 0%Z
  | S754_finite s m e =>
      let magnitude :=
        if (0 <=? e)%Z then (Z.pos m * 2 ^ e)%Z else (Z.pos m / 2 ^ (- e))%Z in
      Some (if s then (- magnitude)%Z else magnitude)
  | _ => None
  end.

Definition float_of_Z (z : Z) : float :=
  if (z <? 0)%Z then (- PrimFloat.of_uint63 (Uint63.of_Z (- z)))%float
  else PrimFloat.of_uint63 (Uint63.of_Z z).

Definition in_int64 (z : Z) : bool := ((- 2 ^ 63 <? z) && (z <? 2 ^ 63))%Z.

(** [pd.to_datetime(x, unit='s', utc=True)] on the numbers where the answer
    does not depend on the resolution that pandas works in: NaN gives [NaT];
    a whole number of seconds whose nanoseconds fit in 64 bits gives that
    instant; a number of seconds that fits in 64 bits while its microseconds
    do not is out of bounds for nanoseconds and microseconds alike, and
    pandas raises [OutOfBoundsDatetime], a [ValueError].  For any other
    number (a fraction of a second, a number between the two ranges, an
    infinity) the sample has no answer and stops with an error of its
    own. *)
Definition unix_ns (x : float) : result Z :=
  if is_nan x then Ok iNaT
  else
    match Z_of_float x with
    | Some seconds =>
        if in_int64 (seconds * 1000000000) && (float_of_Z seconds =? x)%float
        then Ok (seconds * 1000000000)%Z
        else if in_int64 seconds && negb (in_int64 (seconds * 1000000))
        then raise ValueError
        else raise (OtherException "NotImplementedError")
    | None => raise (OtherException "NotImplementedError")
    end.

(** The only date this model can read is ["2013-02-20 17:55:19"]; a number
    is taken as nanoseconds, and NaN gives [NaT]. *)
Definition read_datetime (v : cell) : result Timestamp :=
  match v with
  | CStr s =>
      if String.eqb s "2013-02-20 17:55:19"
      then Ok {| ts_ns := 1361382919000000000; tzinfo := None |}
      else raise ValueError
  | CNum x =>
      if is_nan x then Ok NaT
      else
        match Z_of_float x with
        | Some ns =>
            if in_int64 ns then Ok {| ts_ns := ns; tzinfo := None |}
            else raise ValueError
        | None => raise ValueError
        end
  end.

Definition microseconds (x : float) : result Z :=
  match Z_of_float (x * 1000000)%float with
  | Some us => Ok us
  | None => raise ValueError
  end.

(** Unsigned decimal integers only. *)
Definition read_float (s : string) : option float :=
  (λ u, float_of_Z (Z.of_uint u)) <$> NilEmpty.uint_of_string s.

Definition show_float (x : float) : string :=
  match Z_of_float x with
  | Some z => NilEmpty.string_of_int (Z.to_int z) +:+ ".0"
  | None => "nan"
  end.

Definition runtime : Runtime :=
  {| float_of_str := read_float;
     str_of_float := show_float;
     to_datetime_unix := unix_ns;
     to_datetime := read_datetime;
     timedelta_seconds := microseconds;
     total_seconds := λ ns, (float_of_Z ns / 1000000000)%float;
     date := λ t,
       if is_NaT t then "NaT"
       else NilEmpty.string_of_int (Z.to_int (ts_ns t / 86400000000000)) |}.

(** The same library on a host that runs out of memory during the
    conversion of the first attempt: [MemoryError] is neither a [ValueError]
    nor a [TypeError]. *)
Definition out_of_memory : Runtime :=
  {| float_of_str := read_float;
     str_of_float := show_float;
     to_datetime_unix := λ _, raise (OtherException "MemoryError");
     to_datetime := read_datetime;
     timedelta_seconds := microseconds;
     total_seconds := total_seconds (Runtime := runtime);
     date := date (Runtime := runtime) |}.

Definition root : string :=
  "data/raw/physionet.org/files/wearable-exam-stress/1.0.1".

Definition S05 : string := root +:+ "/STRESS/S05".

Definition directories : list string :=
  [ "data/raw"; root; root +:+ "/STRESS"; S05 ].

Definition BVP_csv : DataFrame :=
  [ [CNum 1361377519]; [CNum 64]; [CNum 1.5]; [CNum 2.5]; [CNum (-3)] ].

Definition EDA_csv : DataFrame :=
  [ [CStr "2013-02-20 17:55:19"]; [CStr "4"]; [CStr "1"]; [CStr "2"] ].

Definition TEMP_csv : DataFrame :=
  [ [CStr "not-a-date"]; [CStr "4"]; [CStr "31"] ].

Definition ACC_csv : DataFrame :=
  [ [CNum 1361377519; CNum 1361377519; CNum 1361377519];
    [CNum 32; CNum 32; CNum 32];
    [CNum (-2); CNum 58; CNum 28];
    [CNum 64; CNum 0; CNum (-64)] ].

Definition IBI_csv : DataFrame :=
  [ [CNum 1361377519; CNum 0];
    [CNum 64; CNum 0];
    [CNum 0.5; CNum 0.75];
    [CNum 1.25; CNum 0.8125] ].

Definition files : list (string * DataFrame) :=
  [ (S05 +:+ "/BVP.csv", BVP_csv);
    (S05 +:+ "/EDA.csv", EDA_csv);
    (S05 +:+ "/TEMP.csv", TEMP_csv);
    (S05 +:+ "/ACC.csv", ACC_csv);
    (S05 +:+ "/IBI.csv", IBI_csv) ].

Fixpoint find_file (path : string) (fl : list (string * DataFrame))
    : option DataFrame :=
  match fl with
  | [] => None
  | (name, df) :: rest => if String.eqb name path then Some df else find_file path rest
  end.

Definition disk : FileSystem :=
  {| path_exists := λ path,
       existsb (String.eqb path) (directories ++ files.*1);
     read_csv := λ path,
       match find_file path files with
       | Some df => Ok df
       | None => raise (FileNotFoundError path)
       end |}.

Definition world : World :=
  {| fs := disk;
     dataset := {| fact_physiological_measurements := []; dim_sessions := [] |} |}.

(** A service on which every job completes, one on which none does, and one
    that refuses a job once the measurement table holds [limit] rows. *)
Definition available : Service := {| job_error := λ _ _ _, None |}.

Definition unavailable : Service :=
  {| job_error := λ _ _ _, Some (OtherException "ServiceUnavailable") |}.

Definition quota (limit : nat) : Service :=
  {| job_error := λ _ _ store,
       if (limit <=? length (fact_physiological_measurements store))%nat
       then Some (OtherException "Forbidden")
       else None |}.

(** Three rows with instants 30, 10 and 20, to try the session summary on. *)
Definition row_at (ns : Z) : Row.t :=
  {| Row.measurement_id := "S05_STRESS_HR_0";
     Row.subject_id := "S05";
     Row.session_id := "S05_STRESS";
     Row.measurement_timestamp := {| ts_ns := ns; tzinfo := Some "UTC" |};
     Row.signal_type := "HR";
     Row.value := 83;
     Row.session_type := "STRESS";
     Row.data_quality_flag := "VALID" |}.

Definition three_rows : list Row.t := [ row_at 30; row_at 10; row_at 20 ].

End Demo.

(** ** Vocabulary of the record and session properties *)

(** The signal types that the rows of a file of type [signal_type] carry. *)
Definition row_signal_types (signal_type : string) : list string :=
  if String.eqb signal_type "ACC" then ["ACC_X"; "ACC_Y"; "ACC_Z"]
  else if String.eqb signal_type "IBI" then ["IBI"]
  else [signal_type].

(** The file that a row of a session came from, read off its signal type. *)
Definition file_of_signal (row_signal_type : string) : string :=
  if String.eqb row_signal_type "ACC_X" then "ACC"
  else if String.eqb row_signal_type "ACC_Y" then "ACC"
  else if String.eqb row_signal_type "ACC_Z" then "ACC"
  else row_signal_type.

(** What the three branches have in common. *)
Definition well_labelled (subject_id session_id signal_type session_type : string)
    (r : Row.t) : Prop :=
  Row.subject_id r = subject_id
  ∧ Row.session_id r = session_id
  ∧ Row.session_type r = session_type
  ∧ Row.data_quality_flag r = "VALID"
  ∧ Row.signal_type r ∈ row_signal_types signal_type
  ∧ ∃ i, Row.measurement_id r
         = session_id +:+ "_" +:+ Row.signal_type r +:+ "_" +:+ str_of_int i.

(** The signal types of the rows of a session. *)
Definition session_signal_types : list string :=
  ["BVP"; "EDA"; "TEMP"; "ACC_X"; "ACC_Y"; "ACC_Z"; "HR"; "IBI"].

(** The fields of a session row that do not depend on the timestamps. *)
Definition session_labelled (session_id subject_id session_type : string)
    (quality_note : option string) (row : SessionRow.t) : Prop :=
  SessionRow.session_id row = session_id
  ∧ SessionRow.subject_id row = subject_id
  ∧ SessionRow.session_type row = session_type
  ∧ SessionRow.protocol_version row
    = (if String.prefix "S" subject_id then "V1" else "V2")
  ∧ SessionRow.data_quality_notes row = quality_note.

(** The dict [session_data[0]] that [create_session_metadata] builds from a
    frame whose timestamp column is [first :: rest]. *)
Definition session_summary {py : Runtime}
    (session_id subject_id session_type : string)
    (first : Timestamp) (rest : list Timestamp) (quality_note : option string)
    : SessionRow.t :=
  let min_time := Series_min first rest in
  let max_time := Series_max first rest in
  {| SessionRow.session_id := session_id;
     SessionRow.subject_id := subject_id;
     SessionRow.session_type := session_type;
     SessionRow.protocol_version :=
       if String.prefix "S" subject_id then "V1" else "V2";
     SessionRow.session_date := date min_time;
     SessionRow.session_start_time := min_time;
     SessionRow.session_end_time := max_time;
     SessionRow.duration_minutes :=
       (elapsed_seconds max_time min_time / 60)%float;
     SessionRow.data_quality_notes := quality_note |}.

(** The row that a frame is summarised by, if the frame has a row. *)
Definition session_row {py : Runtime}
    (session_id subject_id session_type : string) (df : list Row.t)
    (quality_note : option string) : option SessionRow.t :=
  match Row.measurement_timestamp <$> df with
  | [] => None
  | first :: rest =>
      Some (session_summary session_id subject_id session_type first rest
              quality_note)
  end.

(** ** The command line *)

(** What the process meets outside the dataset files: [Client_error] is the
    exception that [bigquery.Client()] raises, if it raises one (no
    credentials, no project); [iterdir path] is the entries of the directory
    [path], each with its name and the value of [is_dir()], or the exception
    that the iteration raises. *)
Class Host : Type := {
  Client_error : option exn;
  iterdir : string → result (list (string * bool))
}.

(** The namespace that [parser.parse_args()] returns. *)
Module Args.
Record t : Type := {
  session_type : string;
  subject : option string;
  load_all : bool;
  include_problematic : bool
}.
End Args.

(** How [main] ends when no exception leaves it: the two counts that the
    [--load-all] branch prints, a plain return, or [sys.exit(code)], which
    nothing in [main] catches. *)
Inductive outcome : Type :=
| Summary (loaded_count skipped_count : nat)
| Returned
| SystemExit (code : Z).

(** [sorted(names)]: strings are compared code point by code point, which
    on their UTF-8 bytes is the order [String.le]. *)
Definition sorted (names : list string) : list string :=
  merge_sort String.le names.

Section CommandLine.
Context {py : Runtime} {bq : Service} {os : Host}.

(** [EmpaticaDataLoader.__init__]: the value of [self.dataset_root]. *)
Definition __init__ (dataset_root : string) : M string :=
  let! _ := lift (match Client_error with
                  | Some e => raise e
                  | None => Ok tt
                  end) in
  _find_dataset_root dataset_root.

(** The loop of the [--load-all] branch: the two counters at its end. *)
Definition load_all_subjects (dataset_root session_type : string)
    (include_problematic : bool) (subjects : list string) : M (nat * nat) :=
  for_M (λ subject_id '(loaded_count, skipped_count),
      let! result :=
        load_subject_session dataset_root subject_id session_type
          include_problematic in
      match result with
      | Some _ => ret (loaded_count + 1, skipped_count)%nat
      | None => ret (loaded_count, skipped_count + 1)%nat
      end)
    subjects (0, 0)%nat.

Definition main (args : Args.t) : M outcome :=
  let! dataset_root := __init__ "data/raw" in
  if Args.load_all args then
    let session_path := joinpath dataset_root (Args.session_type args) in
    let! entries := lift (iterdir session_path) in
    let subjects :=
      sorted (fst <$> filter (λ d : string * bool, Is_true d.2) entries) in
    let! (loaded_count, skipped_count) :=
      load_all_subjects dataset_root (Args.session_type args)
        (Args.include_problematic args) subjects in
    ret (Summary loaded_count skipped_count)
  else
    match Args.subject args with
    | Some (String _ _ as subject) =>
        let! _ := load_subject_session dataset_root subject
                    (Args.session_type args) (Args.include_problematic args) in
        ret Returned
    | _ => ret (SystemExit 1)
    end.

End CommandLine.

(** What [main] has added to the two tables: every measurement and every
    session row is of the session type asked for, belongs to one of
    [subjects], and its subject is not one that the policy skips. *)
Definition admitted (session_type : string) (include_problematic : bool)
    (subjects : list string) (subject_id row_session_type : string) : Prop :=
  row_session_type = session_type
  ∧ subject_id ∈ subjects
  ∧ (Quality.should_skip_subject subject_id session_type
       include_problematic).1 = false.

(** ** The inventory script *)

(** [scripts/explore_dataset_structure.py]: the search for the dataset and
    the entry that [explore_dataset] records for one subject folder. *)
Module Explorer.

(** The dict [known_issues] of [explore_dataset]. *)
Definition known_issues : gmap string (gmap string string) :=
  list_to_map
    [ ("STRESS", list_to_map
         [ ("S02", "duplicated data");
           ("f07", "did not remove wristband protection cover - signals invalid");
           ("f14", "data split into two parts") ]);
      ("AEROBIC", list_to_map
         [ ("S03", "could not complete procedure");
           ("S07", "could not complete procedure");
           ("S11", "data split into two parts");
           ("S12", "did not perform this test") ]);
      ("ANAEROBIC", list_to_map
         [ ("S06", "could not complete procedure");
           ("S16", "data split into two parts") ]) ].

Definition expected_files : list string :=
  [ "BVP.csv"; "EDA.csv"; "TEMP.csv"; "ACC.csv"; "HR.csv"; "IBI.csv";
    "tags.csv" ].

(** The loop that sets [dataset_root], which stays [None] when no candidate
    passes the test. *)
Fixpoint find_root (disk : FileSystem) (possible_paths : list string)
    : option string :=
  match possible_paths with
  | [] => None
  | path :: rest =>
      if path_exists disk path && path_exists disk (joinpath path "STRESS")
      then Some path
      else find_root disk rest
  end.

Definition dataset_root (disk : FileSystem) : option string :=
  find_root disk (possible_paths "data/raw").

(** The dict appended to [session_results]; [missing_files] is built from a
    set, whose order Python does not fix.  [total_size_mb] is the sum of the
    sizes divided by [1024*1024], which on sums below [2^53] is the division
    of the floats. *)
Record entry : Type := {
  subject_id : string;
  files_found : nat;
  files_expected : nat;
  missing_files : gset string;
  known_issue : option string;
  quality : string;
  total_size_mb : float
}.

(** [if issue:] on a value that is [None] or a string. *)
Definition truthy (issue : option string) : bool :=
  match issue with
  | Some (String _ _) => true
  | _ => false
  end.

(** One iteration of the loop over [subjects]; [st_size path] is
    [path.stat().st_size]. *)
Definition subject_entry (disk : FileSystem) (st_size : string → nat)
    (session_path session_type subject_id : string) : entry :=
  let subject_path := joinpath session_path subject_id in
  let files_found :=
    filter (λ filename,
        Is_true (path_exists disk (joinpath subject_path filename)))
      expected_files in
  let file_sizes :=
    (λ filename, st_size (joinpath subject_path filename)) <$> files_found in
  let issue := default ∅ (known_issues !! session_type) !! subject_id in
  let missing_files : gset string :=
    list_to_set expected_files ∖ list_to_set files_found in
  let quality :=
    if truthy issue then "PROBLEMATIC"
    else if bool_decide (missing_files ≠ ∅) then "INCOMPLETE"
    else "GOOD" in
  {| subject_id := subject_id;
     files_found := length files_found;
     files_expected := length expected_files;
     missing_files := missing_files;
     known_issue := issue;
     quality := quality;
     total_size_mb := (float_of_int (sum_list file_sizes) / 1048576)%float |}.

End Explorer.

(** ** The subject file *)

(** [scripts/prepare_subjects.py]: [find_subject_file]. *)
Module Subjects.

Definition possible_paths : list string :=
  let base_path := "data/raw" in
  [ joinpath (joinpath base_path "wearable-exam-stress-1.0.1")
      "subject-info.csv";
    joinpath base_path
      "physionet.org/files/wearable-exam-stress/1.0.1/subject-info.csv";
    joinpath base_path "subject-info.csv" ].

Fixpoint first_existing (disk : FileSystem) (paths : list string)
    : result string :=
  match paths with
  | [] => raise (FileNotFoundError "Could not find subject-info.csv")
  | path :: rest =>
      if path_exists disk path then Ok path else first_existing disk rest
  end.

Definition find_subject_file (disk : FileSystem) : result string :=
  first_existing disk possible_paths.

End Subjects.

(** ** The optimization report *)

(** [scripts/optimize_bigquery.py]: [BigQueryOptimizer.analyze_table_structure]. *)
Module Optimizer.

(** The values that a cell of the query result can hold once [iterrows]
    hands it over: [None], [pd.NA], a boolean, an integer, a float (with
    [nan]) or a string. *)
Inductive pyval : Type :=
| VNone
| VNA
| VBool (b : bool)
| VInt (z : Z)
| VFloat (x : float)
| VStr (s : string).

(** [bool(v)], as [if], [and] and [not] take it; [pd.NA] has no truth
    value. *)
Definition truth (v : pyval) : result bool :=
  match v with
  | VNone => Ok false
  | VNA => raise TypeError
  | VBool b => Ok b
  | VInt z => Ok (negb (z =? 0)%Z)
  | VFloat x => Ok (negb (x =? 0)%float)
  | VStr s => Ok (negb (String.eqb s ""))
  end.

(** [v > k] for an integer literal [k] that a float holds exactly. *)
Definition gt (v : pyval) (k : Z) : result pyval :=
  match v with
  | VNone | VStr _ => raise TypeError
  | VNA => Ok VNA
  | VBool b => Ok (VBool (k <? Z.b2z b)%Z)
  | VInt z => Ok (VBool (k <? z)%Z)
  | VFloat x => Ok (VBool (PrimFloat.of_uint63 (Uint63.of_Z k) <? x)%float)
  end.

(** [v == 0]. *)
Definition eq_zero (v : pyval) : pyval :=
  match v with
  | VNone | VStr _ => VBool false
  | VNA => VNA
  | VBool b => VBool (negb b)
  | VInt z => VBool (z =? 0)%Z
  | VFloat x => VBool (x =? 0)%float
  end.

(** [v is None]. *)
Definition is_None (v : pyval) : bool :=
  match v with
  | VNone => true
  | _ => false
  end.

(** A row of the query on [INFORMATION_SCHEMA.TABLES]. *)
Module TableRow.
Record t : Type := {
  table_name : string;
  row_count : pyval;
  size_bytes : pyval;
  partitioning_type : pyval;
  require_partition_filter : pyval;
  num_clustering_fields : pyval
}.
End TableRow.

Module Recommendation.
Record t : Type := {
  table : string;
  priority : string;
  type : string;
  issue : string;
  recommendation : string;
  potential_savings : string
}.
End Recommendation.

(** The tests of the three [if] statements. *)
Definition needs_partitioning (row : TableRow.t) : result bool :=
  let* large := gt (TableRow.row_count row) 100000 in
  let* large := truth large in
  if large then
    let* partitioned := truth (TableRow.partitioning_type row) in
    Ok (negb partitioned)
  else Ok false.

Definition needs_clustering (row : TableRow.t) : result bool :=
  let* large := gt (TableRow.row_count row) 10000 in
  let* large := truth large in
  if large then
    if is_None (TableRow.num_clustering_fields row) then Ok true
    else truth (eq_zero (TableRow.num_clustering_fields row))
  else Ok false.

Definition needs_partition_filter (row : TableRow.t) : result bool :=
  let* partitioned := truth (TableRow.partitioning_type row) in
  if partitioned then
    let* required := truth (TableRow.require_partition_filter row) in
    Ok (negb required)
  else Ok false.

Definition PARTITIONING (table_name : string) : Recommendation.t :=
  {| Recommendation.table := table_name;
     Recommendation.priority := "HIGH";
     Recommendation.type := "PARTITIONING";
     Recommendation.issue := "Large table without partitioning";
     Recommendation.recommendation := "Add date-based partitioning";
     Recommendation.potential_savings := "Up to 95% query cost reduction" |}.

Definition CLUSTERING (table_name : string) : Recommendation.t :=
  {| Recommendation.table := table_name;
     Recommendation.priority := "MEDIUM";
     Recommendation.type := "CLUSTERING";
     Recommendation.issue := "No clustering configured";
     Recommendation.recommendation :=
       "Add clustering on frequently filtered columns";
     Recommendation.potential_savings := "10-50% query cost reduction" |}.

Definition PARTITION_FILTER (table_name : string) : Recommendation.t :=
  {| Recommendation.table := table_name;
     Recommendation.priority := "LOW";
     Recommendation.type := "PARTITION_FILTER";
     Recommendation.issue := "Partition filter not required";
     Recommendation.recommendation :=
       "Enable require_partition_filter to prevent expensive full scans";
     Recommendation.potential_savings :=
       "Prevents accidental expensive queries" |}.

(** [analyze_table_structure] on the frame [df] that the query returned. *)
Definition analyze_table_structure (df : list TableRow.t)
    : result (list Recommendation.t) :=
  for_each (λ row recommendations,
      let table_name := TableRow.table_name row in
      let* partitioning := needs_partitioning row in
      let recommendations :=
        if partitioning then (recommendations ++ [PARTITIONING table_name])%list
        else recommendations in
      let* clustering := needs_clustering row in
      let recommendations :=
        if clustering then (recommendations ++ [CLUSTERING table_name])%list
        else recommendations in
      let* partition_filter := needs_partition_filter row in
      let recommendations :=
        if partition_filter
        then (recommendations ++ [PARTITION_FILTER table_name])%list
        else recommendations in
      Ok recommendations)
    df [].

(** The recommendations that one row adds. *)
Definition row_recommendations (row : TableRow.t)
    : result (list Recommendation.t) :=
  let table_name := TableRow.table_name row in
  let* partitioning := needs_partitioning row in
  let* clustering := needs_clustering row in
  let* partition_filter := needs_partition_filter row in
  Ok ((if partitioning then [PARTITIONING table_name] else [])
      ++ (if clustering then [CLUSTERING table_name] else [])
      ++ (if partition_filter then [PARTITION_FILTER table_name] else []))%list.

End Optimizer.

(** ** More sample worlds *)

Module Sample.

(** A service whose session table is down while the measurement table
    accepts every job. *)
Definition sessions_down : Service :=
  {| job_error := λ table_id _ _,
       if String.eqb table_id "wearable_analytics.dim_sessions"
       then Some (OtherException "ServiceUnavailable")
       else None |}.

(** A subject folder whose only file has a header and no sample, one whose
    only file announces a sample rate of zero, and one whose only file has
    no start time. *)
Definition header_only_csv : DataFrame := [ [CNum 1361377519]; [CNum 1] ].

Definition zero_rate_csv : DataFrame :=
  [ [CNum 1361377519]; [CNum 0]; [CNum 80] ].

(** A file whose first cell is empty: [read_csv] gives NaN. *)
Definition missing_start_csv : DataFrame :=
  [ [CNum nan]; [CNum 1]; [CNum 80]; [CNum 81] ].

Definition S20 : string := Demo.root +:+ "/STRESS/S20".
Definition S21 : string := Demo.root +:+ "/STRESS/S21".
Definition S22 : string := Demo.root +:+ "/STRESS/S22".

Definition files : list (string * DataFrame) :=
  [ (S20 +:+ "/HR.csv", header_only_csv);
    (S21 +:+ "/HR.csv", zero_rate_csv);
    (S22 +:+ "/HR.csv", missing_start_csv) ].

Definition disk : FileSystem :=
  {| path_exists := λ path,
       existsb (String.eqb path)
         (Demo.directories ++ [S20; S21; S22] ++ files.*1);
     read_csv := λ path,
       match Demo.find_file path files with
       | Some df => Ok df
       | None => raise (FileNotFoundError path)
       end |}.

Definition world : World :=
  {| fs := disk;
     dataset := {| fact_physiological_measurements := []; dim_sessions := [] |} |}.

(** A host with credentials, where [STRESS] holds three subject folders and
    a file. *)
Definition host : Host :=
  {| Client_error := None;
     iterdir := λ path,
       if String.eqb path (Demo.root +:+ "/STRESS")
       then Ok [ ("S09", true); ("S05", true); ("README.md", false);
                 ("S02", true) ]
       else raise (FileNotFoundError path) |}.

Definition load_all : Args.t :=
  {| Args.session_type := "STRESS";
     Args.subject := None;
     Args.load_all := true;
     Args.include_problematic := false |}.

Definition no_mode : Args.t :=
  {| Args.session_type := "STRESS";
     Args.subject := None;
     Args.load_all := false;
     Args.include_problematic := false |}.

(** A large table without partitions and a partitioned one whose filter is
    not required. *)
Definition tables : list Optimizer.TableRow.t :=
  [ {| Optimizer.TableRow.table_name := "fact_physiological_measurements";
       Optimizer.TableRow.row_count := Optimizer.VInt 2500000;
       Optimizer.TableRow.size_bytes := Optimizer.VInt 180000000;
       Optimizer.TableRow.partitioning_type := Optimizer.VNone;
       Optimizer.TableRow.require_partition_filter := Optimizer.VNone;
       Optimizer.TableRow.num_clustering_fields := Optimizer.VNone |};
    {| Optimizer.TableRow.table_name := "dim_sessions";
       Optimizer.TableRow.row_count := Optimizer.VInt 90;
       Optimizer.TableRow.size_bytes := Optimizer.VInt 12000;
       Optimizer.TableRow.partitioning_type := Optimizer.VStr "DAY";
       Optimizer.TableRow.require_partition_filter := Optimizer.VBool false;
       Optimizer.TableRow.num_clustering_fields := Optimizer.VInt 0 |} ].

End Sample.

(** * Properties *)

(** ** Properties of the quality policy *)

Section QualityFacts.
Import Quality.

Example skip_S12 :
  should_skip_subject "S12" "AEROBIC" true
  = (true, Some "Excluded: test_not_performed").
Proof. vm_compute. reflexivity. Qed.

Example load_S03 :
  should_skip_subject "S03" "AEROBIC" true
  = (false, Some "incomplete_procedure").
Proof. vm_compute. reflexivity. Qed.

Example clean_S05 :
  should_skip_subject "S05" "STRESS" false = (false, None).
Proof. vm_compute. reflexivity. Qed.

(** Every tag stored in the table belongs to one of the two literal lists. *)
Lemma KNOWN_ISSUES_closed :
  map_Forall (λ _ (issues : gmap string string),
    map_Forall (λ _ issue, issue ∈ always_skip ∨ issue ∈ skip_unless_included)
      issues) KNOWN_ISSUES.
Proof. apply (bool_decide_unpack _). vm_compute. reflexivity. Qed.

Lemma known_issue_vocabulary subject_id session_type issue :
  known_issue subject_id session_type = Some issue →
  issue ∈ always_skip ∨ issue ∈ skip_unless_included.
Proof.
  unfold known_issue. intros Hlook.
  destruct (KNOWN_ISSUES !! session_type) as [issues|] eqn:Hty; simpl in Hlook.
  - exact (KNOWN_ISSUES_closed _ _ Hty _ _ Hlook).
  - rewrite lookup_empty in Hlook. discriminate.
Qed.

(** C1. The three cases of the quality policy, for every subject, session
    type and flag: a pair absent from the table gives [(False, None)]; a
    pair tagged [test_not_performed] or [invalid_signals_no_cover_removed]
    gives [(True, note)] whatever the flag; any other pair of the table is
    tagged [incomplete_procedure], [duplicated_data] or [split_data] and
    gives [(True, note)] without the flag and [(False, tag)] with it. *)
Theorem should_skip_subject_policy subject_id session_type include_problematic :
  match known_issue subject_id session_type with
  | None =>
      should_skip_subject subject_id session_type include_problematic
      = (false, None)
  | Some issue =>
      (issue ∈ always_skip →
         should_skip_subject subject_id session_type include_problematic
         = (true, Some ("Excluded: " +:+ issue)))
      ∧ (issue ∉ always_skip →
           issue ∈ skip_unless_included
           ∧ should_skip_subject subject_id session_type false
             = (true, Some ("Skipped (use --include-problematic to load): "
                            +:+ issue))
           ∧ should_skip_subject subject_id session_type true
             = (false, Some issue))
  end.
Proof.
  unfold should_skip_subject.
  destruct (known_issue subject_id session_type) as [issue|] eqn:Hlook;
    [|reflexivity].
  split.
  - intros Hhard. by rewrite bool_decide_eq_true_2.
  - intros Hsoft.
    destruct (known_issue_vocabulary _ _ _ Hlook) as [?|Hin]; [done|].
    rewrite (bool_decide_eq_false_2 _ Hsoft). simpl.
    by rewrite (bool_decide_eq_true_2 _ Hin).
Qed.

End QualityFacts.

(** ** Loops and fallible code *)

Lemma bind_inv_Ok {A B} (m : result A) (k : A → result B) b :
  bind m k = Ok b → ∃ a, m = Ok a ∧ k a = Ok b.
Proof. destruct m as [e|a]; simpl; [discriminate|eauto]. Qed.

Lemma is_Ok_bind {A B} (m : result A) (k : A → result B) :
  is_Ok (bind m k) ↔ ∃ a, m = Ok a ∧ is_Ok (k a).
Proof.
  split.
  - intros [b Hb]. apply bind_inv_Ok in Hb as (a & -> & Hk). exists a. split; [done|by exists b].
  - intros (a & -> & Hk). done.
Qed.

Lemma for_each_append {I A} (f : I → result (list A))
    (body : I → list A → result (list A)) items records :
  (∀ i s, body i s = let* out := f i in Ok (s ++ out)%list) →
  for_each body items records
  = let* outs := mapM f items in Ok (records ++ concat outs)%list.
Proof.
  intros Hbody. revert records.
  induction items as [|i rest IH]; intros records; simpl.
  - by rewrite app_nil_r.
  - rewrite Hbody. destruct (f i) as [e|out]; simpl; [done|].
    rewrite IH. destruct (mapM f rest) as [e|outs]; simpl; [done|].
    by rewrite app_assoc.
Qed.

Lemma mapM_Forall2 {I A} (f : I → result A) items outs :
  mapM f items = Ok outs ↔ Forall2 (λ i o, f i = Ok o) items outs.
Proof.
  revert outs. induction items as [|i rest IH]; intros outs; simpl.
  - split.
    + intros [= <-]. constructor.
    + intros Hall. by inversion Hall.
  - split.
    + intros Hrun. apply bind_inv_Ok in Hrun as (a & Ha & Hrun).
      apply bind_inv_Ok in Hrun as (others & Hrest & [= <-]).
      constructor; [done|by apply IH].
    + intros Hall. inversion Hall as [|? o ? others Ho Hothers]; subst.
      rewrite Ho. simpl. apply IH in Hothers. by rewrite Hothers.
Qed.

Lemma mapM_is_Ok {I A} (f : I → result A) items :
  Forall (λ i, is_Ok (f i)) items → is_Ok (mapM f items).
Proof.
  induction 1 as [|i rest [a Ha] _ [others Hothers]]; simpl.
  - by exists [].
  - exists (a :: others). by rewrite Ha, Hothers.
Qed.

Lemma for_each_snoc {I A} (f : I → result A)
    (body : I → list A → result (list A)) items records :
  (∀ i s, body i s = let* r := f i in Ok (s ++ [r])%list) →
  for_each body items records
  = let* rs := mapM f items in Ok (records ++ rs)%list.
Proof.
  intros Hbody. revert records.
  induction items as [|i rest IH]; intros records; simpl.
  - by rewrite app_nil_r.
  - rewrite Hbody. destruct (f i) as [e|r]; simpl; [done|].
    rewrite IH. destruct (mapM f rest) as [e|rs]; simpl; [done|].
    by rewrite <- app_assoc.
Qed.

Lemma mapM_range {A} (f : nat → result A) n :
  (∀ i, i < n → is_Ok (f i)) →
  ∃ outs, mapM f (seq 0 n) = Ok outs ∧ length outs = n
          ∧ ∀ i, i < n → ∃ o, outs !! i = Some o ∧ f i = Ok o.
Proof.
  intros Hok.
  destruct (mapM_is_Ok f (seq 0 n)) as [outs Houts].
  { apply Forall_forall. intros i Hi. apply Hok.
    apply list_elem_of_In, in_seq in Hi. lia. }
  exists outs. split; [done|].
  apply mapM_Forall2 in Houts.
  pose proof (Forall2_length _ _ _ Houts) as Hlen. rewrite length_seq in Hlen.
  split; [done|]. intros i Hi.
  destruct (Forall2_lookup_l _ _ _ i i Houts) as (o & Ho & Hf).
  { by rewrite lookup_seq_lt. }
  eauto.
Qed.

Lemma concat_lookup_uniform {A} (n : nat) (outs : list (list A)) i k :
  Forall (λ o, length o = n) outs → k < n →
  concat outs !! (i * n + k) = outs !! i ≫= (λ o, o !! k).
Proof.
  intros Hall Hk. revert i. induction Hall as [|o outs Ho _ IH]; intros i.
  - done.
  - destruct i as [|i]; simpl.
    + rewrite lookup_app_l by lia. done.
    + rewrite lookup_app_r by lia.
      replace (n + i * n + k - length o) with (i * n + k) by lia. apply IH.
Qed.

Lemma concat_length_uniform {A} (n : nat) (outs : list (list A)) :
  Forall (λ o, length o = n) outs → length (concat outs) = length outs * n.
Proof.
  induction 1 as [|o outs Ho _ IH]; simpl; [done|].
  rewrite length_app. lia.
Qed.

Section DecoderFacts.
Context {py : Runtime} (disk : FileSystem).

Lemma truediv_Ok a b q : truediv a b = Ok q → q = (a / b)%float.
Proof. unfold truediv. destruct (b =? 0)%float; [discriminate|]. by intros [= <-]. Qed.

Lemma timestamp_after_Ok T seconds timestamp :
  timestamp_after T seconds = Ok timestamp →
  ∃ us, timedelta_seconds seconds = Ok us
        ∧ (if is_NaT T then timestamp = NaT
           else ts_ns timestamp = (ts_ns T + 1000 * us)%Z
                ∧ tzinfo timestamp = tzinfo T).
Proof.
  unfold timestamp_after. intros Hrun.
  apply bind_inv_Ok in Hrun as (us & Hus & Hadd).
  exists us. split; [done|]. unfold Timestamp_add in Hadd.
  destruct (is_NaT T); [by injection Hadd as <-|].
  case_bool_decide; [|discriminate]. by injection Hadd as <-.
Qed.

Lemma uniform_timestamp_Ok T R i timestamp :
  uniform_timestamp T R i = Ok timestamp →
  ∃ us, timedelta_seconds (float_of_int i / R)%float = Ok us
        ∧ (if is_NaT T then timestamp = NaT
           else ts_ns timestamp = (ts_ns T + 1000 * us)%Z
                ∧ tzinfo timestamp = tzinfo T).
Proof.
  unfold uniform_timestamp. intros Hrun.
  apply bind_inv_Ok in Hrun as (q & Hq & Hafter).
  apply truediv_Ok in Hq as ->. by apply timestamp_after_Ok.
Qed.


Lemma build_records_uniform T R data subject_id session_id signal_type session_type :
  signal_type ≠ "ACC" → signal_type ≠ "IBI" →
  build_records T R data subject_id session_id signal_type session_type
  = mapM (uniform_row T R data subject_id session_id signal_type session_type)
      (seq 0 (length data)).
Proof.
  intros Hacc Hibi. unfold build_records.
  rewrite (proj2 (String.eqb_neq _ _) Hacc), (proj2 (String.eqb_neq _ _) Hibi).
  rewrite (for_each_snoc
    (uniform_row T R data subject_id session_id signal_type session_type)).
  - by destruct (mapM _ _).
  - intros i s. unfold uniform_row, uniform_timestamp.
    destruct (truediv _ _) as [?|seconds]; simpl; [done|].
    destruct (timestamp_after _ _) as [?|timestamp]; simpl; [done|].
    destruct (float_at _ _ _) as [?|value]; done.
Qed.

(** C2. A single-column file (BVP, EDA, TEMP or HR) that decodes to start
    time [T], rate [R] and [n] rows, each with a numeric first cell and a
    representable instant, yields exactly [n] records; record [i] carries
    the instant [T + timedelta(seconds=i/R)], the value [float(data[i][0])]
    as it is, and the id [session_id_signal_i]. *)
Theorem process_single_signal_uniform
    file_path subject_id session_id signal_type session_type T R data :
  signal_type ∈ ["BVP"; "EDA"; "TEMP"; "HR"] →
  parse_empatica_csv disk file_path = Ok (T, R, data) →
  (∀ i, i < length data →
     is_Ok (uniform_timestamp T R i) ∧ is_Ok (float_at data i 0)) →
  ∃ records,
    process_single_signal disk file_path subject_id session_id signal_type
      session_type = Ok records
    ∧ length records = length data
    ∧ ∀ i, i < length data →
        ∃ timestamp us value,
          timedelta_seconds (float_of_int i / R)%float = Ok us
          ∧ (if is_NaT T then timestamp = NaT
             else ts_ns timestamp = (ts_ns T + 1000 * us)%Z
                  ∧ tzinfo timestamp = tzinfo T)
          ∧ float_at data i 0 = Ok value
          ∧ records !! i = Some
              {| Row.measurement_id :=
                   session_id +:+ "_" +:+ signal_type +:+ "_" +:+ str_of_int i;
                 Row.subject_id := subject_id;
                 Row.session_id := session_id;
                 Row.measurement_timestamp := timestamp;
                 Row.signal_type := signal_type;
                 Row.value := value;
                 Row.session_type := session_type;
                 Row.data_quality_flag := "VALID" |}.
Proof.
  intros Hty Hparse Hwf.
  assert (signal_type ≠ "ACC" ∧ signal_type ≠ "IBI") as [Hacc Hibi].
  { split; intros ->; set_unfold; intuition discriminate. }
  unfold process_single_signal. rewrite Hparse. simpl.
  rewrite build_records_uniform by done.
  destruct (mapM_range
    (uniform_row T R data subject_id session_id signal_type session_type)
    (length data)) as (records & Hrun & Hlen & Hrows).
  { intros i Hi. destruct (Hwf i Hi) as [[timestamp Hts] [value Hval]].
    unfold uniform_row. rewrite Hts, Hval. by eexists. }
  exists records. split; [done|]. split; [done|].
  intros i Hi. destruct (Hrows i Hi) as (row & Hrow & Hmk).
  unfold uniform_row in Hmk.
  apply bind_inv_Ok in Hmk as (timestamp & Hts & Hmk).
  apply bind_inv_Ok in Hmk as (value & Hval & [= <-]).
  apply uniform_timestamp_Ok in Hts as (us & Hus & Hshift).
  by exists timestamp, us, value.
Qed.


Lemma build_records_ACC T R data subject_id session_id session_type :
  build_records T R data subject_id session_id "ACC" session_type
  = let* outs := mapM (acc_rows T R data subject_id session_id session_type)
                   (seq 0 (length data)) in
    Ok (concat outs).
Proof.
  unfold build_records. rewrite String.eqb_refl.
  rewrite (for_each_append
    (acc_rows T R data subject_id session_id session_type)); [done|].
  intros i s. unfold acc_rows, uniform_timestamp.
  destruct (truediv _ _) as [?|seconds]; cbn [bind Ok]; [done|].
  destruct (timestamp_after _ _) as [?|timestamp]; cbn [bind Ok]; [done|].
  apply (for_each_snoc
    (acc_row data subject_id session_id session_type timestamp i)).
  intros [axis col_idx] s'. unfold acc_row. simpl.
  destruct (float_at _ _ _) as [?|raw]; done.
Qed.

Lemma acc_rows_length T R data subject_id session_id session_type i out :
  acc_rows T R data subject_id session_id session_type i = Ok out →
  length out = 3.
Proof.
  unfold acc_rows. intros Hrun.
  apply bind_inv_Ok in Hrun as (timestamp & _ & Hrun).
  apply mapM_Forall2, Forall2_length in Hrun. by rewrite <- Hrun.
Qed.

(** C3. An accelerometer file that decodes to [T], [R] and [n] rows of three
    numeric cells yields exactly [3n] records; row [i] gives the records
    [3i], [3i+1], [3i+2] for ACC_X, ACC_Y and ACC_Z, which share the instant
    [T + timedelta(seconds=i/R)], hold the raw cell divided by [64.0], and
    use [i] in their ids. *)
Theorem process_single_signal_ACC
    file_path subject_id session_id session_type T R data :
  parse_empatica_csv disk file_path = Ok (T, R, data) →
  (∀ i, i < length data →
     is_Ok (uniform_timestamp T R i)
     ∧ ∀ col_idx, col_idx < 3 → is_Ok (float_at data i col_idx)) →
  ∃ records,
    process_single_signal disk file_path subject_id session_id "ACC"
      session_type = Ok records
    ∧ length records = 3 * length data
    ∧ ∀ i, i < length data →
        ∃ timestamp us,
          timedelta_seconds (float_of_int i / R)%float = Ok us
          ∧ (if is_NaT T then timestamp = NaT
             else ts_ns timestamp = (ts_ns T + 1000 * us)%Z
                  ∧ tzinfo timestamp = tzinfo T)
          ∧ ∀ k axis col_idx,
              [("ACC_X", 0); ("ACC_Y", 1); ("ACC_Z", 2)] !! k
              = Some (axis, col_idx) →
              ∃ raw,
                float_at data i col_idx = Ok raw
                ∧ records !! (3 * i + k) = Some
                    {| Row.measurement_id :=
                         session_id +:+ "_" +:+ axis +:+ "_" +:+ str_of_int i;
                       Row.subject_id := subject_id;
                       Row.session_id := session_id;
                       Row.measurement_timestamp := timestamp;
                       Row.signal_type := axis;
                       Row.value := (raw / 64)%float;
                       Row.session_type := session_type;
                       Row.data_quality_flag := "VALID" |}.
Proof.
  intros Hparse Hwf.
  unfold process_single_signal. rewrite Hparse. simpl.
  rewrite build_records_ACC.
  destruct (mapM_range
    (acc_rows T R data subject_id session_id session_type) (length data))
    as (outs & Hrun & Hlen & Hrows).
  { intros i Hi. destruct (Hwf i Hi) as [[timestamp Hts] Hcells].
    unfold acc_rows. rewrite Hts. cbn [bind Ok]. apply mapM_is_Ok.
    repeat constructor; unfold acc_row; simpl.
    - destruct (Hcells 0) as [raw ->]; [lia|]. by eexists.
    - destruct (Hcells 1) as [raw ->]; [lia|]. by eexists.
    - destruct (Hcells 2) as [raw ->]; [lia|]. by eexists. }
  assert (Forall (λ o, length o = 3) outs) as Hthree.
  { apply Forall_lookup_2. intros i out Hout.
    destruct (Hrows i) as (out' & Hout' & Hmk).
    { rewrite <- Hlen. by eapply lookup_lt_Some. }
    rewrite Hout in Hout'. injection Hout' as <-.
    by eapply acc_rows_length. }
  rewrite Hrun. cbn [bind Ok]. exists (concat outs).
  split; [done|]. split.
  { rewrite (concat_length_uniform 3) by done. lia. }
  intros i Hi. destruct (Hrows i Hi) as (out & Hout & Hmk).
  unfold acc_rows in Hmk. apply bind_inv_Ok in Hmk as (timestamp & Hts & Hmk).
  apply uniform_timestamp_Ok in Hts as (us & Hus & Hshift).
  exists timestamp, us. do 2 (split; [done|]).
  intros k axis col_idx Haxis.
  apply mapM_Forall2 in Hmk.
  destruct (Forall2_lookup_l _ _ _ _ _ Hmk Haxis) as (row & Hrow & Hmkrow).
  unfold acc_row in Hmkrow. simpl in Hmkrow.
  apply bind_inv_Ok in Hmkrow as (raw & Hraw & Hmkrow).
  injection Hmkrow as <-.
  exists raw. split; [done|].
  match goal with
  | |- _ !! ?n = _ => replace n with (i * 3 + k) by lia
  end.
  rewrite (concat_lookup_uniform 3) by (done || by eapply lookup_lt_Some in Haxis).
  by rewrite Hout.
Qed.


Lemma build_records_IBI T R data subject_id session_id session_type :
  build_records T R data subject_id session_id "IBI" session_type
  = mapM (ibi_row T data subject_id session_id session_type)
      (seq 0 (length data)).
Proof.
  unfold build_records.
  change (String.eqb "IBI" "ACC") with false.
  change (String.eqb "IBI" "IBI") with true. cbv iota.
  rewrite (for_each_snoc (ibi_row T data subject_id session_id session_type)).
  - by destruct (mapM _ _).
  - intros i s. unfold ibi_row.
    destruct (float_at data i 0) as [?|time_offset]; cbn [bind Ok]; [done|].
    destruct (float_at data i 1) as [?|interval_duration]; cbn [bind Ok]; [done|].
    by destruct (timestamp_after _ _).
Qed.

(** C4. The records of an inter-beat-interval file do not depend on the
    decoded sample rate; a file that decodes to [T] and [n] rows of two
    numeric cells yields exactly [n] records, record [i] carrying the instant
    [T + timedelta(seconds=offset_i)] with [offset_i] the cell of column 0,
    and the cell of column 1 as its value. *)
Theorem process_single_signal_IBI
    file_path subject_id session_id session_type T R data :
  (∀ R',
     build_records T R' data subject_id session_id "IBI" session_type
     = build_records T R data subject_id session_id "IBI" session_type)
  ∧ (parse_empatica_csv disk file_path = Ok (T, R, data) →
     (∀ i, i < length data →
        is_Ok (let* time_offset := float_at data i 0 in
               timestamp_after T time_offset)
        ∧ is_Ok (float_at data i 1)) →
     ∃ records,
       process_single_signal disk file_path subject_id session_id "IBI"
         session_type = Ok records
       ∧ length records = length data
       ∧ ∀ i, i < length data →
           ∃ time_offset interval_duration timestamp us,
             float_at data i 0 = Ok time_offset
             ∧ float_at data i 1 = Ok interval_duration
             ∧ timedelta_seconds time_offset = Ok us
             ∧ (if is_NaT T then timestamp = NaT
                else ts_ns timestamp = (ts_ns T + 1000 * us)%Z
                     ∧ tzinfo timestamp = tzinfo T)
             ∧ records !! i = Some
                 {| Row.measurement_id :=
                      session_id +:+ "_IBI_" +:+ str_of_int i;
                    Row.subject_id := subject_id;
                    Row.session_id := session_id;
                    Row.measurement_timestamp := timestamp;
                    Row.signal_type := "IBI";
                    Row.value := interval_duration;
                    Row.session_type := session_type;
                    Row.data_quality_flag := "VALID" |}).
Proof.
  split.
  { intros R'. by rewrite !build_records_IBI. }
  intros Hparse Hwf.
  unfold process_single_signal. rewrite Hparse. cbn [bind Ok].
  rewrite build_records_IBI.
  destruct (mapM_range
    (ibi_row T data subject_id session_id session_type) (length data))
    as (records & Hrun & Hlen & Hrows).
  { intros i Hi. destruct (Hwf i Hi) as [Hts [duration Hduration]].
    apply is_Ok_bind in Hts as (time_offset & Hoffset & [timestamp Hts]).
    unfold ibi_row. rewrite Hoffset, Hduration. cbn [bind Ok]. rewrite Hts.
    by eexists. }
  exists records. split; [done|]. split; [done|].
  intros i Hi. destruct (Hrows i Hi) as (row & Hrow & Hmk).
  unfold ibi_row in Hmk.
  apply bind_inv_Ok in Hmk as (time_offset & Hoffset & Hmk).
  apply bind_inv_Ok in Hmk as (interval_duration & Hduration & Hmk).
  apply bind_inv_Ok in Hmk as (timestamp & Hts & [= <-]).
  apply timestamp_after_Ok in Hts as (us & Hus & Hshift).
  by exists time_offset, interval_duration, timestamp, us.
Qed.

End DecoderFacts.

Section StartTimeFacts.
Context {py : Runtime}.

Lemma for_M_app {I S} (body : I → S → M S) items1 items2 s w :
  for_M body (items1 ++ items2) s w
  = (let! s' := for_M body items1 s in for_M body items2 s') w.
Proof.
  revert s w. induction items1 as [|i rest IH]; intros s w; simpl.
  - done.
  - unfold bindM. destruct (body i s w) as [[e|s'] w']; [done|].
    by rewrite IH.
Qed.

Lemma collect_signals_frames base_path subject_id session_id session_type files w :
  collect_signals base_path subject_id session_id session_type files w
  = (Ok (processed_frames (fs w) base_path subject_id session_id session_type
           files), w).
Proof.
  unfold collect_signals.
  match goal with |- for_M ?b _ _ _ = _ => set (body := b) end.
  cut (∀ all_data,
         for_M body files all_data w
         = (Ok (all_data ++ processed_frames (fs w) base_path subject_id
                  session_id session_type files)%list, w)).
  { intros Hgen. apply Hgen. }
  induction files as [|[signal_type filename] rest IH]; intros all_data.
  - simpl. by rewrite app_nil_r.
  - cbn [for_M]. unfold bindM at 1. unfold body at 1.
    unfold bindM at 1, Path_exists at 1. cbn [Ok].
    unfold processed_frames. cbn [omap list_omap].
    fold (processed_frames (fs w) base_path subject_id session_id
            session_type rest).
    destruct (path_exists _ _); cbn [negb].
    + unfold bindM at 1, try_M.
      destruct (process_single_signal _ _ _ _ _ _) as [e|df]; cbn [Ok ret].
      * apply IH.
      * rewrite IH. by rewrite <- app_assoc.
    + cbn [ret Ok]. apply IH.
Qed.


Lemma processed_frames_app disk base_path subject_id session_id session_type
    files1 files2 :
  processed_frames disk base_path subject_id session_id session_type
    (files1 ++ files2)
  = (processed_frames disk base_path subject_id session_id session_type files1
     ++ processed_frames disk base_path subject_id session_id session_type
          files2)%list.
Proof. apply omap_app. Qed.

(** C5, as the code has it. The start time is first read as a number of
    seconds since the epoch and converted to a UTC instant. When this first
    attempt raises [ValueError] or [TypeError] (the cell is not a number, or
    the number cannot be converted) the cell is read as a date, which is
    localized to UTC when it has no zone; when the second attempt raises as
    well, the result is [DataQualityError] with the raw cell in its message.
    An exception of the first attempt that is neither a [ValueError] nor a
    [TypeError] is not handled: it leaves [parse_start_time] as it is, and
    the cell is not read as a date.  Whatever exception leaves
    [parse_start_time] leaves [process_single_signal], and the signal loop of
    [load_subject_session] drops this file only. *)
Theorem parse_start_time_order (first_value : cell) :
  (∀ x ns,
     py_float first_value = Ok x → to_datetime_unix x = Ok ns →
     parse_start_time first_value
     = Ok (if (ns =? iNaT)%Z then NaT
           else {| ts_ns := ns; tzinfo := Some "UTC" |}))
  ∧ (py_float first_value = raise ValueError →
     parse_unix first_value = raise ValueError)
  ∧ (∀ e,
       parse_unix first_value = raise e →
       is_ValueError_or_TypeError e = true →
       (∀ t, to_datetime first_value = Ok t →
          parse_start_time first_value
          = Ok (match tzinfo t with
                | None =>
                    if is_NaT t then NaT
                    else {| ts_ns := ts_ns t; tzinfo := Some "UTC" |}
                | Some _ => t
                end))
       ∧ (∀ e', to_datetime first_value = raise e' →
            parse_start_time first_value
            = raise (DataQualityError
                       ("Cannot parse start time: " +:+ py_str first_value))))
  ∧ (∀ e,
       parse_unix first_value = raise e →
       is_ValueError_or_TypeError e = false →
       parse_start_time first_value = raise e)
  ∧ (∀ disk file_path df subject_id session_id signal_type session_type e,
       read_csv disk file_path = Ok df →
       iloc df 0 0 = Ok first_value →
       parse_start_time first_value = raise e →
       process_single_signal disk file_path subject_id session_id signal_type
         session_type = raise e)
  ∧ (∀ w base_path subject_id session_id session_type
       files1 signal_type filename files2 e,
       process_single_signal (fs w) (joinpath base_path filename) subject_id
         session_id signal_type session_type = raise e →
       collect_signals base_path subject_id session_id session_type
         (files1 ++ (signal_type, filename) :: files2) w
       = (Ok (processed_frames (fs w) base_path subject_id session_id
                session_type files1
              ++ processed_frames (fs w) base_path subject_id session_id
                   session_type files2)%list, w)).
Proof.
  split; [|split; [|split; [|split; [|split]]]].
  - intros x ns Hx Hns. unfold parse_start_time, parse_unix.
    rewrite Hx. cbn [bind Ok]. by rewrite Hns.
  - intros Hx. unfold parse_unix. by rewrite Hx.
  - intros e He Hcatch. unfold parse_start_time, try_except, raise in *.
    rewrite He, Hcatch. unfold parse_datetime_string. split.
    + intros t Ht. rewrite Ht. cbn [bind Ok]. by destruct (tzinfo t).
    + intros e' He'. by rewrite He'.
  - intros e He Hpass. unfold parse_start_time, try_except, raise in *.
    by rewrite He, Hpass.
  - intros disk file_path df subject_id session_id signal_type session_type e
      Hread Hcell Hstart.
    unfold process_single_signal, parse_empatica_csv.
    rewrite Hread. cbn [bind Ok]. rewrite Hcell. cbn [bind Ok].
    by rewrite Hstart.
  - intros w base_path subject_id session_id session_type
      files1 signal_type filename files2 e Hfail.
    rewrite collect_signals_frames.
    change ((signal_type, filename) :: files2)
      with ([(signal_type, filename)] ++ files2)%list.
    rewrite !processed_frames_app. do 3 f_equal.
    unfold processed_frames. cbn [omap list_omap]. rewrite Hfail.
    by destruct (path_exists _ _).
Qed.

End StartTimeFacts.

Section LocatorFacts.

Lemma probe_first paths w :
  probe paths w
  = (Ok (snd <$> list_find (λ path, Is_true (qualifies (fs w) path)) paths), w).
Proof.
  induction paths as [|path rest IH]; [done|].
  cbn [probe list_find].
  destruct (decide (Is_true (qualifies (fs w) path))) as [Hq|Hq].
  - apply Is_true_true, andb_true_iff in Hq as [Hhere Hmarker].
    unfold bindM, Path_exists. cbn [Ok]. by rewrite Hhere, Hmarker.
  - assert (probe rest w
            = (Ok (snd <$> (prod_map S id <$>
                 list_find (λ path, Is_true (qualifies (fs w) path)) rest)),
               w)) as Hrest.
    { rewrite IH. by destruct (list_find _ rest) as [[??]|]. }
    unfold bindM, Path_exists. cbn [Ok].
    destruct (path_exists (fs w) path) eqn:Hhere; [|done].
    destruct (path_exists (fs w) (joinpath path "STRESS")) eqn:Hmarker; [|done].
    destruct Hq. unfold qualifies. by rewrite Hhere, Hmarker.
Qed.

(** C9, as the code has it. [_find_dataset_root] leaves the world as it is;
    it returns the first of the three candidates that exists and contains a
    [STRESS] entry, and raises the builtin [FileNotFoundError] when no
    candidate does. *)
Theorem find_dataset_root_first base_path w :
  snd (_find_dataset_root base_path w) = w
  ∧ (∀ k path,
       possible_paths base_path !! k = Some path →
       qualifies (fs w) path = true →
       (∀ j earlier, j < k → possible_paths base_path !! j = Some earlier →
                     qualifies (fs w) earlier = false) →
       fst (_find_dataset_root base_path w) = Ok path)
  ∧ ((∀ path, path ∈ possible_paths base_path →
               qualifies (fs w) path = false) →
     fst (_find_dataset_root base_path w)
     = raise (FileNotFoundError
         ("Could not find dataset in " +:+ base_path +:+ ". "
          +:+ "Expected to find STRESS/, AEROBIC/, ANAEROBIC/ directories."))).
Proof.
  unfold _find_dataset_root.
  unfold bindM. rewrite probe_first. cbn [Ok].
  split; [|split].
  - by destruct (list_find _ _) as [[??]|].
  - intros k path Hk Hok Hfirst.
    assert (list_find (λ path, Is_true (qualifies (fs w) path))
              (possible_paths base_path) = Some (k, path)) as ->.
    { apply list_find_Some. split; [done|]. split; [by rewrite Hok|].
      intros j earlier Hj Hlt. rewrite (Hfirst j earlier Hlt Hj). by intros []. }
    done.
  - intros Hnone.
    assert (list_find (λ path, Is_true (qualifies (fs w) path))
              (possible_paths base_path) = None) as ->.
    { apply list_find_None, Forall_forall. intros path Hin.
      rewrite (Hnone path Hin). by intros []. }
    done.
Qed.

End LocatorFacts.

Section ChunkFacts.

Lemma ceil_div_bounds n batch_size :
  0 < batch_size →
  n ≤ ceil_div n batch_size * batch_size < n + batch_size.
Proof.
  intros Hpos. unfold ceil_div.
  set (q := (inject_Z (Z.of_nat n) / inject_Z (Z.of_nat batch_size))%Q).
  assert (0 < inject_Z (Z.of_nat batch_size))%Q as Hb.
  { change 0%Q with (inject_Z 0). rewrite <- Zlt_Qlt. lia. }
  assert (q * inject_Z (Z.of_nat batch_size) == inject_Z (Z.of_nat n))%Q as Hq.
  { unfold q. field. intros Hz. rewrite Hz in Hb. by apply Qlt_irrefl in Hb. }
  pose proof (Qle_ceiling q) as Hle. pose proof (Qceiling_lt q) as Hlt.
  assert (Z.of_nat n ≤ Qceiling q * Z.of_nat batch_size)%Z as Hup.
  { rewrite Zle_Qle, inject_Z_mult, <- Hq.
    apply Qmult_le_compat_r; [done|by apply Qlt_le_weak]. }
  assert ((Qceiling q - 1) * Z.of_nat batch_size < Z.of_nat n)%Z as Hlow.
  { rewrite Zlt_Qlt, inject_Z_mult, <- Hq.
    by apply Qmult_lt_compat_r. }
  assert (0 ≤ Qceiling q)%Z as Hnonneg by nia.
  split; nia.
Qed.

Lemma chunk_take_drop {A} (df : list A) batch_size i :
  chunk df batch_size i = take batch_size (drop (i * batch_size) df).
Proof.
  unfold chunk, iloc_slice.
  destruct (decide ((i + 1) * batch_size ≤ length df)%nat) as [Hin|Hout].
  - f_equal. lia.
  - rewrite !take_ge; [done| |]; rewrite length_drop; lia.
Qed.

Lemma concat_chunks_take {A} (df : list A) batch_size k :
  concat (chunk df batch_size <$> seq 0 k) = take (k * batch_size) df.
Proof.
  induction k as [|k IH]; [done|].
  rewrite seq_S, fmap_app, concat_app, IH. cbn [fmap list_fmap concat].
  rewrite app_nil_r, chunk_take_drop, take_take_drop. f_equal. lia.
Qed.

Lemma concat_chunks {A} (df : list A) batch_size :
  0 < batch_size →
  concat (chunk df batch_size <$> seq 0 (ceil_div (length df) batch_size)) = df.
Proof.
  intros Hpos. rewrite concat_chunks_take. apply take_ge.
  pose proof (ceil_div_bounds (length df) batch_size Hpos). lia.
Qed.

Lemma chunk_lookup {A} (df : list A) batch_size i j :
  j < batch_size → chunk df batch_size i !! j = df !! (i * batch_size + j).
Proof.
  intros Hj. rewrite chunk_take_drop, lookup_take.
  rewrite decide_True by done. apply lookup_drop.
Qed.

Lemma chunk_length {A} (df : list A) batch_size i :
  length (chunk df batch_size i)
  = Nat.min ((i + 1) * batch_size) (length df) - i * batch_size.
Proof. unfold chunk, iloc_slice. rewrite length_take, length_drop. lia. Qed.

End ChunkFacts.

Section UploadFacts.
Context {bq : Service}.

Lemma append_measurements_nil w : append_measurements w [] = w.
Proof.
  destruct w as [disk [facts dims]]. unfold append_measurements. simpl.
  by rewrite app_nil_r.
Qed.

Lemma append_measurements_app w rows1 rows2 :
  append_measurements (append_measurements w rows1) rows2
  = append_measurements w (rows1 ++ rows2).
Proof. unfold append_measurements. simpl. by rewrite app_assoc. Qed.

Lemma BATCH_SIZE_pos : 0 < BATCH_SIZE.
Proof. unfold BATCH_SIZE. lia. Qed.

(** The loop of [upload_to_bigquery] after [m] chunks were written. *)
Lemma upload_loop (df : list Row.t) batch_size (body : nat → unit → M unit) w m :
  (∀ i u, body i u
          = load_measurements (chunk df batch_size i)
              (dataset_id +:+ ".fact_physiological_measurements")) →
  (m ≤ ceil_div (length df) batch_size)%nat →
  (∀ j, j < m →
     job_error (dataset_id +:+ ".fact_physiological_measurements")
       (length (chunk df batch_size j))
       (dataset (append_measurements w (take (j * batch_size) df))) = None) →
  for_M body (seq 0 (ceil_div (length df) batch_size)) tt w
  = for_M body (seq m (ceil_div (length df) batch_size - m)) tt
      (append_measurements w (take (m * batch_size) df)).
Proof.
  intros Hbody. induction m as [|m IH]; intros Hm Hjobs.
  - by rewrite Nat.sub_0_r, append_measurements_nil.
  - rewrite IH by (lia || intros; apply Hjobs; lia).
    replace (ceil_div (length df) batch_size - m)
      with (S (ceil_div (length df) batch_size - S m)) by lia.
    cbn [seq for_M]. unfold bindM at 1. rewrite Hbody.
    unfold load_measurements at 1. rewrite Hjobs by lia. cbn [Ok].
    rewrite append_measurements_app.
    by rewrite chunk_take_drop, take_take_drop, (Nat.add_comm _ batch_size).
Qed.

Lemma upload_to_bigquery_run (df : list Row.t) batch_size w m :
  0 < batch_size →
  (m ≤ ceil_div (length df) batch_size)%nat →
  (∀ j, j < m →
     job_error (dataset_id +:+ ".fact_physiological_measurements")
       (length (chunk df batch_size j))
       (dataset (append_measurements w (take (j * batch_size) df))) = None) →
  (m = ceil_div (length df) batch_size →
   upload_to_bigquery df batch_size w = (Ok tt, append_measurements w df))
  ∧ (∀ e,
       m < ceil_div (length df) batch_size →
       job_error (dataset_id +:+ ".fact_physiological_measurements")
         (length (chunk df batch_size m))
         (dataset (append_measurements w (take (m * batch_size) df))) = Some e →
       upload_to_bigquery df batch_size w
       = (raise e, append_measurements w (take (m * batch_size) df))).
Proof.
  intros Hpos Hm Hjobs. unfold upload_to_bigquery.
  rewrite (proj2 (Nat.eqb_neq batch_size 0)) by lia.
  rewrite (upload_loop df batch_size _ w m) by done.
  split.
  - intros ->. rewrite Nat.sub_diag. cbn [seq for_M]. unfold ret.
    rewrite take_ge; [done|].
    pose proof (ceil_div_bounds (length df) batch_size Hpos). lia.
  - intros e Hlt Hfail.
    replace (ceil_div (length df) batch_size - m)
      with (S (ceil_div (length df) batch_size - S m)) by lia.
    cbn [seq for_M]. unfold bindM at 1, load_measurements at 1.
    fold (chunk df batch_size m). by rewrite Hfail.
Qed.

End UploadFacts.

Section SessionFacts.
Context {py : Runtime} {bq : Service}.

Lemma Series_min_spec first rest :
  Series_min first rest ∈ first :: rest
  ∧ ∀ t, t ∈ first :: rest → is_NaT t = false →
      is_NaT (Series_min first rest) = false
      ∧ (ts_ns (Series_min first rest) ≤ ts_ns t)%Z.
Proof.
  unfold Series_min. revert first.
  induction rest as [|t' rest IH]; intros first; cbn [foldl].
  - split; [by left|]. intros t Ht%list_elem_of_singleton. by subst.
  - match goal with |- foldl ?f ?m _ ∈ _ ∧ _ => set (step := f); set (m' := m) end.
    assert (Hm' : (m' = first ∨ m' = t')
                  ∧ ∀ t, t = first ∨ t = t' → is_NaT t = false →
                      is_NaT m' = false ∧ (ts_ns m' ≤ ts_ns t)%Z).
    { subst m'. destruct (is_NaT t') eqn:Ht'.
      - split; [by left|]. intros t [->| ->] Ht; [done|congruence].
      - destruct (is_NaT first) eqn:Hfirst.
        + split; [by right|]. intros t [->| ->] Ht; [congruence|done].
        + destruct (Z.ltb_spec (ts_ns t') (ts_ns first)).
          * split; [by right|]. intros t [->| ->] _; split; (done || lia).
          * split; [by left|]. intros t [->| ->] _; split; (done || lia). }
    destruct Hm' as [Hwhich Hbelow]. destruct (IH m') as [Hin Hle].
    fold step in Hin, Hle. split.
    + apply elem_of_cons in Hin as [->|Hin]; [|by do 2 right].
      destruct Hwhich as [-> | ->]; [by left|by right; left].
    + intros t Ht Hreal.
      apply elem_of_cons in Ht as [->|Ht];
        [|apply elem_of_cons in Ht as [->|Ht]].
      * destruct (Hbelow first) as [Hm Hfirst]; [by left|done|].
        destruct (Hle m') as [? ?]; [by left|done|]. split; [done|lia].
      * destruct (Hbelow t') as [Hm Hfirst]; [by right|done|].
        destruct (Hle m') as [? ?]; [by left|done|]. split; [done|lia].
      * apply Hle; [by right|done].
Qed.

Lemma Series_max_spec first rest :
  Series_max first rest ∈ first :: rest
  ∧ ∀ t, t ∈ first :: rest → is_NaT t = false →
      is_NaT (Series_max first rest) = false
      ∧ (ts_ns t ≤ ts_ns (Series_max first rest))%Z.
Proof.
  unfold Series_max. revert first.
  induction rest as [|t' rest IH]; intros first; cbn [foldl].
  - split; [by left|]. intros t Ht%list_elem_of_singleton. by subst.
  - match goal with |- foldl ?f ?m _ ∈ _ ∧ _ => set (step := f); set (m' := m) end.
    assert (Hm' : (m' = first ∨ m' = t')
                  ∧ ∀ t, t = first ∨ t = t' → is_NaT t = false →
                      is_NaT m' = false ∧ (ts_ns t ≤ ts_ns m')%Z).
    { subst m'. destruct (is_NaT t') eqn:Ht'.
      - split; [by left|]. intros t [->| ->] Ht; [done|congruence].
      - destruct (is_NaT first) eqn:Hfirst.
        + split; [by right|]. intros t [->| ->] Ht; [congruence|done].
        + destruct (Z.ltb_spec (ts_ns first) (ts_ns t')).
          * split; [by right|]. intros t [->| ->] _; split; (done || lia).
          * split; [by left|]. intros t [->| ->] _; split; (done || lia). }
    destruct Hm' as [Hwhich Habove]. destruct (IH m') as [Hin Hle].
    fold step in Hin, Hle. split.
    + apply elem_of_cons in Hin as [->|Hin]; [|by do 2 right].
      destruct Hwhich as [-> | ->]; [by left|by right; left].
    + intros t Ht Hreal.
      apply elem_of_cons in Ht as [->|Ht];
        [|apply elem_of_cons in Ht as [->|Ht]].
      * destruct (Habove first) as [Hm Hfirst]; [by left|done|].
        destruct (Hle m') as [? ?]; [by left|done|]. split; [done|lia].
      * destruct (Habove t') as [Hm Hfirst]; [by right|done|].
        destruct (Hle m') as [? ?]; [by left|done|]. split; [done|lia].
      * apply Hle; [by right|done].
Qed.

(** When every entry is [NaT], so are the minimum and the maximum. *)
Lemma Series_all_NaT first rest :
  Forall (λ t, is_NaT t = true) (first :: rest) →
  is_NaT (Series_min first rest) = true
  ∧ is_NaT (Series_max first rest) = true.
Proof.
  intros Hall.
  destruct (Series_min_spec first rest) as [Hmin _].
  destruct (Series_max_spec first rest) as [Hmax _].
  rewrite Forall_forall in Hall. split; by apply Hall.
Qed.

(** X20. For a frame with at least one record, the row that
    [create_session_metadata] appends has as start and end the timestamps
    of two records of the frame.  Records whose timestamp is [NaT] do not
    count: the start is before and the end is after every record that has
    an instant, and a record lies between the start and the end exactly when
    its timestamp is not [NaT].  The duration is the difference of end and
    start in seconds divided by 60, which is [nan] when they are [NaT]. *)
Theorem create_session_metadata_span
    session_id subject_id session_type (df : list Row.t) quality_note w :
  df ≠ [] →
  job_error (dataset_id +:+ ".dim_sessions") 1 (dataset w) = None →
  ∃ row,
    create_session_metadata session_id subject_id session_type df quality_note w
    = (Ok tt, append_sessions w [row])
    ∧ SessionRow.session_start_time row ∈ Row.measurement_timestamp <$> df
    ∧ SessionRow.session_end_time row ∈ Row.measurement_timestamp <$> df
    ∧ (∀ r, r ∈ df → is_NaT (Row.measurement_timestamp r) = false →
         is_NaT (SessionRow.session_start_time row) = false
         ∧ is_NaT (SessionRow.session_end_time row) = false
         ∧ (ts_ns (SessionRow.session_start_time row)
            ≤ ts_ns (Row.measurement_timestamp r)
            ≤ ts_ns (SessionRow.session_end_time row))%Z)
    ∧ (∀ r, r ∈ df →
         Timestamp_le (SessionRow.session_start_time row)
           (Row.measurement_timestamp r)
         && Timestamp_le (Row.measurement_timestamp r)
              (SessionRow.session_end_time row)
         = negb (is_NaT (Row.measurement_timestamp r)))
    ∧ SessionRow.duration_minutes row
      = (if is_NaT (SessionRow.session_end_time row)
            || is_NaT (SessionRow.session_start_time row)
         then nan / 60
         else total_seconds (ts_ns (SessionRow.session_end_time row)
                             - ts_ns (SessionRow.session_start_time row)) / 60)%float
    ∧ SessionRow.session_id row = session_id
    ∧ SessionRow.data_quality_notes row = quality_note.
Proof.
  intros Hne Hjob. unfold create_session_metadata.
  destruct (Row.measurement_timestamp <$> df) as [|first rest] eqn:Hcol.
  { by apply fmap_nil_inv in Hcol. }
  destruct (Series_min_spec first rest) as [Hmin_in Hmin].
  destruct (Series_max_spec first rest) as [Hmax_in Hmax].
  eexists. split.
  { unfold bindM, lift. change (truediv ?x 60) with (Ok (x / 60)%float).
    cbn [Ok]. unfold load_sessions. cbn [length]. by rewrite Hjob. }
  cbn [SessionRow.session_start_time SessionRow.session_end_time
       SessionRow.duration_minutes SessionRow.session_id
       SessionRow.data_quality_notes].
  do 2 (split; [done|]).
  assert (Hbounds : ∀ r, r ∈ df →
            is_NaT (Row.measurement_timestamp r) = false →
            is_NaT (Series_min first rest) = false
            ∧ is_NaT (Series_max first rest) = false
            ∧ (ts_ns (Series_min first rest)
               ≤ ts_ns (Row.measurement_timestamp r)
               ≤ ts_ns (Series_max first rest))%Z).
  { intros r Hr Hreal.
    assert (Row.measurement_timestamp r ∈ first :: rest) as Hts.
    { rewrite <- Hcol. by apply list_elem_of_fmap_2. }
    destruct (Hmin _ Hts Hreal) as [? ?]. destruct (Hmax _ Hts Hreal) as [? ?].
    done. }
  split; [done|]. split.
  { intros r Hr. unfold Timestamp_le.
    destruct (is_NaT (Row.measurement_timestamp r)) eqn:Hreal.
    - cbn. by rewrite andb_false_r.
    - destruct (Hbounds r Hr Hreal) as (-> & -> & Hlo & Hhi). cbn.
      by rewrite (proj2 (Z.leb_le _ _) Hlo), (proj2 (Z.leb_le _ _) Hhi). }
  split; [|done].
  unfold elapsed_seconds. by destruct (_ || _).
Qed.

End SessionFacts.

Section LoadFacts.
Context {py : Runtime} {bq : Service}.

(** C7. With batches of 50000, [upload_to_bigquery] cuts the [n] records
    into [ceil(n/50000)] chunks; chunk [i] holds the records [i*50000] to
    [min((i+1)*50000, n)], and the chunks in order make up the frame. The
    chunks are appended one after the other, each job issued on the table as
    the previous one left it: when all jobs complete the table has grown by
    the whole frame, and when the job of chunk [m] raises, the exception
    leaves the method and the table keeps the chunks before [m]. *)
Theorem upload_to_bigquery_chunks (df : list Row.t) (w : World) :
  let n := length df in
  let num_batches := ceil_div n BATCH_SIZE in
  let table_id := dataset_id +:+ ".fact_physiological_measurements" in
  Z.of_nat BATCH_SIZE = 50000%Z
  ∧ (n ≤ num_batches * BATCH_SIZE < n + BATCH_SIZE)%nat
  ∧ concat (chunk df BATCH_SIZE <$> seq 0 num_batches) = df
  ∧ (∀ i, length (chunk df BATCH_SIZE i)
          = Nat.min ((i + 1) * BATCH_SIZE) n - i * BATCH_SIZE)
  ∧ (∀ i j, (j < BATCH_SIZE)%nat →
            chunk df BATCH_SIZE i !! j = df !! (i * BATCH_SIZE + j))
  ∧ ∀ m, (m ≤ num_batches)%nat →
      (∀ j, (j < m)%nat →
         job_error table_id (length (chunk df BATCH_SIZE j))
           (dataset (append_measurements w (take (j * BATCH_SIZE) df)))
         = None) →
      (m = num_batches →
       upload_to_bigquery df BATCH_SIZE w = (Ok tt, append_measurements w df))
      ∧ (∀ e, (m < num_batches)%nat →
           job_error table_id (length (chunk df BATCH_SIZE m))
             (dataset (append_measurements w (take (m * BATCH_SIZE) df)))
           = Some e →
           upload_to_bigquery df BATCH_SIZE w
           = (raise e, append_measurements w (take (m * BATCH_SIZE) df))).
Proof.
  intros n num_batches table_id. split; [done|].
  split; [apply ceil_div_bounds, BATCH_SIZE_pos|].
  split; [apply concat_chunks, BATCH_SIZE_pos|].
  split; [apply chunk_length|]. split; [apply chunk_lookup|].
  intros m Hm Hjobs. by apply upload_to_bigquery_run; [apply BATCH_SIZE_pos|..].
Qed.

(** Every run of the uploader stops at some chunk [m]: the chunks before it
    are written, and either [m] is the number of chunks or the job of chunk
    [m] raises. *)
Lemma upload_to_bigquery_outcome (df : list Row.t) batch_size w :
  (0 < batch_size)%nat →
  upload_to_bigquery df batch_size w = (Ok tt, append_measurements w df)
  ∨ ∃ m e,
      (m < ceil_div (length df) batch_size)%nat
      ∧ upload_to_bigquery df batch_size w
        = (raise e, append_measurements w (take (m * batch_size) df)).
Proof.
  intros Hpos.
  set (job j := job_error (dataset_id +:+ ".fact_physiological_measurements")
                  (length (chunk df batch_size j))
                  (dataset (append_measurements w (take (j * batch_size) df)))).
  assert (∀ k, (k ≤ ceil_div (length df) batch_size)%nat →
            (∀ j, (j < k)%nat → job j = None)
            ∨ ∃ m e, (m < k)%nat ∧ (∀ j, (j < m)%nat → job j = None)
                     ∧ job m = Some e) as Hscan.
  { induction k as [|k IH]; intros Hk.
    - left. intros j Hj. lia.
    - destruct IH as [Hall|(m & e & Hm & Hbefore & Hfail)]; [lia| |].
      + destruct (job k) as [e|] eqn:Hjob.
        * right. exists k, e. split; [lia|]. done.
        * left. intros j Hj. destruct (decide (j = k)) as [->|]; [done|].
          apply Hall. lia.
      + right. exists m, e. split; [lia|]. done. }
  destruct (Hscan (ceil_div (length df) batch_size)) as
    [Hall|(m & e & Hm & Hbefore & Hfail)]; [done| |].
  - left. by apply (upload_to_bigquery_run df batch_size w
                      (ceil_div (length df) batch_size)).
  - right. exists m, e. split; [done|].
    by apply (upload_to_bigquery_run df batch_size w m); [|lia|..].
Qed.


Lemma create_session_metadata_outcome
    session_id subject_id session_type (df : list Row.t) quality_note w :
  (∃ e, create_session_metadata session_id subject_id session_type df
          quality_note w = (raise e, w))
  ∨ (df ≠ []
     ∧ ∃ row, create_session_metadata session_id subject_id session_type df
                quality_note w = (Ok tt, append_sessions w [row])).
Proof.
  destruct df as [|r df].
  { left. by exists KeyError. }
  destruct (job_error (dataset_id +:+ ".dim_sessions") 1 (dataset w))
    as [e|] eqn:Hjob.
  - left. exists e. unfold create_session_metadata. cbn [fmap list_fmap].
    unfold bindM, lift. change (truediv ?x 60) with (Ok (x / 60)%float).
    cbn [Ok]. unfold load_sessions. cbn [length]. by rewrite Hjob.
  - right. split; [done|]. eexists.
    unfold create_session_metadata. cbn [fmap list_fmap].
    unfold bindM, lift. change (truediv ?x 60) with (Ok (x / 60)%float).
    cbn [Ok]. unfold load_sessions. cbn [length]. by rewrite Hjob.
Qed.

(** [load_subject_session] once the subject is not skipped and its
    directory exists. *)
Lemma load_subject_session_loaded
    dataset_root subject_id session_type include_problematic reason w :
  Quality.should_skip_subject subject_id session_type include_problematic
  = (false, reason) →
  path_exists (fs w)
    (joinpath (joinpath dataset_root session_type) subject_id) = true →
  let session_id := subject_id +:+ "_" +:+ session_type in
  let frames :=
    processed_frames (fs w)
      (joinpath (joinpath dataset_root session_type) subject_id)
      subject_id session_id session_type signal_files in
  load_subject_session dataset_root subject_id session_type
    include_problematic w
  = match frames with
    | [] => (Ok None, w)
    | _ :: _ =>
        (let! _ := upload_to_bigquery (concat frames) BATCH_SIZE in
         let! _ := create_session_metadata session_id subject_id session_type
                     (concat frames) reason in
         ret (Some (concat frames))) w
    end.
Proof.
  intros Hskip Hpath session_id frames. unfold load_subject_session.
  rewrite Hskip. unfold bindM at 1, Path_exists at 1. cbn [Ok].
  rewrite Hpath. cbn [negb]. unfold bindM at 1.
  rewrite collect_signals_frames. cbn [Ok].
  fold session_id. fold frames. by destruct frames.
Qed.

Lemma load_subject_session_written
    dataset_root subject_id session_type include_problematic w r w' :
  let base_path := joinpath (joinpath dataset_root session_type) subject_id in
  let session_id := subject_id +:+ "_" +:+ session_type in
  let combined_df :=
    concat (processed_frames (fs w) base_path subject_id session_id
              session_type signal_files) in
  load_subject_session dataset_root subject_id session_type
    include_problematic w = (r, w') →
  dim_sessions (dataset w') ≠ dim_sessions (dataset w) →
  ∃ row,
    combined_df ≠ []
    ∧ r = Ok (Some combined_df)
    ∧ upload_to_bigquery combined_df BATCH_SIZE w
      = (Ok tt, append_measurements w combined_df)
    ∧ w' = append_sessions (append_measurements w combined_df) [row].
Proof.
  intros base_path session_id combined_df Hrun Hchanged.
  destruct (Quality.should_skip_subject subject_id session_type
              include_problematic) as [[] reason] eqn:Hskip.
  { unfold load_subject_session in Hrun. rewrite Hskip in Hrun.
    injection Hrun as <- <-. done. }
  destruct (path_exists (fs w) base_path) eqn:Hpath.
  2:{ unfold load_subject_session in Hrun. rewrite Hskip in Hrun.
      unfold bindM at 1, Path_exists at 1 in Hrun. cbn [Ok] in Hrun.
      fold base_path in Hrun. rewrite Hpath in Hrun.
      injection Hrun as <- <-. done. }
  rewrite (load_subject_session_loaded _ _ _ _ reason) in Hrun by done.
  fold base_path session_id in Hrun. subst combined_df.
  destruct (processed_frames _ _ _ _ _ _) as [|frame frames] eqn:Hframes.
  { injection Hrun as <- <-. done. }
  set (combined_df := concat (frame :: frames)) in *.
  unfold bindM at 1 in Hrun.
  destruct (upload_to_bigquery_outcome combined_df BATCH_SIZE w
              BATCH_SIZE_pos) as [Hup|(m & e & _ & Hup)];
    rewrite Hup in Hrun.
  2:{ injection Hrun as <- <-. done. }
  unfold bindM at 1 in Hrun.
  destruct (create_session_metadata_outcome session_id subject_id
              session_type combined_df reason
              (append_measurements w combined_df))
    as [[e Hmeta]|[Hne [row Hmeta]]]; rewrite Hmeta in Hrun.
  { injection Hrun as <- <-. done. }
  injection Hrun as <- <-. by exists row.
Qed.

Lemma always_skip_excluded subject_id session_type include_problematic issue :
  Quality.known_issue subject_id session_type = Some issue →
  issue ∈ Quality.always_skip →
  Quality.should_skip_subject subject_id session_type include_problematic
  = (true, Some ("Excluded: " +:+ issue)).
Proof.
  intros Hissue Hhard. unfold Quality.should_skip_subject.
  by rewrite Hissue, bool_decide_eq_true_2.
Qed.

(** C8. [load_subject_session] returns [None] and leaves both tables as they
    were when the subject is skipped (for the two excluding tags whatever the
    flag), and when every signal file is missing or fails to be processed.
    A run that adds a row to [dim_sessions] has produced at least one
    record, and has appended all its records to the measurement table. *)
Theorem load_subject_session_writes_nothing
    dataset_root subject_id session_type include_problematic w :
  let base_path := joinpath (joinpath dataset_root session_type) subject_id in
  let session_id := subject_id +:+ "_" +:+ session_type in
  ((Quality.should_skip_subject subject_id session_type include_problematic).1
     = true →
   load_subject_session dataset_root subject_id session_type
     include_problematic w = (Ok None, w))
  ∧ (∀ issue flag,
       Quality.known_issue subject_id session_type = Some issue →
       issue ∈ Quality.always_skip →
       load_subject_session dataset_root subject_id session_type flag w
       = (Ok None, w))
  ∧ ((∀ signal_type filename,
        (signal_type, filename) ∈ signal_files →
        path_exists (fs w) (joinpath base_path filename) = false
        ∨ ∃ e, process_single_signal (fs w) (joinpath base_path filename)
                 subject_id session_id signal_type session_type = raise e) →
     load_subject_session dataset_root subject_id session_type
       include_problematic w = (Ok None, w))
  ∧ (∀ r w',
       load_subject_session dataset_root subject_id session_type
         include_problematic w = (r, w') →
       dim_sessions (dataset w') ≠ dim_sessions (dataset w) →
       ∃ combined_df row,
         combined_df ≠ []
         ∧ r = Ok (Some combined_df)
         ∧ w' = append_sessions (append_measurements w combined_df) [row]).
Proof.
  intros base_path session_id. split; [|split; [|split]].
  - intros Hskip. unfold load_subject_session.
    destruct (Quality.should_skip_subject _ _ _) as [should_skip reason].
    simpl in Hskip. by subst.
  - intros issue flag Hissue Hhard. unfold load_subject_session.
    by rewrite (always_skip_excluded _ _ flag issue).
  - intros Hnone. unfold load_subject_session.
    destruct (Quality.should_skip_subject _ _ _) as [[] reason]; [done|].
    unfold bindM at 1, Path_exists at 1. cbn [Ok]. fold base_path.
    destruct (path_exists (fs w) base_path); [|done]. cbn [negb].
    unfold bindM at 1. rewrite collect_signals_frames. cbn [Ok].
    fold session_id.
    assert (processed_frames (fs w) base_path subject_id session_id
              session_type signal_files = []) as ->; [|done].
    unfold processed_frames.
    generalize signal_files, Hnone.
    intros files Hfiles. induction files as [|[signal_type filename] files IH].
    { done. }
    cbn [omap list_omap].
    destruct (Hfiles signal_type filename) as [->|[e ->]]; [by left| |].
    + apply IH. intros ?? Hin. apply Hfiles. by right.
    + destruct (path_exists _ _); apply IH; intros ?? Hin; apply Hfiles;
        by right.
  - intros r w' Hrun Hchanged.
    destruct (load_subject_session_written _ _ _ _ _ _ _ Hrun Hchanged)
      as (row & Hne & -> & _ & ->).
    by eexists _, row.
Qed.


(** C10. When the job of some chunk raises during the upload of a subject's
    records, [load_subject_session] raises the same exception and
    [dim_sessions] is left as it was; a run that adds a row to
    [dim_sessions] has completed the upload of every chunk before. *)
Theorem load_subject_session_upload_failure
    dataset_root subject_id session_type include_problematic w :
  let base_path := joinpath (joinpath dataset_root session_type) subject_id in
  let session_id := subject_id +:+ "_" +:+ session_type in
  let combined_df :=
    concat (processed_frames (fs w) base_path subject_id session_id
              session_type signal_files) in
  let table_id := dataset_id +:+ ".fact_physiological_measurements" in
  (∀ m e,
     (Quality.should_skip_subject subject_id session_type
        include_problematic).1 = false →
     path_exists (fs w) base_path = true →
     (m < ceil_div (length combined_df) BATCH_SIZE)%nat →
     (∀ j, (j < m)%nat →
        job_error table_id (length (chunk combined_df BATCH_SIZE j))
          (dataset (append_measurements w (take (j * BATCH_SIZE) combined_df)))
        = None) →
     job_error table_id (length (chunk combined_df BATCH_SIZE m))
       (dataset (append_measurements w (take (m * BATCH_SIZE) combined_df)))
     = Some e →
     load_subject_session dataset_root subject_id session_type
       include_problematic w
     = (raise e, append_measurements w (take (m * BATCH_SIZE) combined_df))
     ∧ dim_sessions
         (dataset (append_measurements w (take (m * BATCH_SIZE) combined_df)))
       = dim_sessions (dataset w))
  ∧ (∀ r w',
       load_subject_session dataset_root subject_id session_type
         include_problematic w = (r, w') →
       dim_sessions (dataset w') ≠ dim_sessions (dataset w) →
       upload_to_bigquery combined_df BATCH_SIZE w
       = (Ok tt, append_measurements w combined_df)
       ∧ fact_physiological_measurements (dataset w')
         = (fact_physiological_measurements (dataset w) ++ combined_df)%list).
Proof.
  intros base_path session_id combined_df table_id. split.
  - intros m e Hskip Hpath Hm Hjobs Hfail.
    destruct (Quality.should_skip_subject subject_id session_type
                include_problematic) as [should_skip reason] eqn:Hpolicy.
    simpl in Hskip. subst should_skip.
    rewrite (load_subject_session_loaded _ _ _ _ reason) by done.
    fold base_path session_id.
    destruct (upload_to_bigquery_run combined_df BATCH_SIZE w m
                BATCH_SIZE_pos) as [_ Hraise]; [lia|done|].
    specialize (Hraise e Hm Hfail). subst combined_df.
    destruct (processed_frames _ _ _ _ _ _) as [|frame frames] eqn:Hframes.
    { change (length (concat (@nil (list Row.t)))) with 0 in Hm.
      pose proof (ceil_div_bounds 0 BATCH_SIZE BATCH_SIZE_pos).
      pose proof BATCH_SIZE_pos. nia. }
    split; [|done]. unfold bindM at 1. by rewrite Hraise.
  - intros r w' Hrun Hchanged.
    destruct (load_subject_session_written _ _ _ _ _ _ _ Hrun Hchanged)
      as (row & Hne & -> & Hup & ->).
    done.
Qed.

End LoadFacts.

(** ** The theorems on the sample world *)

Section SampleRuns.
#[local] Existing Instance Demo.runtime.

Lemma should_skip_subject_policy_witness :
  Quality.should_skip_subject "S03" "AEROBIC" false
  = (true, Some "Skipped (use --include-problematic to load): incomplete_procedure")
  ∧ Quality.should_skip_subject "S03" "AEROBIC" true
    = (false, Some "incomplete_procedure").
Proof.
  pose proof (should_skip_subject_policy "S03" "AEROBIC" true) as Hpolicy.
  assert (Quality.known_issue "S03" "AEROBIC" = Some "incomplete_procedure")
    as Hissue by (vm_compute; reflexivity).
  rewrite Hissue in Hpolicy. destruct Hpolicy as [_ Hsoft].
  destruct Hsoft as (_ & Hwithout & Hwith).
  - unfold Quality.always_skip. intros Hin.
    apply elem_of_cons in Hin as [Heq|Hin]; [discriminate|].
    apply elem_of_cons in Hin as [Heq|Hin]; [discriminate|].
    by apply elem_of_nil in Hin.
  - exact (conj Hwithout Hwith).
Defined.

Lemma process_single_signal_uniform_witness :
  ∃ records,
    process_single_signal Demo.disk (Demo.S05 +:+ "/BVP.csv")
      "S05" "S05_STRESS" "BVP" "STRESS" = Ok records
    ∧ length records = 3
    ∧ records !! 1 = Some
        {| Row.measurement_id := "S05_STRESS_BVP_1";
           Row.subject_id := "S05";
           Row.session_id := "S05_STRESS";
           Row.measurement_timestamp :=
             {| ts_ns := 1361377519015625000; tzinfo := Some "UTC" |};
           Row.signal_type := "BVP";
           Row.value := 2.5;
           Row.session_type := "STRESS";
           Row.data_quality_flag := "VALID" |}.
Proof.
  destruct (process_single_signal_uniform Demo.disk (Demo.S05 +:+ "/BVP.csv")
              "S05" "S05_STRESS" "BVP" "STRESS"
              {| ts_ns := 1361377519000000000; tzinfo := Some "UTC" |}
              64 (drop 2 Demo.BVP_csv))
    as (records & Hrun & Hlen & Hrows).
  - by left.
  - vm_compute. reflexivity.
  - intros i Hi.
    destruct i as [|[|[|i]]]; [| | |simpl in Hi; lia];
      (split; eexists; vm_compute; reflexivity).
  - exists records. split; [exact Hrun|]. split; [exact Hlen|].
    destruct (Hrows 1) as (timestamp & us & value & Hus & Hshift & Hval & Hrow).
    { simpl. lia. }
    rewrite Hrow. f_equal.
    vm_compute in Hus. injection Hus as <-.
    vm_compute in Hval. injection Hval as <-.
    cbv beta iota delta [is_NaT ts_ns iNaT] in Hshift.
    destruct Hshift as [Hns Htz].
    destruct timestamp as [ns tz]. simpl in Hns, Htz. subst ns tz.
    reflexivity.
Defined.

Lemma process_single_signal_ACC_witness :
  ∃ records,
    process_single_signal Demo.disk (Demo.S05 +:+ "/ACC.csv")
      "S05" "S05_STRESS" "ACC" "STRESS" = Ok records
    ∧ length records = 6
    ∧ records !! 4 = Some
        {| Row.measurement_id := "S05_STRESS_ACC_Y_1";
           Row.subject_id := "S05";
           Row.session_id := "S05_STRESS";
           Row.measurement_timestamp :=
             {| ts_ns := 1361377519031250000; tzinfo := Some "UTC" |};
           Row.signal_type := "ACC_Y";
           Row.value := (0 / 64)%float;
           Row.session_type := "STRESS";
           Row.data_quality_flag := "VALID" |}.
Proof.
  destruct (process_single_signal_ACC Demo.disk (Demo.S05 +:+ "/ACC.csv")
              "S05" "S05_STRESS" "STRESS"
              {| ts_ns := 1361377519000000000; tzinfo := Some "UTC" |}
              32 (drop 2 Demo.ACC_csv))
    as (records & Hrun & Hlen & Hrows).
  - vm_compute. reflexivity.
  - intros i Hi.
    destruct i as [|[|i]]; [| |simpl in Hi; lia];
      (split; [eexists; vm_compute; reflexivity|]);
      intros col_idx Hcol;
      (destruct col_idx as [|[|[|col_idx]]]; [| | |lia]);
      eexists; vm_compute; reflexivity.
  - exists records. split; [exact Hrun|]. split; [exact Hlen|].
    destruct (Hrows 1) as (timestamp & us & Hus & Hshift & Haxes).
    { simpl. lia. }
    destruct (Haxes 1 "ACC_Y" 1) as (raw & Hraw & Hrow); [reflexivity|].
    change (3 * 1 + 1) with 4 in Hrow. rewrite Hrow. f_equal.
    vm_compute in Hus. injection Hus as <-.
    vm_compute in Hraw. injection Hraw as <-.
    cbv beta iota delta [is_NaT ts_ns iNaT] in Hshift.
    destruct Hshift as [Hns Htz].
    destruct timestamp as [ns tz]. simpl in Hns, Htz. subst ns tz.
    reflexivity.
Defined.

Lemma process_single_signal_IBI_witness :
  build_records {| ts_ns := 1361377519000000000; tzinfo := Some "UTC" |}
    4 (drop 2 Demo.IBI_csv) "S05" "S05_STRESS" "IBI" "STRESS"
  = build_records {| ts_ns := 1361377519000000000; tzinfo := Some "UTC" |}
      64 (drop 2 Demo.IBI_csv) "S05" "S05_STRESS" "IBI" "STRESS"
  ∧ ∃ records,
      process_single_signal Demo.disk (Demo.S05 +:+ "/IBI.csv")
        "S05" "S05_STRESS" "IBI" "STRESS" = Ok records
      ∧ length records = 2
      ∧ records !! 1 = Some
          {| Row.measurement_id := "S05_STRESS_IBI_1";
             Row.subject_id := "S05";
             Row.session_id := "S05_STRESS";
             Row.measurement_timestamp :=
               {| ts_ns := 1361377520250000000; tzinfo := Some "UTC" |};
             Row.signal_type := "IBI";
             Row.value := 0.8125;
             Row.session_type := "STRESS";
             Row.data_quality_flag := "VALID" |}.
Proof.
  destruct (process_single_signal_IBI Demo.disk (Demo.S05 +:+ "/IBI.csv")
              "S05" "S05_STRESS" "STRESS"
              {| ts_ns := 1361377519000000000; tzinfo := Some "UTC" |}
              64 (drop 2 Demo.IBI_csv))
    as [Hrate Hfile].
  split; [exact (Hrate 4%float)|].
  destruct Hfile as (records & Hrun & Hlen & Hrows).
  - vm_compute. reflexivity.
  - intros i Hi.
    destruct i as [|[|i]]; [| |simpl in Hi; lia];
      (split; eexists; vm_compute; reflexivity).
  - exists records. split; [exact Hrun|]. split; [exact Hlen|].
    destruct (Hrows 1)
      as (offset & duration & timestamp & us
          & Hoffset & Hduration & Hus & Hshift & Hrow).
    { simpl. lia. }
    rewrite Hrow. f_equal.
    vm_compute in Hoffset. injection Hoffset as <-.
    vm_compute in Hduration. injection Hduration as <-.
    vm_compute in Hus. injection Hus as <-.
    cbv beta iota delta [is_NaT ts_ns iNaT] in Hshift.
    destruct Hshift as [Hns Htz].
    destruct timestamp as [ns tz]. simpl in Hns, Htz. subst ns tz.
    reflexivity.
Defined.

(** C5, as the claim states it, fails: the cell [1361377519000000.5] (an
    epoch in microseconds) is a number, yet its start time is the one of the
    second attempt.  That many seconds after the epoch are out of bounds
    whether pandas counts nanoseconds or microseconds, the conversion raises
    [OutOfBoundsDatetime] (a [ValueError]), the handler of the outer [try]
    runs, and [pd.to_datetime(first_value)] reads the number as
    nanoseconds. *)
Lemma parse_start_time_number_fallback :
  py_float (CNum 1361377519000000.5) = Ok 1361377519000000.5%float
  ∧ parse_unix (CNum 1361377519000000.5) = raise ValueError
  ∧ parse_start_time (CNum 1361377519000000.5)
    = parse_datetime_string (CNum 1361377519000000.5)
  ∧ parse_start_time (CNum 1361377519000000.5)
    = Ok {| ts_ns := 1361377519000000; tzinfo := Some "UTC" |}
  ∧ parse_start_time (CNum 1361377519000000.5)
    ≠ parse_unix (CNum 1361377519000000.5).
Proof.
  split; [|split; [|split; [|split]]]; try (vm_compute; reflexivity).
  vm_compute. discriminate.
Qed.

Lemma parse_start_time_order_witness :
  parse_start_time (CNum 1361377519)
  = Ok {| ts_ns := 1361377519000000000; tzinfo := Some "UTC" |}
  ∧ parse_start_time (CStr "2013-02-20 17:55:19")
    = Ok {| ts_ns := 1361382919000000000; tzinfo := Some "UTC" |}
  ∧ parse_start_time (CStr "not-a-date")
    = raise (DataQualityError "Cannot parse start time: not-a-date")
  ∧ process_single_signal Demo.disk (Demo.S05 +:+ "/TEMP.csv")
      "S05" "S05_STRESS" "TEMP" "STRESS"
    = raise (DataQualityError "Cannot parse start time: not-a-date")
  ∧ collect_signals Demo.S05 "S05" "S05_STRESS" "STRESS" signal_files
      Demo.world
    = (Ok (processed_frames Demo.disk Demo.S05 "S05" "S05_STRESS" "STRESS"
             [("BVP", "BVP.csv"); ("EDA", "EDA.csv")]
           ++ processed_frames Demo.disk Demo.S05 "S05" "S05_STRESS" "STRESS"
                [("ACC", "ACC.csv"); ("HR", "HR.csv"); ("IBI", "IBI.csv")])%list,
       Demo.world)
  ∧ parse_start_time (py := Demo.out_of_memory) (CNum 1361377519)
    = raise (OtherException "MemoryError").
Proof.
  destruct (parse_start_time_order (CNum 1361377519)) as (Hunix & _).
  destruct (parse_start_time_order (CStr "2013-02-20 17:55:19"))
    as (_ & Hnumber & Hsecond & _).
  destruct (parse_start_time_order (CStr "not-a-date"))
    as (_ & Hnumber' & Hsecond' & _ & Hfile & Hloop).
  destruct (parse_start_time_order (py := Demo.out_of_memory)
              (CNum 1361377519)) as (_ & _ & _ & Hpass & _).
  split; [exact (Hunix 1361377519%float 1361377519000000000%Z eq_refl eq_refl)|].
  split.
  { destruct (Hsecond ValueError (Hnumber eq_refl) eq_refl) as [Hdate _].
    exact (Hdate {| ts_ns := 1361382919000000000; tzinfo := None |} eq_refl). }
  assert (parse_start_time (CStr "not-a-date")
          = raise (DataQualityError "Cannot parse start time: not-a-date"))
    as Hbad.
  { destruct (Hsecond' ValueError (Hnumber' eq_refl) eq_refl) as [_ Hraise].
    exact (Hraise ValueError eq_refl). }
  split; [exact Hbad|].
  assert (process_single_signal Demo.disk (Demo.S05 +:+ "/TEMP.csv")
            "S05" "S05_STRESS" "TEMP" "STRESS"
          = raise (DataQualityError "Cannot parse start time: not-a-date"))
    as Hskipped.
  { exact (Hfile Demo.disk (Demo.S05 +:+ "/TEMP.csv") Demo.TEMP_csv
             "S05" "S05_STRESS" "TEMP" "STRESS" _ eq_refl eq_refl Hbad). }
  split; [exact Hskipped|].
  split.
  { exact (Hloop Demo.world Demo.S05 "S05" "S05_STRESS" "STRESS"
             [("BVP", "BVP.csv"); ("EDA", "EDA.csv")] "TEMP" "TEMP.csv"
             [("ACC", "ACC.csv"); ("HR", "HR.csv"); ("IBI", "IBI.csv")]
             _ Hskipped). }
  exact (Hpass (OtherException "MemoryError") eq_refl eq_refl).
Defined.

Lemma create_session_metadata_span_witness :
  ∃ row,
    create_session_metadata (bq := Demo.available) "S05_STRESS" "S05" "STRESS"
      Demo.three_rows None Demo.world
    = (Ok tt, append_sessions Demo.world [row])
    ∧ ts_ns (SessionRow.session_start_time row) = 10%Z
    ∧ ts_ns (SessionRow.session_end_time row) = 30%Z
    ∧ ∀ r, r ∈ Demo.three_rows →
        (ts_ns (SessionRow.session_start_time row)
         ≤ ts_ns (Row.measurement_timestamp r)
         ≤ ts_ns (SessionRow.session_end_time row))%Z.
Proof.
  destruct (create_session_metadata_span (bq := Demo.available)
              "S05_STRESS" "S05" "STRESS" Demo.three_rows None Demo.world)
    as (row & Hrun & _ & _ & Hspan & _).
  - discriminate.
  - reflexivity.
  - exists row. split; [exact Hrun|].
    vm_compute in Hrun. injection Hrun as <-.
    split; [reflexivity|]. split; [reflexivity|].
    intros r Hr. apply Hspan; [exact Hr|].
    repeat (apply elem_of_cons in Hr as [->|Hr]; [reflexivity|]).
    by apply elem_of_nil in Hr.
Defined.

(** C6, at a frame that the loader builds.  The only file of subject [S22]
    has no start time: its first cell is NaN, which [float] accepts and
    [pd.to_datetime(nan, unit='s', utc=True)] turns into [NaT] without
    raising, so that the file is not rejected the way a file with an
    unreadable date is.  Both records carry [NaT], the session row has [NaT]
    as start and as end and [nan] as duration, and no record lies between
    the start and the end of its session. *)
Lemma create_session_metadata_NaT_records :
  parse_start_time (CNum nan) = Ok NaT
  ∧ ∃ df row w',
      load_subject_session (bq := Demo.available) Demo.root "S22" "STRESS"
        false Sample.world = (Ok (Some df), w')
      ∧ length df = 2%nat
      ∧ dim_sessions (dataset w') = [row]
      ∧ Forall (λ r, Row.measurement_timestamp r = NaT) df
      ∧ SessionRow.session_start_time row = NaT
      ∧ SessionRow.session_end_time row = NaT
      ∧ is_nan (SessionRow.duration_minutes row) = true
      ∧ Forall (λ r,
            Timestamp_le (SessionRow.session_start_time row)
              (Row.measurement_timestamp r)
            && Timestamp_le (Row.measurement_timestamp r)
                 (SessionRow.session_end_time row) = false) df.
Proof.
  split; [vm_compute; reflexivity|].
  destruct (load_subject_session (bq := Demo.available) Demo.root "S22"
              "STRESS" false Sample.world) as [r w'] eqn:Hrun.
  vm_compute in Hrun. injection Hrun as <- <-.
  eexists _, _, _. split; [reflexivity|].
  split; [reflexivity|]. split; [reflexivity|].
  split; [by repeat constructor|].
  split; [reflexivity|]. split; [reflexivity|]. split; [reflexivity|].
  by repeat constructor.
Qed.

Lemma upload_to_bigquery_chunks_witness :
  upload_to_bigquery (bq := Demo.available) Demo.three_rows BATCH_SIZE Demo.world
  = (Ok tt, append_measurements Demo.world Demo.three_rows)
  ∧ upload_to_bigquery (bq := Demo.unavailable) Demo.three_rows BATCH_SIZE
      Demo.world
    = (raise (OtherException "ServiceUnavailable"),
       append_measurements Demo.world (take (0 * BATCH_SIZE) Demo.three_rows)).
Proof.
  assert (ceil_div (length Demo.three_rows) BATCH_SIZE = 1) as Hone.
  { vm_compute. reflexivity. }
  split.
  - pose proof (upload_to_bigquery_chunks (bq := Demo.available)
                  Demo.three_rows Demo.world) as Hchunks.
    cbv zeta in Hchunks. destruct Hchunks as (_ & _ & _ & _ & _ & Hrun).
    destruct (Hrun 1) as [Hdone _].
    + rewrite Hone. lia.
    + intros j Hj. reflexivity.
    + apply Hdone. symmetry. exact Hone.
  - pose proof (upload_to_bigquery_chunks (bq := Demo.unavailable)
                  Demo.three_rows Demo.world) as Hchunks.
    cbv zeta in Hchunks. destruct Hchunks as (_ & _ & _ & _ & _ & Hrun).
    destruct (Hrun 0) as [_ Hfail].
    + lia.
    + intros j Hj. lia.
    + apply Hfail; [rewrite Hone; lia|reflexivity].
Defined.

Lemma load_subject_session_writes_nothing_witness :
  load_subject_session (bq := Demo.available) Demo.root "S12" "AEROBIC" true
    Demo.world = (Ok None, Demo.world)
  ∧ load_subject_session (bq := Demo.available) Demo.root "S09" "STRESS" false
      Demo.world = (Ok None, Demo.world).
Proof.
  split.
  - pose proof (load_subject_session_writes_nothing (bq := Demo.available)
                  Demo.root "S12" "AEROBIC" true Demo.world) as Hnothing.
    cbv zeta in Hnothing. destruct Hnothing as (_ & Hexcluded & _).
    apply (Hexcluded "test_not_performed" true).
    + vm_compute. reflexivity.
    + by left.
  - pose proof (load_subject_session_writes_nothing (bq := Demo.available)
                  Demo.root "S09" "STRESS" false Demo.world) as Hnothing.
    cbv zeta in Hnothing. destruct Hnothing as (_ & _ & Hnone & _).
    apply Hnone. intros signal_type filename Hin. left.
    repeat (apply elem_of_cons in Hin as [Heq|Hin];
            [injection Heq as -> ->; vm_compute; reflexivity|]).
    by apply elem_of_nil in Hin.
Defined.

Lemma find_dataset_root_first_witness :
  (_find_dataset_root "data/raw" Demo.world).1 = Ok Demo.root
  ∧ (_find_dataset_root "data/raw" Demo.world).2 = Demo.world
  ∧ (_find_dataset_root "elsewhere" Demo.world).1
    = raise (FileNotFoundError
        ("Could not find dataset in elsewhere. "
         +:+ "Expected to find STRESS/, AEROBIC/, ANAEROBIC/ directories.")).
Proof.
  destruct (find_dataset_root_first "data/raw" Demo.world)
    as (Hsame & Hfirst & _).
  destruct (find_dataset_root_first "elsewhere" Demo.world)
    as (_ & _ & Hnone).
  split; [|split; [exact Hsame|]].
  - apply (Hfirst 1 Demo.root).
    + reflexivity.
    + vm_compute. reflexivity.
    + intros j earlier Hj Hearlier.
      destruct j as [|j]; [|lia]. injection Hearlier as <-.
      vm_compute. reflexivity.
  - apply Hnone. intros path Hin.
    repeat (apply elem_of_cons in Hin as [->|Hin]; [vm_compute; reflexivity|]).
    by apply elem_of_nil in Hin.
Defined.

(** C9, as the claim states it, fails on the class of the error: where no
    candidate qualifies the exception is a [FileNotFoundError]; the loader
    defines no [DatasetNotFoundError]. *)
Lemma find_dataset_root_error_class :
  ∃ e, (_find_dataset_root "elsewhere" Demo.world).1 = raise e
       ∧ class_name e = "FileNotFoundError"
       ∧ class_name e ≠ "DatasetNotFoundError".
Proof.
  eexists. split; [vm_compute; reflexivity|]. split; [reflexivity|discriminate].
Qed.

Lemma load_subject_session_upload_failure_witness :
  load_subject_session (bq := Demo.unavailable) Demo.root "S05" "STRESS" false
    Demo.world
  = (raise (OtherException "ServiceUnavailable"),
     append_measurements Demo.world
       (take (0 * BATCH_SIZE)
          (concat (processed_frames Demo.disk Demo.S05 "S05" "S05_STRESS"
                     "STRESS" signal_files))))
  ∧ dim_sessions
      (dataset
         (load_subject_session (bq := Demo.unavailable) Demo.root "S05"
            "STRESS" false Demo.world).2)
    = [].
Proof.
  pose proof (load_subject_session_upload_failure (bq := Demo.unavailable)
                Demo.root "S05" "STRESS" false Demo.world) as Hfailure.
  cbv zeta in Hfailure. destruct Hfailure as [Hraise _].
  destruct (Hraise 0 (OtherException "ServiceUnavailable")) as [Hrun Hdim].
  - vm_compute. reflexivity.
  - vm_compute. reflexivity.
  - vm_compute. lia.
  - intros j Hj. lia.
  - reflexivity.
  - split; [exact Hrun|]. rewrite Hrun. exact Hdim.
Defined.

(** With batches of two rows and a service that refuses jobs once the table
    holds two rows, the first chunk stays and the second is refused. *)
Example upload_to_bigquery_partial :
  let run := upload_to_bigquery (bq := Demo.quota 2) Demo.three_rows 2
               Demo.world in
  run.1 = raise (OtherException "Forbidden")
  ∧ fact_physiological_measurements (dataset run.2) = take 2 Demo.three_rows
  ∧ dim_sessions (dataset run.2) = [].
Proof. vm_compute. done. Qed.

(** The sample subject: BVP, EDA, ACC and IBI are loaded, TEMP is dropped for
    its start time, HR is missing. *)
Example load_subject_session_S05 :
  let run := load_subject_session (bq := Demo.available) Demo.root "S05"
               "STRESS" false Demo.world in
  (∃ combined_df, run.1 = Ok (Some combined_df) ∧ length combined_df = 13)
  ∧ length (fact_physiological_measurements (dataset run.2)) = 13
  ∧ (λ row, (SessionRow.session_id row, SessionRow.protocol_version row,
             ts_ns (SessionRow.session_start_time row),
             ts_ns (SessionRow.session_end_time row),
             SessionRow.data_quality_notes row))
      <$> dim_sessions (dataset run.2)
    = [("S05_STRESS", "V1", 1361377519000000000%Z, 1361382919250000000%Z,
        None)].
Proof.
  cbv zeta. split; [|split]; try (vm_compute; reflexivity).
  eexists. split; vm_compute; reflexivity.
Qed.

End SampleRuns.

(** ** Records of a session *)

Section RecordFacts.
Context {py : Runtime} (disk : FileSystem).

Lemma mapM_Forall {I A} (f : I → result A) (P : A → Prop) items outs :
  (∀ i o, i ∈ items → f i = Ok o → P o) →
  mapM f items = Ok outs → Forall P outs.
Proof.
  intros Hf Hrun. apply mapM_Forall2 in Hrun.
  induction Hrun as [|i o items outs Ho _ IH]; constructor.
  - apply (Hf i); [by left|done].
  - apply IH. intros i' o' Hin. apply Hf. by right.
Qed.

Lemma build_records_labelled T R data subject_id session_id signal_type
    session_type records :
  build_records T R data subject_id session_id signal_type session_type
  = Ok records →
  Forall (well_labelled subject_id session_id signal_type session_type) records.
Proof.
  intros Hrun. unfold well_labelled, row_signal_types.
  destruct (String.eqb_spec signal_type "ACC") as [->|Hacc].
  { rewrite build_records_ACC in Hrun.
    apply bind_inv_Ok in Hrun as (outs & Houts & [= <-]).
    apply Forall_concat.
    eapply mapM_Forall; [|exact Houts]. intros i out _ Hout.
    unfold acc_rows in Hout.
    apply bind_inv_Ok in Hout as (timestamp & _ & Hout).
    eapply mapM_Forall; [|exact Hout]. intros [axis col] row Haxis Hrow.
    unfold acc_row in Hrow. cbn [fst snd] in Hrow.
    apply bind_inv_Ok in Hrow as (raw & _ & Hrow).
    apply bind_inv_Ok in Hrow as (value & _ & [= <-]). cbn.
    do 4 (split; [done|]). split; [|by exists i].
    apply elem_of_cons in Haxis as [[= -> ->]|Haxis]; [by left|].
    apply elem_of_cons in Haxis as [[= -> ->]|Haxis]; [by right; left|].
    apply elem_of_cons in Haxis as [[= -> ->]|Haxis]; [by do 2 right; left|].
    by apply elem_of_nil in Haxis. }
  destruct (String.eqb_spec signal_type "IBI") as [->|Hibi].
  { rewrite build_records_IBI in Hrun.
    eapply mapM_Forall; [|exact Hrun]. intros i row _ Hrow.
    unfold ibi_row in Hrow.
    apply bind_inv_Ok in Hrow as (offset & _ & Hrow).
    apply bind_inv_Ok in Hrow as (duration & _ & Hrow).
    apply bind_inv_Ok in Hrow as (timestamp & _ & [= <-]). cbn.
    do 4 (split; [done|]). split; [by left|by exists i]. }
  rewrite build_records_uniform in Hrun by done.
  eapply mapM_Forall; [|exact Hrun]. intros i row _ Hrow.
  unfold uniform_row in Hrow.
  apply bind_inv_Ok in Hrow as (timestamp & _ & Hrow).
  apply bind_inv_Ok in Hrow as (value & _ & [= <-]). cbn.
  do 4 (split; [done|]). split; [by left|by exists i].
Qed.


Lemma process_single_signal_labelled_rows
    file_path subject_id session_id signal_type session_type records :
  process_single_signal disk file_path subject_id session_id signal_type
    session_type = Ok records →
  Forall (well_labelled subject_id session_id signal_type session_type) records.
Proof.
  unfold process_single_signal. intros Hrun.
  apply bind_inv_Ok in Hrun as ([[T R] data] & _ & Hrun).
  by eapply build_records_labelled.
Qed.

Lemma append_inv_head (s a b : string) : s +:+ a = s +:+ b → a = b.
Proof. induction s as [|c s IH]; simpl; [done|]. intros [= H]. by apply IH. Qed.

Lemma str_of_int_inj i j : str_of_int i = str_of_int j → i = j.
Proof.
  unfold str_of_int. intros Heq. apply Unsigned.to_uint_inj.
  pose proof (NilEmpty.usu (Nat.to_uint i)) as Hi.
  rewrite Heq, NilEmpty.usu in Hi. by injection Hi.
Qed.

(** The entries of one file are told apart by their index. *)
Lemma measurement_id_inj_index session_id tag i j :
  session_id +:+ "_" +:+ tag +:+ "_" +:+ str_of_int i
  = session_id +:+ "_" +:+ tag +:+ "_" +:+ str_of_int j →
  i = j.
Proof.
  intros Heq. apply append_inv_head in Heq.
  apply (append_inv_head "_") in Heq. apply append_inv_head in Heq.
  apply (append_inv_head "_") in Heq. by apply str_of_int_inj.
Qed.

(** No signal type of a session, followed by ["_"] and a number, starts
    another one: the id tells the signal type. *)
Lemma measurement_id_inj_signal session_id tag1 tag2 i j :
  tag1 ∈ session_signal_types → tag2 ∈ session_signal_types →
  session_id +:+ "_" +:+ tag1 +:+ "_" +:+ str_of_int i
  = session_id +:+ "_" +:+ tag2 +:+ "_" +:+ str_of_int j →
  tag1 = tag2.
Proof.
  intros H1 H2 Heq. apply append_inv_head in Heq.
  apply (append_inv_head "_") in Heq.
  unfold session_signal_types in *.
  repeat (apply elem_of_cons in H1 as [->|H1]);
    try (by apply elem_of_nil in H1);
    repeat (apply elem_of_cons in H2 as [->|H2]);
    try (by apply elem_of_nil in H2);
    first [reflexivity | by (simpl in Heq; discriminate)].
Qed.


Lemma mapM_fmap {I A B} (f : I → result A) (g : A → B) (h : I → B) items outs :
  (∀ i o, f i = Ok o → g o = h i) →
  mapM f items = Ok outs → g <$> outs = h <$> items.
Proof.
  intros Hf Hrun. apply mapM_Forall2 in Hrun.
  induction Hrun as [|i o items outs Ho _ IH]; [done|].
  cbn. by rewrite (Hf i o Ho), IH.
Qed.

Lemma elem_of_concat {A} (x : A) (ls : list (list A)) :
  x ∈ concat ls ↔ ∃ l, x ∈ l ∧ l ∈ ls.
Proof.
  rewrite list_elem_of_In, in_concat. split.
  - intros (l & Hl & Hx). exists l. by rewrite !list_elem_of_In.
  - intros (l & Hx & Hl). exists l. by rewrite <- !list_elem_of_In.
Qed.

Lemma fmap_concat {A B} (f : A → B) (ls : list (list A)) :
  f <$> concat ls = concat (fmap (M := list) f <$> ls).
Proof.
  induction ls as [|l ls IH]; [done|]. cbn. by rewrite fmap_app, IH.
Qed.

(** Lists that fall into groups, each element telling its group, have no
    duplicate when no group has one. *)
Lemma NoDup_concat_groups {A B} (C : B → A → Prop) (xs : list A)
    (groups : list (list B)) :
  (∀ y x x', C y x → C y x' → x = x') →
  NoDup xs →
  Forall2 (λ x l, NoDup l ∧ Forall (λ y, C y x) l) xs groups →
  NoDup (concat groups).
Proof.
  intros Hfun Hxs Hgroups.
  induction Hgroups as [|x l xs groups [Hl HC] Hrest IH]; [constructor|].
  apply NoDup_cons in Hxs as [Hx Hxs]. cbn. apply NoDup_app.
  split; [done|]. split; [|by apply IH].
  intros y Hy Hy'. apply elem_of_concat in Hy' as (l' & Hyl' & Hl').
  apply list_elem_of_lookup in Hl' as [k Hk].
  destruct (Forall2_lookup_r _ _ _ _ _ Hrest Hk) as (x' & Hx' & _ & HC').
  rewrite Forall_forall in HC, HC'.
  assert (x = x') as -> by (eapply Hfun; [by apply HC|by apply HC']).
  apply Hx. by eapply list_elem_of_lookup_2.
Qed.

(** The ids of the records of one file are pairwise distinct. *)
Lemma build_records_ids_NoDup T R data subject_id session_id signal_type
    session_type records :
  build_records T R data subject_id session_id signal_type session_type
  = Ok records →
  NoDup (Row.measurement_id <$> records).
Proof.
  intros Hrun.
  destruct (String.eqb_spec signal_type "ACC") as [->|Hacc].
  { rewrite build_records_ACC in Hrun.
    apply bind_inv_Ok in Hrun as (outs & Houts & [= <-]).
    rewrite fmap_concat.
    apply (NoDup_concat_groups
      (λ id i, ∃ tag, tag ∈ session_signal_types
                      ∧ id = session_id +:+ "_" +:+ tag +:+ "_" +:+ str_of_int i)
      (seq 0 (length data))).
    - intros id i j (tag & Htag & ->) (tag' & Htag' & Heq).
      assert (tag = tag') as <- by by eapply measurement_id_inj_signal.
      by eapply measurement_id_inj_index.
    - apply NoDup_seq.
    - apply Forall2_fmap_r. apply mapM_Forall2 in Houts.
      eapply Forall2_impl; [exact Houts|]. intros i out Hout.
      cbn beta in Hout. unfold compose.
      unfold acc_rows in Hout.
      apply bind_inv_Ok in Hout as (timestamp & _ & Hout).
      match type of Hout with
      | mapM _ ?items = Ok ?outs =>
          assert (Row.measurement_id <$> outs = (λ axis_col, session_id +:+ "_" +:+ axis_col.1 +:+ "_" +:+ str_of_int i) <$> items) as ->
      end.
      { eapply mapM_fmap; [|exact Hout]. intros [axis col] row Hrow. unfold acc_row in Hrow.
          apply bind_inv_Ok in Hrow as (raw & _ & Hrow).
          by apply bind_inv_Ok in Hrow as (value & _ & [= <-]). }
      cbn [fmap list_fmap fst]. split.
      + repeat (apply NoDup_cons; split);
          [| |by apply not_elem_of_nil|apply NoDup_nil_2];
          rewrite ?elem_of_cons, ?elem_of_nil;
          intros Hdup; repeat destruct Hdup as [Hdup|Hdup]; try done;
          apply append_inv_head, (append_inv_head "_") in Hdup;
          discriminate.
      + repeat constructor; eexists; (split; [|reflexivity]);
          unfold session_signal_types; set_solver. }
  assert (∀ tag rows,
            mapM (λ i, Ok (session_id +:+ "_" +:+ tag +:+ "_" +:+ str_of_int i))
              (seq 0 (length data)) = Ok rows → NoDup rows) as Hsimple.
  { intros tag rows Hrows.
    apply (mapM_fmap _ id (λ i, session_id +:+ "_" +:+ tag +:+ "_" +:+ str_of_int i))
      in Hrows; [|by intros ?? [= <-]].
    rewrite list_fmap_id in Hrows. subst rows.
    apply NoDup_fmap_2; [|apply NoDup_seq].
    intros i j. apply measurement_id_inj_index. }
  destruct (String.eqb_spec signal_type "IBI") as [->|Hibi].
  { rewrite build_records_IBI in Hrun.
    match type of Hrun with
      | mapM _ ?items = Ok ?outs =>
          assert (Row.measurement_id <$> outs = (λ i, session_id +:+ "_" +:+ "IBI" +:+ "_" +:+ str_of_int i) <$> items) as ->
      end.
      { eapply mapM_fmap; [|exact Hrun]. intros i row Hrow. unfold ibi_row in Hrow.
        apply bind_inv_Ok in Hrow as (offset & _ & Hrow).
        apply bind_inv_Ok in Hrow as (duration & _ & Hrow).
        by apply bind_inv_Ok in Hrow as (timestamp & _ & [= <-]). }
    apply NoDup_fmap_2; [|apply NoDup_seq].
    intros i j. apply measurement_id_inj_index. }
  rewrite build_records_uniform in Hrun by done.
  match type of Hrun with
      | mapM _ ?items = Ok ?outs =>
          assert (Row.measurement_id <$> outs = (λ i, session_id +:+ "_" +:+ signal_type +:+ "_" +:+ str_of_int i) <$> items) as ->
      end.
      { eapply mapM_fmap; [|exact Hrun]. intros i row Hrow. unfold uniform_row in Hrow.
      apply bind_inv_Ok in Hrow as (timestamp & _ & Hrow).
      by apply bind_inv_Ok in Hrow as (value & _ & [= <-]). }
  apply NoDup_fmap_2; [|apply NoDup_seq].
  intros i j. apply measurement_id_inj_index.
Qed.


Lemma signal_files_row_types signal_type filename tag :
  (signal_type, filename) ∈ signal_files →
  tag ∈ row_signal_types signal_type →
  tag ∈ session_signal_types ∧ file_of_signal tag = signal_type.
Proof.
  unfold signal_files, session_signal_types. intros Hfile Htag.
  repeat (apply elem_of_cons in Hfile as [[= -> ->]|Hfile]);
    try (by apply elem_of_nil in Hfile);
    cbn in Htag;
    repeat (apply elem_of_cons in Htag as [->|Htag]);
    try (by apply elem_of_nil in Htag);
    (split; [set_solver|reflexivity]).
Qed.

Lemma concat_omap {A B} (F : A → option (list B)) (l : list A) :
  concat (omap F l) = concat ((λ x, default [] (F x)) <$> l).
Proof.
  induction l as [|x l IH]; [done|]. cbn.
  destruct (F x); cbn; by rewrite IH.
Qed.

Lemma processed_frames_ids_NoDup base_path subject_id session_id session_type :
  NoDup (Row.measurement_id
           <$> concat (processed_frames disk base_path subject_id session_id
                         session_type signal_files)).
Proof.
  unfold processed_frames. rewrite concat_omap, fmap_concat.
  apply (NoDup_concat_groups
    (λ id signal_type,
       ∃ filename tag i,
         (signal_type, filename) ∈ signal_files
         ∧ tag ∈ row_signal_types signal_type
         ∧ id = session_id +:+ "_" +:+ tag +:+ "_" +:+ str_of_int i)
    (fst <$> signal_files)).
  - intros id st st' (fn & tag & i & Hfile & Htag & ->)
      (fn' & tag' & i' & Hfile' & Htag' & Heq).
    destruct (signal_files_row_types _ _ _ Hfile Htag) as [Hin <-].
    destruct (signal_files_row_types _ _ _ Hfile' Htag') as [Hin' <-].
    f_equal. by eapply measurement_id_inj_signal.
  - unfold signal_files. cbn. apply (bool_decide_unpack _). by vm_compute.
  - rewrite <- list_fmap_compose.
    apply Forall2_fmap, Forall_Forall2_diag, Forall_forall.
    intros [signal_type filename] Hfile. cbn [fst compose].
    destruct (path_exists disk _); [|split; [constructor|constructor]].
    destruct (process_single_signal _ _ _ _ _ _) as [e|records] eqn:Hrun;
      cbn [default]; [split; constructor|].
    split.
    + unfold process_single_signal in Hrun.
      apply bind_inv_Ok in Hrun as ([[T R] data] & _ & Hrun).
      by eapply build_records_ids_NoDup.
    + apply process_single_signal_labelled_rows in Hrun.
      apply Forall_fmap. eapply Forall_impl; [exact Hrun|].
      intros row (_ & _ & _ & _ & Htag & i & Hid). cbn.
      by exists filename, (Row.signal_type row), i.
Qed.


Lemma mapM_length {I A} (f : I → result A) items outs :
  mapM f items = Ok outs → length outs = length items.
Proof. intros Hrun. apply mapM_Forall2, Forall2_length in Hrun. done. Qed.

(** X1. When [process_single_signal] returns, the file had at least its two
    header rows, and the number of records is the number of rows below the
    header, three times that for the accelerometer: no row is dropped or
    repeated, whatever the signal type. *)
Theorem process_single_signal_count
    file_path subject_id session_id signal_type session_type df records :
  read_csv disk file_path = Ok df →
  process_single_signal disk file_path subject_id session_id signal_type
    session_type = Ok records →
  (2 ≤ length df)%nat
  ∧ length records
    = (if String.eqb signal_type "ACC" then 3 else 1) * (length df - 2).
Proof.
  intros Hread Hrun. unfold process_single_signal in Hrun.
  apply bind_inv_Ok in Hrun as ([[T R] data] & Hparse & Hrun).
  unfold parse_empatica_csv in Hparse. rewrite Hread in Hparse.
  cbn [bind Ok] in Hparse.
  apply bind_inv_Ok in Hparse as (first_value & _ & Hparse).
  apply bind_inv_Ok in Hparse as (start_time & _ & Hparse).
  apply bind_inv_Ok in Hparse as (sample_rate & Hrate & [= -> -> <-]).
  assert (2 ≤ length df)%nat as Hrows.
  { unfold float_at, iloc in Hrate.
    destruct (df !! 1) as [row|] eqn:Hrow; [|discriminate].
    apply lookup_lt_Some in Hrow. lia. }
  split; [done|]. rewrite <- (length_drop df 2).
  destruct (String.eqb_spec signal_type "ACC") as [->|Hacc].
  { rewrite build_records_ACC in Hrun.
    apply bind_inv_Ok in Hrun as (outs & Houts & [= <-]).
    rewrite (concat_length_uniform 3).
    - apply mapM_length in Houts. rewrite length_seq in Houts. lia.
    - apply Forall_lookup_2. intros i out Hout. apply mapM_Forall2 in Houts.
      destruct (Forall2_lookup_r _ _ _ _ _ Houts Hout) as (j & _ & Hj).
      by eapply acc_rows_length. }
  destruct (String.eqb_spec signal_type "IBI") as [->|Hibi].
  { rewrite build_records_IBI in Hrun. apply mapM_length in Hrun.
    rewrite length_seq in Hrun. lia. }
  rewrite build_records_uniform in Hrun by done. apply mapM_length in Hrun.
  rewrite length_seq in Hrun. lia.
Qed.

(** X2. A file that announces a sample rate of zero and has a sample row
    makes [process_single_signal] raise [ZeroDivisionError] at the first
    timestamp, for every signal type that uses the rate; only the
    inter-beat file is read without it. *)
Theorem process_single_signal_zero_rate
    file_path subject_id session_id signal_type session_type T R data :
  parse_empatica_csv disk file_path = Ok (T, R, data) →
  (R =? 0)%float = true → data ≠ [] → signal_type ≠ "IBI" →
  process_single_signal disk file_path subject_id session_id signal_type
    session_type = raise ZeroDivisionError.
Proof.
  intros Hparse Hzero Hdata Hibi. unfold process_single_signal.
  rewrite Hparse. cbn [bind Ok]. destruct data as [|row data]; [done|].
  unfold build_records. rewrite (proj2 (String.eqb_neq _ _) Hibi).
  cbn [length seq for_each]. unfold truediv. rewrite Hzero.
  by destruct (String.eqb signal_type "ACC").
Qed.

End RecordFacts.

(** ** Batches, session rows and the outcomes of a call *)

Section BatchFacts.
Context {bq : Service}.

Lemma ceil_div_zero_iff n batch_size :
  (0 < batch_size)%nat → ceil_div n batch_size = 0 ↔ n = 0.
Proof.
  intros Hpos. pose proof (ceil_div_bounds n batch_size Hpos). split; nia.
Qed.

(** X5. For any positive batch size: no job is issued for an empty frame,
    no batch is empty, no batch exceeds the size, every batch but the last
    has exactly the size, and on a service where every job completes the
    table grows by the frame. *)
Theorem upload_to_bigquery_batches (df : list Row.t) batch_size w :
  (0 < batch_size)%nat →
  let num_batches := ceil_div (length df) batch_size in
  (num_batches = 0 ↔ df = [])
  ∧ (∀ i, (i < num_batches)%nat →
       chunk df batch_size i ≠ []
       ∧ (length (chunk df batch_size i) ≤ batch_size)%nat)
  ∧ (∀ i, (S i < num_batches)%nat →
       length (chunk df batch_size i) = batch_size)
  ∧ ((∀ table_id n store, job_error table_id n store = None) →
     upload_to_bigquery df batch_size w = (Ok tt, append_measurements w df)).
Proof.
  intros Hpos num_batches.
  pose proof (ceil_div_bounds (length df) batch_size Hpos) as Hbounds.
  fold num_batches in Hbounds.
  split; [|split; [|split]].
  - unfold num_batches. rewrite ceil_div_zero_iff by done.
    split; [apply nil_length_inv|by intros ->].
  - intros i Hi. rewrite <- length_zero_iff_nil, chunk_length. split; nia.
  - intros i Hi. rewrite chunk_length. nia.
  - intros Havailable.
    by apply (upload_to_bigquery_run df batch_size w num_batches).
Qed.

(** X6. Whatever the outcome of [upload_to_bigquery], the disk and the
    session table are as before and the measurement table is the old one
    followed by a prefix of the frame, the whole frame when the method
    returns.  With a batch size of zero the division raises before any job
    is issued. *)
Theorem upload_to_bigquery_append_only (df : list Row.t) batch_size w r w' :
  upload_to_bigquery df batch_size w = (r, w') →
  fs w' = fs w
  ∧ dim_sessions (dataset w') = dim_sessions (dataset w)
  ∧ (∃ k, fact_physiological_measurements (dataset w')
          = (fact_physiological_measurements (dataset w) ++ take k df)%list)
  ∧ (r = Ok tt →
     fact_physiological_measurements (dataset w')
     = (fact_physiological_measurements (dataset w) ++ df)%list)
  ∧ (batch_size = 0 → r = raise ZeroDivisionError ∧ w' = w).
Proof.
  intros Hrun. destruct (decide (batch_size = 0)) as [->|Hpos].
  { unfold upload_to_bigquery in Hrun. cbn in Hrun. injection Hrun as <- <-.
    do 2 (split; [done|]). split; [exists 0; by rewrite take_0, app_nil_r|].
    split; [discriminate|done]. }
  destruct (upload_to_bigquery_outcome df batch_size w) as
    [Hdone|(m & e & Hm & Hfail)]; [lia| |].
  - rewrite Hdone in Hrun. injection Hrun as <- <-.
    do 2 (split; [done|]). split; [|split; [done|lia]].
    exists (length df). by rewrite take_ge.
  - rewrite Hfail in Hrun. injection Hrun as <- <-.
    do 2 (split; [done|]). split; [by eexists|]. split; [discriminate|lia].
Qed.

End BatchFacts.

Section SessionRunFacts.
Context {py : Runtime} {bq : Service}.

Lemma create_session_metadata_cases
    session_id subject_id session_type (df : list Row.t) quality_note w :
  (df = [] ∧ create_session_metadata session_id subject_id session_type df
               quality_note w = (raise KeyError, w))
  ∨ (df ≠ []
     ∧ ∃ e, job_error (dataset_id +:+ ".dim_sessions") 1 (dataset w) = Some e
            ∧ create_session_metadata session_id subject_id session_type df
                quality_note w = (raise e, w))
  ∨ (df ≠ []
     ∧ job_error (dataset_id +:+ ".dim_sessions") 1 (dataset w) = None
     ∧ ∃ row, session_row session_id subject_id session_type df quality_note
              = Some row
              ∧ create_session_metadata session_id subject_id session_type df
                  quality_note w = (Ok tt, append_sessions w [row])).
Proof.
  destruct df as [|r df]; [by left|]. right.
  unfold create_session_metadata, session_row. cbn [fmap list_fmap].
  unfold bindM, lift. change (truediv ?x 60) with (Ok (x / 60)%float).
  cbn [Ok]. unfold load_sessions. cbn [length].
  destruct (job_error _ 1 (dataset w)) as [e|] eqn:Hjob.
  - left. split; [done|]. by exists e.
  - right. do 2 (split; [done|]). eexists. split; reflexivity.
Qed.

Lemma session_row_labelled session_id subject_id session_type df note row :
  session_row session_id subject_id session_type df note = Some row →
  session_labelled session_id subject_id session_type note row.
Proof.
  unfold session_row. destruct (Row.measurement_timestamp <$> df); [done|].
  intros [= <-]. by repeat split.
Qed.

(** Every way in which [load_subject_session] can end. *)
Lemma load_subject_session_cases
    dataset_root subject_id session_type include_problematic w r w' :
  let base_path := joinpath (joinpath dataset_root session_type) subject_id in
  let session_id := subject_id +:+ "_" +:+ session_type in
  let frames :=
    processed_frames (fs w) base_path subject_id session_id session_type
      signal_files in
  let policy :=
    Quality.should_skip_subject subject_id session_type include_problematic in
  load_subject_session dataset_root subject_id session_type
    include_problematic w = (r, w') →
  (r = Ok None ∧ w' = w
   ∧ (policy.1 = true ∨ path_exists (fs w) base_path = false ∨ frames = []))
  ∨ (policy.1 = false ∧ path_exists (fs w) base_path = true ∧ frames ≠ []
     ∧ ((∃ m e, (m < ceil_div (length (concat frames)) BATCH_SIZE)%nat
                ∧ r = raise e
                ∧ w' = append_measurements w
                         (take (m * BATCH_SIZE) (concat frames)))
        ∨ (concat frames = [] ∧ r = raise KeyError ∧ w' = w)
        ∨ (concat frames ≠ []
           ∧ ∃ e, job_error (dataset_id +:+ ".dim_sessions") 1
                    (dataset (append_measurements w (concat frames))) = Some e
                  ∧ r = raise e
                  ∧ w' = append_measurements w (concat frames))
        ∨ (concat frames ≠ []
           ∧ r = Ok (Some (concat frames))
           ∧ ∃ row, session_row session_id subject_id session_type
                      (concat frames) policy.2 = Some row
                    ∧ w' = append_sessions
                             (append_measurements w (concat frames)) [row]))).
Proof.
  intros base_path session_id frames policy Hrun.
  destruct policy as [should_skip reason] eqn:Hpolicy. subst policy.
  cbn [fst snd].
  destruct should_skip.
  { left. unfold load_subject_session in Hrun. rewrite Hpolicy in Hrun.
    injection Hrun as <- <-. auto. }
  destruct (path_exists (fs w) base_path) eqn:Hpath.
  2:{ left. unfold load_subject_session in Hrun. rewrite Hpolicy in Hrun.
      unfold bindM at 1, Path_exists at 1 in Hrun. cbn [Ok] in Hrun.
      fold base_path in Hrun. rewrite Hpath in Hrun.
      injection Hrun as <- <-. auto. }
  rewrite (load_subject_session_loaded _ _ _ _ reason) in Hrun by done.
  fold base_path session_id frames in Hrun.
  destruct frames as [|frame frames'] eqn:Hframes.
  { left. injection Hrun as <- <-. auto. }
  right. do 3 (split; [done|]).
  set (combined_df := concat (frame :: frames')) in *.
  unfold bindM at 1 in Hrun.
  destruct (upload_to_bigquery_outcome combined_df BATCH_SIZE w
              BATCH_SIZE_pos) as [Hup|(m & e & Hm & Hup)];
    rewrite Hup in Hrun.
  2:{ left. injection Hrun as <- <-. by exists m, e. }
  right. unfold bindM at 1 in Hrun.
  destruct (create_session_metadata_cases session_id subject_id session_type
              combined_df reason (append_measurements w combined_df))
    as [[Hempty Hmeta]|[(Hne & e & Hjob & Hmeta)|(Hne & _ & row & Hrow & Hmeta)]];
    rewrite Hmeta in Hrun; injection Hrun as <- <-.
  - left. split; [done|]. split; [done|].
    rewrite Hempty. apply append_measurements_nil.
  - right. left. split; [done|]. by exists e.
  - right. right. split; [done|]. split; [done|]. by exists row.
Qed.


Lemma processed_frames_labelled disk base_path subject_id session_id
    session_type files r :
  r ∈ concat (processed_frames disk base_path subject_id session_id
                session_type files) →
  ∃ signal_type filename,
    (signal_type, filename) ∈ files
    ∧ well_labelled subject_id session_id signal_type session_type r.
Proof.
  intros Hr. apply elem_of_concat in Hr as (frame & Hr & Hframe).
  unfold processed_frames in Hframe.
  apply (proj1 (list_elem_of_omap _ files frame)) in Hframe
    as ([signal_type filename] & Hfile & Hsome).
  cbn in Hsome. destruct (path_exists _ _); [|discriminate].
  destruct (process_single_signal _ _ _ _ _ _) as [e|records] eqn:Hrecords;
    [discriminate|]. injection Hsome as ->.
  apply process_single_signal_labelled_rows in Hrecords.
  rewrite Forall_forall in Hrecords.
  exists signal_type, filename. split; [done|]. by apply Hrecords.
Qed.

Lemma should_skip_subject_note subject_id session_type include_problematic :
  (Quality.should_skip_subject subject_id session_type
     include_problematic).1 = false →
  (Quality.should_skip_subject subject_id session_type
     include_problematic).2 = Quality.known_issue subject_id session_type
  ∧ ∀ issue, Quality.known_issue subject_id session_type = Some issue →
      include_problematic = true ∧ issue ∉ Quality.always_skip.
Proof.
  unfold Quality.should_skip_subject.
  destruct (Quality.known_issue subject_id session_type) as [issue|] eqn:Hlook;
    [|by split].
  destruct (known_issue_vocabulary _ _ _ Hlook) as [Hhard|Hsoft].
  - by rewrite bool_decide_eq_true_2.
  - case_bool_decide as Hhard; [done|].
    destruct include_problematic; cbn [negb].
    + intros _. split; [done|]. by intros ? [= <-].
    + by rewrite bool_decide_eq_true_2.
Qed.

Lemma append_sessions_nil w : append_sessions w [] = w.
Proof.
  destruct w as [disk [fact dim]]. unfold append_sessions. cbn.
  by rewrite app_nil_r.
Qed.

(** What a call leaves behind, whatever its outcome. *)
Lemma load_subject_session_growth
    dataset_root subject_id session_type include_problematic w r w' :
  load_subject_session dataset_root subject_id session_type
    include_problematic w = (r, w') →
  ∃ measurements sessions,
    w' = append_sessions (append_measurements w measurements) sessions
    ∧ (∀ row, row ∈ measurements →
         Row.subject_id row = subject_id ∧ Row.session_type row = session_type)
    ∧ (∀ row, row ∈ sessions →
         SessionRow.subject_id row = subject_id
         ∧ SessionRow.session_type row = session_type
         ∧ SessionRow.data_quality_notes row
           = Quality.known_issue subject_id session_type)
    ∧ (measurements ≠ [] ∨ sessions ≠ [] →
       (Quality.should_skip_subject subject_id session_type
          include_problematic).1 = false)
    ∧ match r with
      | inr None => measurements = [] ∧ sessions = []
      | inr (Some df) => measurements = df ∧ length sessions = 1%nat
      | inl _ => sessions = []
      end.
Proof.
  intros Hrun.
  pose proof (load_subject_session_cases _ _ _ _ _ _ _ Hrun) as Hcases.
  cbv zeta in Hcases.
  set (frames := processed_frames (fs w)
         (joinpath (joinpath dataset_root session_type) subject_id)
         subject_id (subject_id +:+ "_" +:+ session_type) session_type
         signal_files) in *.
  assert (Hrows : ∀ k row, row ∈ take k (concat frames) →
            Row.subject_id row = subject_id
            ∧ Row.session_type row = session_type).
  { intros k row Hin. apply (subseteq_take k) in Hin.
    apply processed_frames_labelled in Hin
      as (signal_type & filename & _ & ? & _ & ? & _). done. }
  destruct Hcases as
    [(-> & -> & _)|(Hpolicy & _ & _ &
       [(m & e & _ & -> & ->)|[(_ & -> & ->)|[(_ & e & _ & -> & ->)
       |(Hne & -> & row & Hrow & ->)]]])].
  - exists [], []. rewrite append_measurements_nil, append_sessions_nil.
    split; [done|]. split; [by intros ? ?%elem_of_nil|].
    split; [by intros ? ?%elem_of_nil|]. split; [by intros [?|?]|done].
  - eexists _, []. rewrite append_sessions_nil.
    split; [reflexivity|]. split; [apply Hrows|].
    split; [by intros ? ?%elem_of_nil|]. done.
  - exists [], []. rewrite append_measurements_nil, append_sessions_nil.
    split; [done|]. split; [by intros ? ?%elem_of_nil|].
    split; [by intros ? ?%elem_of_nil|]. done.
  - exists (concat frames), []. rewrite append_sessions_nil.
    split; [done|]. split.
    { intros r Hin. apply (Hrows (length (concat frames))).
      by rewrite firstn_all. }
    split; [by intros ? ?%elem_of_nil|]. done.
  - exists (concat frames), [row]. split; [done|]. split.
    { intros r Hin. apply (Hrows (length (concat frames))).
      by rewrite firstn_all. }
    split; [|done].
    intros row' ->%list_elem_of_singleton.
    apply session_row_labelled in Hrow as (_ & ? & ? & _ & Hnote).
    do 2 (split; [done|]). rewrite Hnote.
    by apply should_skip_subject_note.
Qed.

(** The call once the measurements are in the table. *)
Lemma load_subject_session_uploaded
    dataset_root subject_id session_type include_problematic w :
  let base_path := joinpath (joinpath dataset_root session_type) subject_id in
  let session_id := subject_id +:+ "_" +:+ session_type in
  let frames :=
    processed_frames (fs w) base_path subject_id session_id session_type
      signal_files in
  let policy :=
    Quality.should_skip_subject subject_id session_type include_problematic in
  policy.1 = false →
  path_exists (fs w) base_path = true →
  concat frames ≠ [] →
  (∀ n store,
     job_error (dataset_id +:+ ".fact_physiological_measurements") n store
     = None) →
  load_subject_session dataset_root subject_id session_type
    include_problematic w
  = (let! _ := create_session_metadata session_id subject_id session_type
                 (concat frames) policy.2 in
     ret (Some (concat frames))) (append_measurements w (concat frames)).
Proof.
  intros base_path session_id frames policy Hpolicy Hpath Hne Hjobs.
  subst policy.
  destruct (Quality.should_skip_subject _ _ _) as [should_skip reason]
    eqn:Hskip.
  cbn [fst snd] in *. subst should_skip.
  rewrite (load_subject_session_loaded _ _ _ _ reason) by done.
  fold base_path session_id frames.
  destruct frames as [|frame frames'] eqn:Hframes; [done|].
  unfold bindM at 1.
  destruct (upload_to_bigquery_run (concat (frame :: frames')) BATCH_SIZE w
              (ceil_div (length (concat (frame :: frames'))) BATCH_SIZE)
              BATCH_SIZE_pos) as [Hdone _]; [done|by intros; apply Hjobs|].
  by rewrite Hdone.
Qed.

(** X7. When [load_subject_session] returns a frame, the frame has a row,
    the measurement table has grown by exactly this frame and the session
    table by exactly one row: the summary of the frame, which carries the
    session id, the subject, the session type, the protocol version read
    off the first letter of the subject, and as its note the subject's tag
    in [KNOWN_ISSUES], or no note when the subject has none. *)
Theorem load_subject_session_success
    dataset_root subject_id session_type include_problematic w df w' :
  load_subject_session dataset_root subject_id session_type
    include_problematic w = (Ok (Some df), w') →
  df ≠ []
  ∧ ∃ row,
      w' = append_sessions (append_measurements w df) [row]
      ∧ session_row (subject_id +:+ "_" +:+ session_type) subject_id
          session_type df
          (Quality.should_skip_subject subject_id session_type
             include_problematic).2 = Some row
      ∧ session_labelled (subject_id +:+ "_" +:+ session_type) subject_id
          session_type (Quality.known_issue subject_id session_type) row.
Proof.
  intros Hrun.
  destruct (load_subject_session_cases _ _ _ _ _ _ _ Hrun) as
    [(Hnone & _)|(Hpolicy & _ & _ &
       [(m & e & _ & Hr & _)|[(_ & Hr & _)|[(_ & e & _ & Hr & _)
       |(Hne & Hr & row & Hrow & ->)]]])]; try discriminate.
  injection Hr as ->. split; [done|]. exists row.
  split; [done|]. split; [done|].
  destruct (should_skip_subject_note _ _ _ Hpolicy) as [<- _].
  by eapply session_row_labelled.
Qed.

(** X4. The [measurement_id]s of the frame that [load_subject_session]
    returns are pairwise distinct: neither two rows of one file nor rows of
    two files share an id. *)
Theorem load_subject_session_unique_ids
    dataset_root subject_id session_type include_problematic w df w' :
  load_subject_session dataset_root subject_id session_type
    include_problematic w = (Ok (Some df), w') →
  NoDup (Row.measurement_id <$> df).
Proof.
  intros Hrun.
  destruct (load_subject_session_cases _ _ _ _ _ _ _ Hrun) as
    [(Hnone & _)|(_ & _ & _ &
       [(m & e & _ & Hr & _)|[(_ & Hr & _)|[(_ & e & _ & Hr & _)
       |(Hne & Hr & _)]]])]; try discriminate.
  injection Hr as ->. apply processed_frames_ids_NoDup.
Qed.

(** X3. Every row of the frame that [load_subject_session] returns carries
    the subject, the session id [subject_session], the session type, the
    flag [VALID], and one of the eight signal types of a session. *)
Theorem load_subject_session_rows_labelled
    dataset_root subject_id session_type include_problematic w df w' :
  load_subject_session dataset_root subject_id session_type
    include_problematic w = (Ok (Some df), w') →
  ∀ r, r ∈ df →
    Row.subject_id r = subject_id
    ∧ Row.session_id r = subject_id +:+ "_" +:+ session_type
    ∧ Row.session_type r = session_type
    ∧ Row.data_quality_flag r = "VALID"
    ∧ Row.signal_type r ∈ session_signal_types.
Proof.
  intros Hrun r Hr.
  pose proof (load_subject_session_cases _ _ _ _ _ _ _ Hrun) as Hcases.
  cbv zeta in Hcases.
  destruct Hcases as
    [(Hnone & _)|(_ & _ & _ &
       [(m & e & _ & Hres & _)|[(_ & Hres & _)|[(_ & e & _ & Hres & _)
       |(Hne & Hres & _)]]])]; try discriminate.
  assert (df = concat (processed_frames (fs w)
            (joinpath (joinpath dataset_root session_type) subject_id)
            subject_id (subject_id +:+ "_" +:+ session_type) session_type
            signal_files)) as -> by (unfold Ok in Hres; congruence).
  apply processed_frames_labelled in Hr
    as (signal_type & filename & Hfile & ? & ? & ? & ? & Htag & _).
  do 4 (split; [done|]).
  by destruct (signal_files_row_types _ _ _ Hfile Htag).
Qed.

(** X8. Whatever the outcome of [load_subject_session], an exception
    included, the disk is as before, both tables are the old ones followed
    by new rows, at most one session row is new, and a call that returns
    [None] adds nothing. *)
Theorem load_subject_session_append_only
    dataset_root subject_id session_type include_problematic w r w' :
  load_subject_session dataset_root subject_id session_type
    include_problematic w = (r, w') →
  fs w' = fs w
  ∧ ∃ measurements sessions,
      fact_physiological_measurements (dataset w')
      = (fact_physiological_measurements (dataset w) ++ measurements)%list
      ∧ dim_sessions (dataset w') = (dim_sessions (dataset w) ++ sessions)%list
      ∧ (length sessions ≤ 1)%nat
      ∧ (r = Ok None → measurements = [] ∧ sessions = []).
Proof.
  intros Hrun.
  destruct (load_subject_session_cases _ _ _ _ _ _ _ Hrun) as
    [(-> & -> & _)|(_ & _ & _ &
       [(m & e & _ & -> & ->)|[(_ & -> & ->)|[(_ & e & _ & -> & ->)
       |(Hne & -> & row & _ & ->)]]])]; (split; [done|]).
  - exists [], []. rewrite !app_nil_r. do 2 (split; [done|]).
    split; [cbn; lia|done].
  - eexists _, []. cbn. split; [reflexivity|].
    split; [by rewrite app_nil_r|]. split; [lia|]. intros Hr. unfold raise, Ok in Hr. discriminate.
  - exists [], []. rewrite !app_nil_r. do 2 (split; [done|]).
    split; [cbn; lia|done].
  - eexists _, []. cbn. split; [reflexivity|].
    split; [by rewrite app_nil_r|]. split; [lia|]. intros Hr. unfold raise, Ok in Hr. discriminate.
  - eexists _, [row]. cbn. do 2 (split; [done|]).
    split; [lia|]. intros Hr. unfold Ok in Hr. discriminate.
Qed.

(** X9. When every file that could be processed held only its two header
    rows, the call is not treated as having no data: no measurement job is
    issued, [create_session_metadata] raises [KeyError] on the frame without
    columns, and both tables are as before. *)
Theorem load_subject_session_header_only
    dataset_root subject_id session_type include_problematic w :
  let base_path := joinpath (joinpath dataset_root session_type) subject_id in
  let frames :=
    processed_frames (fs w) base_path subject_id
      (subject_id +:+ "_" +:+ session_type) session_type signal_files in
  (Quality.should_skip_subject subject_id session_type
     include_problematic).1 = false →
  path_exists (fs w) base_path = true →
  frames ≠ [] → concat frames = [] →
  load_subject_session dataset_root subject_id session_type
    include_problematic w = (raise KeyError, w).
Proof.
  intros base_path frames Hskip Hpath Hframes Hempty.
  subst base_path frames.
  destruct (load_subject_session dataset_root subject_id session_type
              include_problematic w) as [r w'] eqn:Hrun.
  pose proof (load_subject_session_cases _ _ _ _ _ _ _ Hrun) as Hcases.
  cbv zeta in Hcases.
  destruct Hcases as
    [(_ & _ & [Hs|[Hp|Hf]])|(_ & _ & _ &
       [(m & e & Hm & _)|[(_ & -> & ->)|[(Hne & _)|(Hne & _)]]])];
    try congruence.
  rewrite Hempty in Hm. cbn in Hm.
  pose proof (ceil_div_bounds 0 BATCH_SIZE BATCH_SIZE_pos).
  pose proof BATCH_SIZE_pos. nia.
Qed.

(** X10. When the measurement jobs complete and the job on the session
    table raises, the exception leaves [load_subject_session] and the
    measurements stay in their table: nothing is rolled back. *)
Theorem load_subject_session_metadata_failure
    dataset_root subject_id session_type include_problematic w e :
  let base_path := joinpath (joinpath dataset_root session_type) subject_id in
  let frames :=
    processed_frames (fs w) base_path subject_id
      (subject_id +:+ "_" +:+ session_type) session_type signal_files in
  (Quality.should_skip_subject subject_id session_type
     include_problematic).1 = false →
  path_exists (fs w) base_path = true →
  concat frames ≠ [] →
  (∀ n store,
     job_error (dataset_id +:+ ".fact_physiological_measurements") n store
     = None) →
  job_error (dataset_id +:+ ".dim_sessions") 1
    (dataset (append_measurements w (concat frames))) = Some e →
  load_subject_session dataset_root subject_id session_type
    include_problematic w
  = (raise e, append_measurements w (concat frames)).
Proof.
  intros base_path frames Hpolicy Hpath Hne Hjobs Hjob.
  rewrite load_subject_session_uploaded by done.
  fold base_path frames. unfold bindM at 1.
  destruct (create_session_metadata_cases
              (subject_id +:+ "_" +:+ session_type) subject_id session_type
              (concat frames)
              (Quality.should_skip_subject subject_id session_type
                 include_problematic).2
              (append_measurements w (concat frames)))
    as [[Hempty _]|[(_ & e' & Hjob' & ->)|(_ & Hnone & _)]].
  - done.
  - rewrite Hjob in Hjob'. by injection Hjob' as ->.
  - rewrite Hjob in Hnone. discriminate.
Qed.

(** X11. Loading is not idempotent.  On a service where every job
    completes, a second call for a subject that was loaded returns the same
    frame and appends the same measurements and the same session row once
    more. *)
Theorem load_subject_session_rerun
    dataset_root subject_id session_type include_problematic w df w1 :
  (∀ table_id n store, job_error table_id n store = None) →
  load_subject_session dataset_root subject_id session_type
    include_problematic w = (Ok (Some df), w1) →
  ∃ row,
    w1 = append_sessions (append_measurements w df) [row]
    ∧ load_subject_session dataset_root subject_id session_type
        include_problematic w1
      = (Ok (Some df), append_sessions (append_measurements w1 df) [row]).
Proof.
  intros Hjobs Hrun.
  pose proof (load_subject_session_cases _ _ _ _ _ _ _ Hrun) as Hcases.
  cbv zeta in Hcases.
  destruct Hcases as
    [(Hnone & _)|(Hpolicy & Hpath & _ &
       [(m & e & _ & Hr & _)|[(_ & Hr & _)|[(_ & e & _ & Hr & _)
       |(Hne & Hr & row & Hrow & ->)]]])]; try discriminate.
  set (frames := processed_frames (fs w)
         (joinpath (joinpath dataset_root session_type) subject_id)
         subject_id (subject_id +:+ "_" +:+ session_type) session_type
         signal_files) in *.
  assert (df = concat frames) as -> by (unfold Ok in Hr; congruence).
  exists row. split; [done|].
  set (w1 := append_sessions (append_measurements w (concat frames)) [row]).
  rewrite load_subject_session_uploaded; try done.
  change (fs w1) with (fs w). fold frames. unfold bindM at 1.
  destruct (create_session_metadata_cases
              (subject_id +:+ "_" +:+ session_type) subject_id session_type
              (concat frames)
              (Quality.should_skip_subject subject_id session_type
                 include_problematic).2
              (append_measurements w1 (concat frames)))
    as [[Hempty _]|[(_ & e' & Hjob' & _)|(_ & _ & row' & Hrow' & ->)]].
  - done.
  - by rewrite Hjobs in Hjob'.
  - rewrite Hrow in Hrow'. by injection Hrow' as <-.
Qed.

End SessionRunFacts.

(** ** Properties of the command line *)

Section CommandLineFacts.
Context {py : Runtime} {bq : Service} {os : Host}.

Lemma append_compose w ms1 ss1 ms2 ss2 :
  append_sessions
    (append_measurements (append_sessions (append_measurements w ms1) ss1) ms2)
    ss2
  = append_sessions (append_measurements w (ms1 ++ ms2)) (ss1 ++ ss2).
Proof.
  destruct w as [disk [fact dim]]. unfold append_sessions, append_measurements.
  cbn. by rewrite !app_assoc.
Qed.

Lemma StronglySorted_sublist {A} (R : relation A) l k :
  k `sublist_of` l → StronglySorted R l → StronglySorted R k.
Proof.
  induction 1 as [|x k l Hsub IH|x k l Hsub IH]; intros Hsorted.
  - constructor.
  - apply StronglySorted_inv in Hsorted as [Hl Hx]. constructor; [by apply IH|].
    rewrite Forall_forall in Hx |- *. intros y Hy. apply Hx.
    by eapply sublist_subseteq.
  - apply StronglySorted_inv in Hsorted as [Hl _]. by apply IH.
Qed.

Lemma __init___run dataset_root w :
  __init__ dataset_root w
  = (match Client_error with
     | Some e => raise e
     | None =>
         match list_find (λ path, Is_true (qualifies (fs w) path))
                 (possible_paths dataset_root) with
         | Some (_, path) => Ok path
         | None =>
             raise (FileNotFoundError
               ("Could not find dataset in " +:+ dataset_root +:+ ". "
                +:+ "Expected to find STRESS/, AEROBIC/, ANAEROBIC/ directories."))
         end
     end, w).
Proof.
  unfold __init__, bindM at 1, lift.
  destruct Client_error as [e|]; [done|]. cbn [Ok].
  unfold _find_dataset_root, bindM. rewrite probe_first. cbn [Ok].
  by destruct (list_find _ _) as [[??]|].
Qed.

(** The loop over the subjects, whatever its outcome. *)
Lemma load_all_subjects_growth dataset_root session_type include_problematic
    subjects w r w' :
  load_all_subjects dataset_root session_type include_problematic subjects w
  = (r, w') →
  ∃ measurements sessions,
    w' = append_sessions (append_measurements w measurements) sessions
    ∧ (∀ row, row ∈ measurements →
         admitted session_type include_problematic subjects
           (Row.subject_id row) (Row.session_type row))
    ∧ (∀ row, row ∈ sessions →
         admitted session_type include_problematic subjects
           (SessionRow.subject_id row) (SessionRow.session_type row)
         ∧ SessionRow.data_quality_notes row
           = Quality.known_issue (SessionRow.subject_id row) session_type)
    ∧ SessionRow.subject_id <$> sessions `sublist_of` subjects
    ∧ match r with
      | inr (loaded_count, skipped_count) =>
          loaded_count = length sessions
          ∧ (loaded_count + skipped_count = length subjects)%nat
      | inl _ => True
      end.
Proof.
  unfold load_all_subjects.
  match goal with |- for_M ?b _ _ _ = _ → _ => set (body := b) end.
  cut (∀ loaded_count skipped_count,
         for_M body subjects (loaded_count, skipped_count) w = (r, w') →
         ∃ measurements sessions,
           w' = append_sessions (append_measurements w measurements) sessions
           ∧ (∀ row, row ∈ measurements →
                admitted session_type include_problematic subjects
                  (Row.subject_id row) (Row.session_type row))
           ∧ (∀ row, row ∈ sessions →
                admitted session_type include_problematic subjects
                  (SessionRow.subject_id row) (SessionRow.session_type row)
                ∧ SessionRow.data_quality_notes row
                  = Quality.known_issue (SessionRow.subject_id row)
                      session_type)
           ∧ SessionRow.subject_id <$> sessions `sublist_of` subjects
           ∧ match r with
             | inr (loaded, skipped) =>
                 loaded = (loaded_count + length sessions)%nat
                 ∧ (loaded + skipped
                    = loaded_count + skipped_count + length subjects)%nat
             | inl _ => True
             end).
  { intros Hgen Hrun. apply (Hgen 0%nat 0%nat) in Hrun. exact Hrun. }
  revert w. induction subjects as [|subject_id rest IH];
    intros w loaded_count skipped_count Hrun.
  - injection Hrun as <- <-. exists [], [].
    rewrite append_measurements_nil, append_sessions_nil.
    split; [done|]. split; [by intros ? ?%elem_of_nil|].
    split; [by intros ? ?%elem_of_nil|]. split; [constructor|].
    cbn. lia.
  - cbn [for_M] in Hrun. unfold bindM at 1 in Hrun. unfold body at 1 in Hrun.
    unfold bindM at 1 in Hrun.
    destruct (load_subject_session dataset_root subject_id session_type
                include_problematic w) as [r1 w1] eqn:Hone.
    destruct (load_subject_session_growth _ _ _ _ _ _ _ Hone)
      as (ms1 & ss1 & -> & Hms1 & Hss1 & Hpolicy & Hr1).
    assert (Hadm_ms :
      ∀ row, row ∈ ms1 →
        admitted session_type include_problematic (subject_id :: rest)
          (Row.subject_id row) (Row.session_type row)).
    { intros row Hin. destruct (Hms1 row Hin) as [-> ->].
      split; [done|]. split; [by left|].
      apply Hpolicy. left. intros ->. by apply elem_of_nil in Hin. }
    assert (Hadm_ss :
      ∀ row, row ∈ ss1 →
        admitted session_type include_problematic (subject_id :: rest)
          (SessionRow.subject_id row) (SessionRow.session_type row)
        ∧ SessionRow.data_quality_notes row
          = Quality.known_issue (SessionRow.subject_id row) session_type).
    { intros row Hin. destruct (Hss1 row Hin) as (-> & -> & ->).
      split; [|done]. split; [done|]. split; [by left|].
      apply Hpolicy. right. intros ->. by apply elem_of_nil in Hin. }
    assert (Hsub1 : SessionRow.subject_id <$> ss1 `sublist_of` [subject_id]).
    { destruct r1 as [e|[df|]].
      - subst ss1. apply sublist_nil_l.
      - destruct Hr1 as [_ Hlen]. destruct ss1 as [|row [|? ?]]; try done.
        destruct (Hss1 row) as (Hrow & _); [by left|]. cbn. rewrite Hrow.
        done.
      - destruct Hr1 as [_ ->]. apply sublist_nil_l. }
    destruct r1 as [e|result].
    { injection Hrun as <- <-. exists ms1, ss1.
      split; [done|]. split; [done|]. split; [done|]. split; [|done].
      by apply (sublist_inserts_r rest) in Hsub1. }
    cbn [Ok] in Hrun.
    assert (∃ loaded' skipped',
              for_M body rest (loaded', skipped')
                (append_sessions (append_measurements w ms1) ss1) = (r, w')
              ∧ loaded' = (loaded_count + length ss1)%nat
              ∧ (loaded' + skipped' = loaded_count + skipped_count + 1)%nat)
      as (loaded' & skipped' & Hrest & Hl & Hs).
    { destruct result as [df|].
      - destruct Hr1 as [_ Hlen]. eexists _, _. split; [exact Hrun|]. lia.
      - destruct Hr1 as [_ ->]. eexists _, _. split; [exact Hrun|].
        cbn. lia. }
    destruct (IH _ _ _ Hrest)
      as (ms2 & ss2 & -> & Hms2 & Hss2 & Hsub2 & Hr).
    exists (ms1 ++ ms2)%list, (ss1 ++ ss2)%list.
    split; [apply append_compose|].
    split.
    { intros row [Hin|Hin]%elem_of_app; [by apply Hadm_ms|].
      destruct (Hms2 row Hin) as (? & ? & ?).
      split; [done|]. split; [by right|done]. }
    split.
    { intros row [Hin|Hin]%elem_of_app; [by apply Hadm_ss|].
      destruct (Hss2 row Hin) as ((? & ? & ?) & ?).
      split; [|done]. split; [done|]. split; [by right|done]. }
    split.
    { rewrite fmap_app.
      by apply (sublist_app _ [subject_id] _ rest). }
    destruct r as [e|[loaded skipped]]; [done|].
    rewrite length_app. cbn [length]. lia.
Qed.

(** X12. When [main] prints its summary, the mode was [--load-all], the two
    counts add up to the number of directories in the session folder (files
    are not counted), the session table has grown by exactly as many rows as
    subjects were counted as loaded, and these rows are in ascending order
    of subject. *)
Theorem main_load_all_summary (args : Args.t) w loaded_count skipped_count w' :
  main args w = (Ok (Summary loaded_count skipped_count), w') →
  Args.load_all args = true
  ∧ ∃ dataset_root entries sessions,
      __init__ "data/raw" w = (Ok dataset_root, w)
      ∧ iterdir (joinpath dataset_root (Args.session_type args)) = Ok entries
      ∧ (loaded_count + skipped_count
         = length (filter (λ d : string * bool, Is_true d.2) entries))%nat
      ∧ fs w' = fs w
      ∧ dim_sessions (dataset w') = (dim_sessions (dataset w) ++ sessions)%list
      ∧ length sessions = loaded_count
      ∧ StronglySorted String.le (SessionRow.subject_id <$> sessions).
Proof.
  unfold main. unfold bindM at 1. rewrite __init___run.
  destruct Client_error as [e|] eqn:Hclient; [done|].
  destruct (list_find _ _) as [[k dataset_root]|] eqn:Hfind; [|done].
  cbn [Ok].
  destruct (Args.load_all args).
  2:{ destruct (Args.subject args) as [[|a subject]|];
        [by unfold ret, Ok| |by unfold ret, Ok].
      unfold bindM, ret, Ok.
      by destruct (load_subject_session _ _ _ _ _) as [[?|?] ?]. }
  unfold bindM at 1, lift.
  destruct (iterdir _) as [e|entries] eqn:Hdir; [done|].
  unfold bindM at 1.
  set (subjects := sorted _).
  destruct (load_all_subjects _ _ _ _ _) as [[e|[loaded skipped]] w1]
    eqn:Hloop; [done|].
  intros [= -> -> ->]. split; [done|].
  destruct (load_all_subjects_growth _ _ _ _ _ _ _ Hloop)
    as (ms & ss & -> & _ & _ & Hsub & -> & Hcount).
  exists dataset_root, entries, ss.
  split; [done|]. split; [done|]. split.
  { rewrite Hcount. unfold subjects, sorted.
    by rewrite merge_sort_Permutation, length_fmap. }
  split; [done|]. split; [done|]. split; [done|].
  eapply StronglySorted_sublist; [exact Hsub|].
  apply (StronglySorted_merge_sort _).
Qed.

(** X13. Whatever the arguments and the outcome of [main], the disk is as
    before and the rows it has added to the two tables are of the session
    type asked for and belong to subjects that the quality policy admits: a
    subject with a tag in [KNOWN_ISSUES] only with [--include-problematic],
    and never one whose tag is always skipped.  The note of a new session
    row is the subject's tag. *)
Theorem main_rows_admitted (args : Args.t) w r w' :
  main args w = (r, w') →
  fs w' = fs w
  ∧ ∃ measurements sessions,
      fact_physiological_measurements (dataset w')
      = (fact_physiological_measurements (dataset w) ++ measurements)%list
      ∧ dim_sessions (dataset w') = (dim_sessions (dataset w) ++ sessions)%list
      ∧ (∀ row, row ∈ measurements →
           Row.session_type row = Args.session_type args
           ∧ ∀ issue,
               Quality.known_issue (Row.subject_id row)
                 (Args.session_type args) = Some issue →
               Args.include_problematic args = true
               ∧ issue ∉ Quality.always_skip)
      ∧ (∀ row, row ∈ sessions →
           SessionRow.session_type row = Args.session_type args
           ∧ SessionRow.data_quality_notes row
             = Quality.known_issue (SessionRow.subject_id row)
                 (Args.session_type args)
           ∧ ∀ issue,
               Quality.known_issue (SessionRow.subject_id row)
                 (Args.session_type args) = Some issue →
               Args.include_problematic args = true
               ∧ issue ∉ Quality.always_skip).
Proof.
  assert (Hnothing : w' = w → fs w' = fs w
    ∧ ∃ measurements sessions,
      fact_physiological_measurements (dataset w')
      = (fact_physiological_measurements (dataset w) ++ measurements)%list
      ∧ dim_sessions (dataset w') = (dim_sessions (dataset w) ++ sessions)%list
      ∧ (∀ row, row ∈ measurements →
           Row.session_type row = Args.session_type args
           ∧ ∀ issue,
               Quality.known_issue (Row.subject_id row)
                 (Args.session_type args) = Some issue →
               Args.include_problematic args = true
               ∧ issue ∉ Quality.always_skip)
      ∧ (∀ row, row ∈ sessions →
           SessionRow.session_type row = Args.session_type args
           ∧ SessionRow.data_quality_notes row
             = Quality.known_issue (SessionRow.subject_id row)
                 (Args.session_type args)
           ∧ ∀ issue,
               Quality.known_issue (SessionRow.subject_id row)
                 (Args.session_type args) = Some issue →
               Args.include_problematic args = true
               ∧ issue ∉ Quality.always_skip)).
  { intros ->. split; [done|]. exists [], []. rewrite !app_nil_r.
    split; [done|]. split; [done|].
    split; by intros ? ?%elem_of_nil. }
  assert (Hadmitted : ∀ subjects ms ss,
    w' = append_sessions (append_measurements w ms) ss →
    (∀ row, row ∈ ms →
       admitted (Args.session_type args) (Args.include_problematic args)
         subjects (Row.subject_id row) (Row.session_type row)) →
    (∀ row, row ∈ ss →
       admitted (Args.session_type args) (Args.include_problematic args)
         subjects (SessionRow.subject_id row) (SessionRow.session_type row)
       ∧ SessionRow.data_quality_notes row
         = Quality.known_issue (SessionRow.subject_id row)
             (Args.session_type args)) →
    fs w' = fs w
    ∧ ∃ measurements sessions,
      fact_physiological_measurements (dataset w')
      = (fact_physiological_measurements (dataset w) ++ measurements)%list
      ∧ dim_sessions (dataset w') = (dim_sessions (dataset w) ++ sessions)%list
      ∧ (∀ row, row ∈ measurements →
           Row.session_type row = Args.session_type args
           ∧ ∀ issue,
               Quality.known_issue (Row.subject_id row)
                 (Args.session_type args) = Some issue →
               Args.include_problematic args = true
               ∧ issue ∉ Quality.always_skip)
      ∧ (∀ row, row ∈ sessions →
           SessionRow.session_type row = Args.session_type args
           ∧ SessionRow.data_quality_notes row
             = Quality.known_issue (SessionRow.subject_id row)
                 (Args.session_type args)
           ∧ ∀ issue,
               Quality.known_issue (SessionRow.subject_id row)
                 (Args.session_type args) = Some issue →
               Args.include_problematic args = true
               ∧ issue ∉ Quality.always_skip)).
  { intros subjects ms ss -> Hms Hss. split; [done|]. exists ms, ss.
    split; [done|]. split; [done|]. split.
    - intros row Hin. destruct (Hms row Hin) as (? & _ & Hpolicy).
      split; [done|]. by apply should_skip_subject_note.
    - intros row Hin. destruct (Hss row Hin) as ((? & _ & Hpolicy) & ?).
      split; [done|]. split; [done|]. by apply should_skip_subject_note. }
  unfold main. unfold bindM at 1. rewrite __init___run.
  destruct Client_error as [e|]; [by intros [= _ <-]; apply Hnothing|].
  destruct (list_find _ _) as [[k dataset_root]|];
    [|by intros [= _ <-]; apply Hnothing].
  cbn [Ok]. destruct (Args.load_all args).
  - unfold bindM at 1, lift.
    destruct (iterdir _) as [e|entries];
      [by intros [= _ <-]; apply Hnothing|].
    unfold bindM at 1.
    destruct (load_all_subjects _ _ _ _ _) as [r1 w1] eqn:Hloop.
    destruct (load_all_subjects_growth _ _ _ _ _ _ _ Hloop)
      as (ms & ss & -> & Hms & Hss & _).
    intros Hrun. eapply (Hadmitted _ ms ss); [|done..].
    destruct r1 as [e|[??]]; by injection Hrun as _ <-.
  - destruct (Args.subject args) as [[|a subject]|];
      [by intros [= _ <-]; apply Hnothing| |
       by intros [= _ <-]; apply Hnothing].
    unfold bindM at 1.
    destruct (load_subject_session _ _ _ _ _) as [r1 w1] eqn:Hone.
    destruct (load_subject_session_growth _ _ _ _ _ _ _ Hone)
      as (ms & ss & -> & Hms & Hss & Hpolicy & _).
    intros Hrun.
    eapply (Hadmitted [String a subject] ms ss).
    + destruct r1 as [e|?]; by injection Hrun as _ <-.
    + intros row Hin. destruct (Hms row Hin) as [-> ->].
      split; [done|]. split; [by left|]. apply Hpolicy. left. intros ->. by apply elem_of_nil in Hin.
    + intros row Hin. destruct (Hss row Hin) as (-> & -> & ->).
      split; [|done]. split; [done|]. split; [by left|].
      apply Hpolicy. right. intros ->. by apply elem_of_nil in Hin.
Qed.

(** X14. Without [--load-all] and without a subject, [main] first builds the
    loader and then exits: it leaves the world as it is, and it ends with
    [sys.exit(1)] exactly when the client could be created and one of the
    candidate folders holds the dataset; otherwise the exception of the
    constructor is what leaves [main]. *)
Theorem main_usage_error (args : Args.t) w :
  Args.load_all args = false →
  Args.subject args = None ∨ Args.subject args = Some "" →
  main args w
  = (let! _ := __init__ "data/raw" in ret (SystemExit 1)) w
  ∧ (main args w).2 = w
  ∧ ((main args w).1 = Ok (SystemExit 1)
     ↔ Client_error = None
       ∧ ∃ path, path ∈ possible_paths "data/raw"
                 ∧ qualifies (fs w) path = true).
Proof.
  intros Hall Hsubject.
  assert (main args w
          = (let! _ := __init__ "data/raw" in ret (SystemExit 1)) w) as ->.
  { unfold main, bindM. destruct (__init__ "data/raw" w) as [[e|root] w1];
      [done|]. rewrite Hall. by destruct Hsubject as [-> | ->]. }
  split; [done|]. unfold bindM. rewrite __init___run.
  destruct Client_error as [e|].
  { split; [done|]. split; [done|]. by intros [[=] _]. }
  destruct (list_find _ _) as [[k path]|] eqn:Hfind; cbn.
  - split; [done|]. split; [|done]. intros _. split; [done|].
    apply list_find_Some in Hfind as (Hk & Hq & _). exists path.
    split; [by eapply list_elem_of_lookup_2|]. by apply Is_true_eq_true.
  - split; [done|]. split; [done|]. intros [_ (path & Hin & Hq)].
    apply list_find_None in Hfind. rewrite Forall_forall in Hfind.
    destruct (Hfind path Hin). by rewrite Hq.
Qed.

(** X15. The loop of [--load-all] has no handler: when the call for one
    subject raises, the exception leaves [main] with the world as that call
    left it, and the subjects that come later in sorted order are not
    attempted. *)
Theorem main_load_all_aborts (args : Args.t) w dataset_root entries
    before subject_id after counts w1 e w2 :
  Args.load_all args = true →
  __init__ "data/raw" w = (Ok dataset_root, w) →
  iterdir (joinpath dataset_root (Args.session_type args)) = Ok entries →
  sorted (fst <$> filter (λ d : string * bool, Is_true d.2) entries)
  = (before ++ subject_id :: after)%list →
  load_all_subjects dataset_root (Args.session_type args)
    (Args.include_problematic args) before w = (Ok counts, w1) →
  load_subject_session dataset_root subject_id (Args.session_type args)
    (Args.include_problematic args) w1 = (raise e, w2) →
  main args w = (raise e, w2).
Proof.
  intros Hall Hinit Hdir Hsorted Hbefore Hone.
  unfold main. unfold bindM at 1. rewrite Hinit. cbn [Ok]. rewrite Hall.
  unfold bindM at 1, lift. rewrite Hdir. cbn [Ok]. rewrite Hsorted.
  unfold bindM at 1. unfold load_all_subjects in *.
  rewrite for_M_app. unfold bindM at 1. rewrite Hbefore. cbn [Ok].
  cbn [for_M]. unfold bindM at 1. destruct counts as [loaded skipped].
  unfold bindM at 1. by rewrite Hone.
Qed.

End CommandLineFacts.

(** ** The other scripts against the loader *)

Section ExplorerFacts.
Context {py : Runtime} {bq : Service}.

Lemma known_issues_keys :
  dom Explorer.known_issues = dom Quality.KNOWN_ISSUES
  ∧ map_Forall (λ session_type (issues : gmap string string),
      dom issues = dom (default ∅ (Quality.KNOWN_ISSUES !! session_type))
      ∧ map_Forall (λ _ issue, issue ≠ "") issues)
    Explorer.known_issues.
Proof. split; apply (bool_decide_unpack _); by vm_compute. Qed.

Lemma known_issues_agree subject_id session_type :
  Explorer.truthy
    (default ∅ (Explorer.known_issues !! session_type) !! subject_id)
  = bool_decide (is_Some (Quality.known_issue subject_id session_type)).
Proof.
  destruct known_issues_keys as [Hkeys Htags]. unfold Quality.known_issue.
  destruct (Explorer.known_issues !! session_type) as [issues|] eqn:Hty.
  - destruct (Htags _ _ Hty) as [Hdom Hne].
    change (default ∅ (Some issues)) with issues.
    destruct (issues !! subject_id) as [issue|] eqn:Hlook.
    + rewrite bool_decide_eq_true_2.
      * pose proof (Hne _ _ Hlook) as Hissue.
        by destruct issue as [|a s]; [destruct Hissue|].
      * apply elem_of_dom. rewrite <- Hdom. by apply elem_of_dom.
    + rewrite bool_decide_eq_false_2; [done|].
      rewrite <- elem_of_dom, <- Hdom, elem_of_dom, Hlook.
      by intros [??].
  - assert (Quality.KNOWN_ISSUES !! session_type = None) as ->.
    { apply not_elem_of_dom. rewrite <- Hkeys. by apply not_elem_of_dom. }
    change (default ∅ None) with (∅ : gmap string string).
    rewrite !lookup_empty.
    rewrite bool_decide_eq_false_2; [done|]. by intros [??].
Qed.

Lemma find_root_list_find disk paths :
  Explorer.find_root disk paths
  = snd <$> list_find (λ path, Is_true (qualifies disk path)) paths.
Proof.
  induction paths as [|path rest IH]; [done|].
  cbn [Explorer.find_root list_find].
  change (path_exists disk path && path_exists disk (joinpath path "STRESS"))
    with (qualifies disk path).
  destruct (qualifies disk path) eqn:Hq.
  - by rewrite decide_True.
  - rewrite decide_False by (by intros []).
    rewrite IH. by destruct (list_find _ rest) as [[??]|].
Qed.

(** X16. The inventory script and the loader look for the dataset in the
    same way: the folder that [explore_dataset] settles on is the one that
    [_find_dataset_root] returns, and the script finds none exactly when the
    loader raises [FileNotFoundError]. *)
Theorem explorer_root_agrees w :
  match Explorer.dataset_root (fs w) with
  | Some root => _find_dataset_root "data/raw" w = (Ok root, w)
  | None =>
      ∃ msg, _find_dataset_root "data/raw" w = (raise (FileNotFoundError msg), w)
  end.
Proof.
  unfold Explorer.dataset_root. rewrite find_root_list_find.
  unfold _find_dataset_root, bindM. rewrite probe_first. cbn [Ok].
  destruct (list_find _ _) as [[k root]|]; cbn; [done|]. by eexists.
Qed.

(** X17. The inventory's own table of known issues has the keys of the
    loader's: a subject is reported [PROBLEMATIC] exactly when the loader
    has a tag for it.  A subject reported [GOOD] is loaded by the loader
    without a note, whatever the flag, and none of the six signal files of
    the loader is missing from its folder.  The files found and the files
    missing add up to the seven expected. *)
Theorem subject_entry_quality disk st_size session_path session_type
    subject_id :
  let e := Explorer.subject_entry disk st_size session_path session_type
             subject_id in
  (Explorer.quality e = "PROBLEMATIC"
   ↔ is_Some (Quality.known_issue subject_id session_type))
  ∧ (Explorer.quality e = "GOOD" →
     (∀ include_problematic,
        Quality.should_skip_subject subject_id session_type include_problematic
        = (false, None))
     ∧ ∀ signal_type filename,
         (signal_type, filename) ∈ signal_files →
         path_exists disk
           (joinpath (joinpath session_path subject_id) filename) = true)
  ∧ (Explorer.files_found e + size (Explorer.missing_files e)
     = Explorer.files_expected e)%nat.
Proof.
  intros e. subst e. unfold Explorer.subject_entry.
  cbn [Explorer.quality Explorer.files_found Explorer.missing_files
       Explorer.files_expected].
  rewrite known_issues_agree.
  set (found := filter _ Explorer.expected_files).
  split; [|split].
  - case_bool_decide as Hissue; [done|].
    split; [|done]. by case_bool_decide.
  - case_bool_decide as Hissue; [done|].
    case_bool_decide as Hmissing; [done|]. intros _. split.
    + intros include_problematic. unfold Quality.should_skip_subject.
      destruct (Quality.known_issue subject_id session_type) eqn:Hlook;
        [|done]. destruct Hissue. by eexists.
    + intros signal_type filename Hfile.
      assert (Hexpected : filename ∈ Explorer.expected_files).
      { unfold signal_files in Hfile. unfold Explorer.expected_files.
        repeat (apply elem_of_cons in Hfile as [[= -> ->]|Hfile];
                [set_solver|]).
        by apply elem_of_nil in Hfile. }
      destruct (path_exists disk _) eqn:Hexists; [done|].
      exfalso. rename Hmissing into Hempty.
      assert (filename ∈ (list_to_set Explorer.expected_files
                          ∖ list_to_set found : gset string)) as Hin.
      { apply elem_of_difference. split; [by apply elem_of_list_to_set|].
        rewrite elem_of_list_to_set. unfold found.
        rewrite list_elem_of_filter. intros [Hyes _].
        by rewrite Hexists in Hyes. }
      rewrite Hempty in Hin. by apply elem_of_empty in Hin.
  - assert (Hnodup : NoDup Explorer.expected_files).
    { apply (bool_decide_unpack _). by vm_compute. }
    assert (Hsub : (list_to_set found : gset string)
                   ⊆ list_to_set Explorer.expected_files).
    { intros x. rewrite !elem_of_list_to_set. unfold found.
      rewrite list_elem_of_filter. by intros [_ ?]. }
    rewrite size_difference by done.
    rewrite !size_list_to_set; [|by apply NoDup_filter|done].
    pose proof (length_filter (λ filename,
      Is_true (path_exists disk
        (joinpath (joinpath session_path subject_id) filename)))
      Explorer.expected_files) as Hle.
    fold found in Hle. lia.
Qed.

(** X18. [find_subject_file] looks for [subject-info.csv] in the three
    folders where the loader looks for the dataset, in the same order; it
    returns the first path that exists and raises [FileNotFoundError] when
    none does. *)
Theorem find_subject_file_first disk :
  Subjects.possible_paths
  = (λ root, joinpath root "subject-info.csv") <$> possible_paths "data/raw"
  ∧ match list_find (λ path, Is_true (path_exists disk path))
            Subjects.possible_paths with
    | Some (_, path) => Subjects.find_subject_file disk = Ok path
    | None =>
        Subjects.find_subject_file disk
        = raise (FileNotFoundError "Could not find subject-info.csv")
    end.
Proof.
  split; [done|]. unfold Subjects.find_subject_file.
  induction Subjects.possible_paths as [|path rest IH]; [done|].
  cbn [Subjects.first_existing list_find].
  destruct (path_exists disk path) eqn:Hexists.
  - by rewrite decide_True.
  - rewrite decide_False by (by intros []).
    by destruct (list_find _ rest) as [[??]|].
Qed.

End ExplorerFacts.

(** ** Properties of the table recommendations *)

Section OptimizerFacts.
Import Optimizer.

Lemma analyze_table_structure_rows df :
  analyze_table_structure df
  = let* per_row := mapM row_recommendations df in Ok (concat per_row).
Proof.
  unfold analyze_table_structure.
  rewrite (for_each_append row_recommendations); [done|].
  intros row records. unfold row_recommendations.
  destruct (needs_partitioning row) as [e|[|]]; [done|..]; cbn [bind];
    (destruct (needs_clustering row) as [e|[|]]; [done|..]); cbn [bind];
    (destruct (needs_partition_filter row) as [e|[|]]; [done|..]); cbn [bind];
    rewrite <- ?app_assoc; cbn; by rewrite ?app_nil_r.
Qed.

Lemma partitioning_excludes_filter row :
  needs_partitioning row = Ok true → needs_partition_filter row = Ok true →
  False.
Proof.
  unfold needs_partitioning, needs_partition_filter. intros Hp Hf.
  apply bind_inv_Ok in Hp as (large & _ & Hp).
  apply bind_inv_Ok in Hp as ([|] & _ & Hp); [|discriminate].
  destruct (truth (TableRow.partitioning_type row)) as [e|[|]];
    cbn in Hp, Hf; discriminate.
Qed.

(** X19. When [analyze_table_structure] returns, its recommendations are
    those of the rows in order; a table gets at most two, each under its own
    name, in the order partitioning, clustering, partition filter, and never
    both the advice to partition and the advice to require the partition
    filter. *)
Theorem analyze_table_structure_exclusive df recommendations :
  analyze_table_structure df = Ok recommendations →
  ∃ per_row,
    recommendations = concat per_row
    ∧ Forall2 (λ row recs,
        Recommendation.table <$> recs
        = replicate (length recs) (TableRow.table_name row)
        ∧ Recommendation.type <$> recs
          ∈ [ []; ["PARTITIONING"]; ["CLUSTERING"]; ["PARTITION_FILTER"];
              ["PARTITIONING"; "CLUSTERING"];
              ["CLUSTERING"; "PARTITION_FILTER"] ])
      df per_row
    ∧ (length recommendations ≤ 2 * length df)%nat.
Proof.
  rewrite analyze_table_structure_rows. intros Hrun.
  apply bind_inv_Ok in Hrun as (per_row & Hrows & [= <-]).
  exists per_row. split; [done|].
  apply mapM_Forall2 in Hrows.
  assert (Hshape : Forall2 (λ row recs,
        Recommendation.table <$> recs
        = replicate (length recs) (TableRow.table_name row)
        ∧ Recommendation.type <$> recs
          ∈ [ []; ["PARTITIONING"]; ["CLUSTERING"]; ["PARTITION_FILTER"];
              ["PARTITIONING"; "CLUSTERING"];
              ["CLUSTERING"; "PARTITION_FILTER"] ])
      df per_row).
  { eapply Forall2_impl; [exact Hrows|]. intros row recs Hrow.
    unfold row_recommendations in Hrow.
    apply bind_inv_Ok in Hrow as (p & Hp & Hrow).
    apply bind_inv_Ok in Hrow as (c & Hc & Hrow).
    apply bind_inv_Ok in Hrow as (f & Hf & [= <-]).
    destruct p, f;
      [destruct (partitioning_excludes_filter row Hp Hf)|..];
      destruct c; cbn; (split; [done|set_solver]). }
  split; [done|].
  clear Hrows. induction Hshape as [|row recs df' per_row' [_ Hty] _ IH];
    [cbn; lia|].
  cbn [concat length]. rewrite length_app.
  assert (length recs ≤ 2)%nat; [|lia].
  rewrite <- (length_fmap Recommendation.type).
  repeat (apply elem_of_cons in Hty as [->|Hty]; [cbn; lia|]).
  by apply elem_of_nil in Hty.
Qed.

End OptimizerFacts.

(** ** More sample runs *)

Section MoreSampleRuns.
#[local] Existing Instance Demo.runtime.

Lemma process_single_signal_count_witness :
  ∃ records,
    process_single_signal Demo.disk (Demo.S05 +:+ "/ACC.csv")
      "S05" "S05_STRESS" "ACC" "STRESS" = Ok records
    ∧ length records = 6%nat.
Proof.
  destruct (process_single_signal Demo.disk (Demo.S05 +:+ "/ACC.csv")
              "S05" "S05_STRESS" "ACC" "STRESS") as [e|records] eqn:Hrun.
  { vm_compute in Hrun. discriminate. }
  exists records. split; [reflexivity|].
  destruct (process_single_signal_count Demo.disk (Demo.S05 +:+ "/ACC.csv")
              "S05" "S05_STRESS" "ACC" "STRESS" Demo.ACC_csv records)
    as [_ Hlen].
  - vm_compute. reflexivity.
  - exact Hrun.
  - exact Hlen.
Defined.

Lemma process_single_signal_zero_rate_witness :
  process_single_signal Sample.disk (Sample.S21 +:+ "/HR.csv")
    "S21" "S21_STRESS" "HR" "STRESS" = raise ZeroDivisionError.
Proof.
  apply (process_single_signal_zero_rate Sample.disk
           (Sample.S21 +:+ "/HR.csv") "S21" "S21_STRESS" "HR" "STRESS"
           {| ts_ns := 1361377519000000000; tzinfo := Some "UTC" |}
           0 [[CNum 80]]).
  - vm_compute. reflexivity.
  - vm_compute. reflexivity.
  - discriminate.
  - discriminate.
Defined.

Lemma upload_to_bigquery_batches_witness :
  (∀ i, (i < 2)%nat → chunk Demo.three_rows 2 i ≠ [])
  ∧ length (chunk Demo.three_rows 2 0) = 2%nat
  ∧ upload_to_bigquery (bq := Demo.available) Demo.three_rows 2 Demo.world
    = (Ok tt, append_measurements Demo.world Demo.three_rows).
Proof.
  destruct (upload_to_bigquery_batches (bq := Demo.available)
              Demo.three_rows 2 Demo.world)
    as (_ & Hfull & Hsize & Hrun); [lia|].
  split; [|split].
  - intros i Hi. apply Hfull. vm_compute. vm_compute in Hi. exact Hi.
  - apply Hsize. vm_compute. lia.
  - apply Hrun. reflexivity.
Defined.

Lemma upload_to_bigquery_append_only_witness :
  ∃ r w',
    upload_to_bigquery (bq := Demo.quota 2) Demo.three_rows 2 Demo.world
    = (r, w')
    ∧ dim_sessions (dataset w') = []
    ∧ ∃ k, fact_physiological_measurements (dataset w')
           = take k Demo.three_rows.
Proof.
  destruct (upload_to_bigquery (bq := Demo.quota 2) Demo.three_rows 2
              Demo.world) as [r w'] eqn:Hrun.
  exists r, w'. split; [reflexivity|].
  destruct (upload_to_bigquery_append_only (bq := Demo.quota 2)
              Demo.three_rows 2 Demo.world r w' Hrun)
    as (_ & Hdim & Hfact & _).
  split; [exact Hdim|exact Hfact].
Defined.

Lemma load_subject_session_success_witness :
  ∃ df w' row,
    load_subject_session (bq := Demo.available) Demo.root "S05" "STRESS" false
      Demo.world = (Ok (Some df), w')
    ∧ w' = append_sessions (append_measurements Demo.world df) [row]
    ∧ SessionRow.data_quality_notes row = None
    ∧ SessionRow.protocol_version row = "V1".
Proof.
  destruct (load_subject_session (bq := Demo.available) Demo.root "S05"
              "STRESS" false Demo.world) as [r w'] eqn:Hrun.
  assert (∃ df, r = Ok (Some df)) as [df ->].
  { vm_compute in Hrun. injection Hrun as <- _. eexists. reflexivity. }
  destruct (load_subject_session_success (bq := Demo.available) Demo.root
              "S05" "STRESS" false Demo.world df w' Hrun)
    as (_ & row & Hw & _ & _ & _ & _ & Hversion & Hnote).
  exists df, w', row. split; [reflexivity|]. split; [exact Hw|].
  split; [exact Hnote|exact Hversion].
Defined.

Lemma load_subject_session_unique_ids_witness :
  ∃ df,
    (load_subject_session (bq := Demo.available) Demo.root "S05" "STRESS"
       false Demo.world).1 = Ok (Some df)
    ∧ NoDup (Row.measurement_id <$> df).
Proof.
  destruct (load_subject_session (bq := Demo.available) Demo.root "S05"
              "STRESS" false Demo.world) as [r w'] eqn:Hrun.
  assert (∃ df, r = Ok (Some df)) as [df ->].
  { vm_compute in Hrun. injection Hrun as <- _. eexists. reflexivity. }
  exists df. split; [reflexivity|].
  exact (load_subject_session_unique_ids (bq := Demo.available) Demo.root
           "S05" "STRESS" false Demo.world df w' Hrun).
Defined.

Lemma load_subject_session_rows_labelled_witness :
  ∃ df,
    (load_subject_session (bq := Demo.available) Demo.root "S05" "STRESS"
       false Demo.world).1 = Ok (Some df)
    ∧ Forall (λ r, Row.subject_id r = "S05"
                   ∧ Row.signal_type r ∈ session_signal_types) df.
Proof.
  destruct (load_subject_session (bq := Demo.available) Demo.root "S05"
              "STRESS" false Demo.world) as [r w'] eqn:Hrun.
  assert (∃ df, r = Ok (Some df)) as [df ->].
  { vm_compute in Hrun. injection Hrun as <- _. eexists. reflexivity. }
  exists df. split; [reflexivity|]. apply Forall_forall. intros row Hin.
  destruct (load_subject_session_rows_labelled (bq := Demo.available)
              Demo.root "S05" "STRESS" false Demo.world df w' Hrun row Hin)
    as (Hsubject & _ & _ & _ & Htype).
  split; [exact Hsubject|exact Htype].
Defined.

Lemma load_subject_session_append_only_witness :
  ∃ r w' measurements,
    load_subject_session (bq := Demo.quota 4) Demo.root "S05" "STRESS" false
      Demo.world = (r, w')
    ∧ fact_physiological_measurements (dataset w') = measurements
    ∧ dim_sessions (dataset w') = [].
Proof.
  destruct (load_subject_session (bq := Demo.quota 4) Demo.root "S05"
              "STRESS" false Demo.world) as [r w'] eqn:Hrun.
  destruct (load_subject_session_append_only (bq := Demo.quota 4) Demo.root
              "S05" "STRESS" false Demo.world r w' Hrun)
    as (_ & measurements & sessions & Hfact & Hdim & _).
  exists r, w', measurements. split; [reflexivity|]. split; [exact Hfact|].
  rewrite Hdim. vm_compute in Hrun. injection Hrun as <- <-.
  vm_compute in Hdim. exact (eq_sym Hdim).
Defined.

Lemma load_subject_session_header_only_witness :
  load_subject_session (bq := Demo.available) Demo.root "S20" "STRESS" false
    Sample.world = (raise KeyError, Sample.world).
Proof.
  apply (load_subject_session_header_only (bq := Demo.available) Demo.root
           "S20" "STRESS" false Sample.world).
  - vm_compute. reflexivity.
  - vm_compute. reflexivity.
  - vm_compute. discriminate.
  - vm_compute. reflexivity.
Defined.

Lemma load_subject_session_metadata_failure_witness :
  ∃ df,
    df ≠ []
    ∧ load_subject_session (bq := Sample.sessions_down) Demo.root "S05"
        "STRESS" false Demo.world
      = (raise (OtherException "ServiceUnavailable"),
         append_measurements Demo.world df).
Proof.
  eexists. split; [|
    apply (load_subject_session_metadata_failure (bq := Sample.sessions_down)
             Demo.root "S05" "STRESS" false Demo.world
             (OtherException "ServiceUnavailable"))].
  - vm_compute. discriminate.
  - vm_compute. reflexivity.
  - vm_compute. reflexivity.
  - vm_compute. discriminate.
  - intros n store. reflexivity.
  - reflexivity.
Defined.

Lemma load_subject_session_rerun_witness :
  ∃ df w1 w2,
    load_subject_session (bq := Demo.available) Demo.root "S05" "STRESS" false
      Demo.world = (Ok (Some df), w1)
    ∧ load_subject_session (bq := Demo.available) Demo.root "S05" "STRESS"
        false w1 = (Ok (Some df), w2)
    ∧ length (dim_sessions (dataset w2)) = 2%nat.
Proof.
  destruct (load_subject_session (bq := Demo.available) Demo.root "S05"
              "STRESS" false Demo.world) as [r w1] eqn:Hrun.
  assert (∃ df, r = Ok (Some df)) as [df ->].
  { vm_compute in Hrun. injection Hrun as <- _. eexists. reflexivity. }
  destruct (load_subject_session_rerun (bq := Demo.available) Demo.root
              "S05" "STRESS" false Demo.world df w1)
    as (row & Hw1 & Hagain).
  - intros table_id n store. reflexivity.
  - exact Hrun.
  - exists df, w1, (append_sessions (append_measurements w1 df) [row]).
    split; [reflexivity|]. split; [exact Hagain|].
    rewrite Hw1. reflexivity.
Defined.

Lemma main_load_all_summary_witness :
  ∃ w',
    main (bq := Demo.available) (os := Sample.host) Sample.load_all Demo.world
    = (Ok (Summary 1 2), w')
    ∧ length (dim_sessions (dataset w')) = 1%nat.
Proof.
  destruct (main (bq := Demo.available) (os := Sample.host) Sample.load_all
              Demo.world) as [r w'] eqn:Hrun.
  assert (r = Ok (Summary 1 2)) as ->.
  { vm_compute in Hrun. injection Hrun as <- _. reflexivity. }
  exists w'. split; [reflexivity|].
  destruct (main_load_all_summary (bq := Demo.available) (os := Sample.host)
              Sample.load_all Demo.world 1 2 w' Hrun)
    as (_ & dataset_root & entries & sessions & _ & _ & _ & _ & Hdim & Hlen
        & _).
  rewrite Hdim. cbn. exact Hlen.
Defined.

Lemma main_rows_admitted_witness :
  ∃ r w',
    main (bq := Demo.available) (os := Sample.host) Sample.load_all Demo.world
    = (r, w')
    ∧ Forall (λ row, Row.session_type row = "STRESS"
                     ∧ Quality.known_issue (Row.subject_id row) "STRESS"
                       = None)
        (fact_physiological_measurements (dataset w')).
Proof.
  destruct (main (bq := Demo.available) (os := Sample.host) Sample.load_all
              Demo.world) as [r w'] eqn:Hrun.
  exists r, w'. split; [reflexivity|].
  destruct (main_rows_admitted (bq := Demo.available) (os := Sample.host)
              Sample.load_all Demo.world r w' Hrun)
    as (_ & measurements & sessions & Hfact & _ & Hrows & _).
  rewrite Hfact. cbn. apply Forall_forall. intros row Hin.
  destruct (Hrows row Hin) as [Htype Hissue]. split; [exact Htype|].
  destruct (Quality.known_issue (Row.subject_id row) "STRESS") as [issue|]
    eqn:Hlook; [|reflexivity].
  destruct (Hissue issue Hlook) as [Hflag _]. discriminate Hflag.
Defined.

Lemma main_usage_error_witness :
  main (bq := Demo.available) (os := Sample.host) Sample.no_mode Demo.world
  = (Ok (SystemExit 1), Demo.world).
Proof.
  destruct (main_usage_error (bq := Demo.available) (os := Sample.host)
              Sample.no_mode Demo.world) as (Hrun & _ & _).
  - reflexivity.
  - left. reflexivity.
  - rewrite Hrun. vm_compute. reflexivity.
Defined.

Lemma main_load_all_aborts_witness :
  ∃ w',
    main (bq := Demo.unavailable) (os := Sample.host) Sample.load_all
      Demo.world
    = (raise (OtherException "ServiceUnavailable"), w').
Proof.
  eexists.
  apply (main_load_all_aborts (bq := Demo.unavailable) (os := Sample.host)
           Sample.load_all Demo.world Demo.root
           [ ("S09", true); ("S05", true); ("README.md", false);
             ("S02", true) ]
           ["S02"] "S05" ["S09"] (0, 1)%nat Demo.world).
  - reflexivity.
  - vm_compute. reflexivity.
  - vm_compute. reflexivity.
  - vm_compute. reflexivity.
  - vm_compute. reflexivity.
  - vm_compute. reflexivity.
Defined.

Lemma analyze_table_structure_exclusive_witness :
  ∃ recommendations,
    Optimizer.analyze_table_structure Sample.tables = Ok recommendations
    ∧ (length recommendations ≤ 4)%nat.
Proof.
  destruct (Optimizer.analyze_table_structure Sample.tables)
    as [e|recommendations] eqn:Hrun.
  { vm_compute in Hrun. discriminate. }
  exists recommendations. split; [reflexivity|].
  destruct (analyze_table_structure_exclusive Sample.tables recommendations
              Hrun) as (per_row & _ & _ & Hlen).
  exact Hlen.
Defined.

End MoreSampleRuns.
